(** * SatyaCheck: the content-to-verdict pipeline of [main.py]

    A shallow embedding of the helper functions and of the page script
    of [src/main.py]:

    - Python strings are sequences of Unicode code points, with the
      string methods the script calls ([strip], [replace], [join],
      [in]);
    - [json.loads] is a character-driven decoder that produces the
      Python values a JSON text denotes;
    - the Streamlit calls, the HTTP request and the call of the
      generative model are events of a trace; what the network, the
      model and the user answer is given by a [world] and a [session];
    - an exception is a value: a computation returns, raises or is
      halted by [st.stop].

    The second half of the file states and proves the properties of the
    specification against these definitions. *)

From Stdlib Require Import Ascii String DecimalString.
From Stdlib Require Import List NArith ZArith Bool Lia.
Import ListNotations.

Local Open Scope list_scope.

(** ** Python strings *)

(** A character is a Unicode code point, a [str] a sequence of them. *)
Definition char := N.
Definition str := list char.

(** A literal of the source, written in ASCII. *)
Definition py (s : string) : str :=
  map N_of_ascii (list_ascii_of_string s).
Arguments py s%_string.

(** Characters the literals of the script cannot be typed with. *)
Definition dq : str := [34%N].            (* the double quote *)
Definition nl : str := [10%N].            (* the line feed *)
Definition backtick : char := 96%N.

Definition robot : str := [0x1F916%N].
Definition police_light : str := [0x1F6A8%N].
Definition warning_sign : str := [0x26A0%N; 0xFE0F%N].
Definition no_entry_sign : str := [0x1F6AB%N].
Definition info_sign : str := [0x2139%N; 0xFE0F%N].
Definition fire : str := [0x1F525%N].
Definition party_popper : str := [0x1F389%N].
Definition thumbs_up : str := [0x1F44D%N].
Definition books : str := [0x1F4DA%N].
Definition brain : str := [0x1F9E0%N].
Definition magnifier : str := [0x1F50E%N].
Definition link_sign : str := [0x1F517%N].
Definition camera : str := [0x1F4F8%N].
Definition sparkles : str := [0x2728%N].
Definition money_bag : str := [0x1F4B0%N].
Definition rupee : str := [0x20B9%N].
Definition herb : str := [0x1F33F%N].

Fixpoint str_eqb (a b : str) : bool :=
  match a, b with
  | [], [] => true
  | x :: a', y :: b' => N.eqb x y && str_eqb a' b'
  | _, _ => false
  end.

(** [s.startswith(p)] *)
Fixpoint startswith (p s : str) : bool :=
  match p, s with
  | [], _ => true
  | x :: p', y :: s' => N.eqb x y && startswith p' s'
  | _ :: _, [] => false
  end.

(** [p in s] for two strings: [p] occurs in [s]. *)
Fixpoint contains (p s : str) : bool :=
  startswith p s ||
  match s with
  | [] => false
  | _ :: s' => contains p s'
  end.

(** [str.isspace] on one character: the characters [strip] removes. *)
Definition isspace (c : char) : bool :=
  ((9 <=? c) && (c <=? 13) || (28 <=? c) && (c <=? 32)
   || (c =? 0x85) || (c =? 0xA0) || (c =? 0x1680)
   || (0x2000 <=? c) && (c <=? 0x200A)
   || (c =? 0x2028) || (c =? 0x2029) || (c =? 0x202F)
   || (c =? 0x205F) || (c =? 0x3000))%N.

Fixpoint lstrip (s : str) : str :=
  match s with
  | c :: s' => if isspace c then lstrip s' else s
  | [] => []
  end.

Definition rstrip (s : str) : str := rev (lstrip (rev s)).

(** [s.strip()] *)
Definition strip (s : str) : str := rstrip (lstrip s).

(** [s.replace(old, new)] for a non-empty [old]: the occurrences of
    [old] are found from the left and do not overlap.  [skip] counts the
    characters of the occurrence under way that are still to be dropped. *)
Fixpoint replace_from (old new : str) (skip : nat) (s : str) : str :=
  match s with
  | [] => []
  | c :: s' =>
      match skip with
      | S k => replace_from old new k s'
      | O =>
          if startswith old s
          then new ++ replace_from old new (pred (length old)) s'
          else c :: replace_from old new 0 s'
      end
  end.

Definition replace (old new s : str) : str := replace_from old new 0 s.

(** [sep.join(l)] *)
Fixpoint join (sep : str) (l : list str) : str :=
  match l with
  | [] => []
  | [s] => s
  | s :: l' => s ++ sep ++ join sep l'
  end.

(** [str(n)] for an integer. *)
Definition str_of_uint (u : Decimal.uint) : str :=
  py (NilZero.string_of_uint u).

Definition str_of_Z (n : Z) : str :=
  match n with
  | Z0 => py "0"
  | Zpos p => str_of_uint (Pos.to_uint p)
  | Zneg p => py "-" ++ str_of_uint (Pos.to_uint p)
  end.

(** ** Python values read from JSON, and [json.loads] *)

(** A Python [float] read from a JSON number: the decimal it was read
    from, [m] times ten to the [e], or one of the three constants the
    decoder accepts. *)
Inductive pyfloat :=
| FDec (neg : bool) (m : N) (e : Z)
| FInf (neg : bool)
| FNaN.

(** What [json.loads] returns: [None], a [bool], an [int], a [float], a
    [str], a [list] or a [dict].  A [dict] keeps its keys in the order
    of their first insertion. *)
#[warnings="-register-all"]
Inductive json :=
| JNull
| JBool (b : bool)
| JInt (n : Z)
| JFloat (f : pyfloat)
| JStr (s : str)
| JList (l : list json)
| JDict (d : list (str * json)).

Definition dict := list (str * json).

(** [d[k] = v] *)
Fixpoint dict_set (d : dict) (k : str) (v : json) : dict :=
  match d with
  | [] => [(k, v)]
  | (k', v') :: d' =>
      if str_eqb k' k then (k', v) :: d' else (k', v') :: dict_set d' k v
  end.

(** [d.get(k)], [None] standing for the absent key. *)
Fixpoint dict_find (d : dict) (k : str) : option json :=
  match d with
  | [] => None
  | (k', v) :: d' => if str_eqb k' k then Some v else dict_find d' k
  end.

(** [k in d] *)
Definition has_key (d : dict) (k : str) : bool :=
  match dict_find d k with Some _ => true | None => false end.

(** [d.get(k, default)] *)
Definition dict_get (d : dict) (k : str) (default : json) : json :=
  match dict_find d k with Some v => v | None => default end.

(** The decoder of [json.loads(s)], with the default arguments: strict
    strings, [int] and [float] for numbers, and the constants [NaN],
    [Infinity] and [-Infinity].  It reads the text one character at a
    time; the containers that are open are kept on a stack.  Integers
    and the depth of nesting are unbounded, and a message carries no
    line and column. *)
Module Decoder.

(** The four characters the decoder skips between tokens. *)
Definition is_ws (c : char) : bool :=
  ((c =? 32) || (c =? 9) || (c =? 10) || (c =? 13))%N.

Definition digit (c : char) : option N :=
  if ((48 <=? c) && (c <=? 57))%N then Some (c - 48)%N else None.

Definition hexdigit (c : char) : option N :=
  if ((48 <=? c) && (c <=? 57))%N then Some (c - 48)%N
  else if ((97 <=? c) && (c <=? 102))%N then Some (c - 87)%N
  else if ((65 <=? c) && (c <=? 70))%N then Some (c - 55)%N
  else None.

Definition is_high_surrogate (c : char) : bool :=
  ((0xD800 <=? c) && (c <=? 0xDBFF))%N.
Definition is_low_surrogate (c : char) : bool :=
  ((0xDC00 <=? c) && (c <=? 0xDFFF))%N.
Definition join_surrogates (hi lo : char) : char :=
  (0x10000 + (((hi - 0xD800) * 0x400) + (lo - 0xDC00)))%N.

(** Where the decoder is inside a string. *)
Inductive sstate :=
| SChars                       (* between two characters *)
| SEsc                         (* after a backslash *)
| SHex (k : nat) (acc : N).    (* in a \u escape, [k] digits read *)

(** Where the decoder is inside a number. *)
Inductive nstate :=
| NMinus
| NZero (neg : bool)
| NInt (neg : bool) (n : N)
| NDot (neg : bool) (n : N)
| NFrac (neg : bool) (m : N) (k : N)
| NE (neg : bool) (m : N) (k : N)
| NESign (neg : bool) (m : N) (k : N) (eneg : bool)
| NExp (neg : bool) (m : N) (k : N) (eneg : bool) (e : N).

(** The constants spelled with letters. *)
Inductive literal := LNull | LTrue | LFalse | LNaN | LInf | LNegInf.

Definition lit_text (l : literal) : str :=
  match l with
  | LNull => py "null"
  | LTrue => py "true"
  | LFalse => py "false"
  | LNaN => py "NaN"
  | LInf => py "Infinity"
  | LNegInf => py "-Infinity"
  end.

Definition lit_value (l : literal) : json :=
  match l with
  | LNull => JNull
  | LTrue => JBool true
  | LFalse => JBool false
  | LNaN => JFloat FNaN
  | LInf => JFloat (FInf false)
  | LNegInf => JFloat (FInf true)
  end.

Inductive mode :=
| MValue                                  (* a value starts here *)
| MFirst                                  (* after [: a value or ] *)
| MAfterElem (acc : list json)            (* after an element *)
| MKey0                                   (* after {: a key or } *)
| MKey (acc : dict)                       (* after , in an object *)
| MColon (acc : dict) (key : str)         (* after a key *)
| MAfterMember (acc : dict)               (* after a member *)
| MString (tgt : option dict) (buf : str) (hi : bool) (s : sstate)
| MNumber (n : nstate)
| MLit (l : literal) (k : nat)            (* [k] characters of [l] read *)
| MDone (v : json)                        (* the document is read *)
| MFail (msg : str).

(** An open container that waits for the value being read. *)
Inductive frame :=
| FList (acc : list json)
| FDict (acc : dict) (key : str).

Definition state := (mode * list frame)%type.

Definition init : state := (MValue, []).

Definition expecting_value := py "Expecting value".
Definition expecting_comma := py "Expecting ',' delimiter".
Definition expecting_colon := py "Expecting ':' delimiter".
Definition expecting_name :=
  py "Expecting property name enclosed in double quotes".
Definition extra_data := py "Extra data".
Definition unterminated := py "Unterminated string starting at".
Definition control_character := py "Invalid control character at".
Definition invalid_escape := py "Invalid \escape".
Definition invalid_uescape := py "Invalid \uXXXX escape".
Definition unexpected_bom :=
  py "Unexpected UTF-8 BOM (decode using utf-8-sig)".

(** A value is complete: it goes to the innermost open container. *)
Definition complete (v : json) (st : list frame) : state :=
  match st with
  | [] => (MDone v, [])
  | FList acc :: st' => (MAfterElem (v :: acc), st')
  | FDict acc k :: st' => (MAfterMember (dict_set acc k v), st')
  end.

(** The message when something else than a delimiter follows a value. *)
Definition after_msg (st : list frame) : str :=
  match st with
  | [] => extra_data
  | _ :: _ => expecting_comma
  end.

(** The first character of a value. *)
Definition begin_value (c : char) (st : list frame) : state :=
  if (c =? 34)%N then (MString None [] false SChars, st)
  else if (c =? 123)%N then (MKey0, st)
  else if (c =? 91)%N then (MFirst, st)
  else if (c =? 110)%N then (MLit LNull 1, st)
  else if (c =? 116)%N then (MLit LTrue 1, st)
  else if (c =? 102)%N then (MLit LFalse 1, st)
  else if (c =? 78)%N then (MLit LNaN 1, st)
  else if (c =? 73)%N then (MLit LInf 1, st)
  else if (c =? 45)%N then (MNumber NMinus, st)
  else match digit c with
       | Some 0%N => (MNumber (NZero false), st)
       | Some d => (MNumber (NInt false d), st)
       | None => (MFail expecting_value, st)
       end.

(** A character after a complete value. *)
Definition after_value (s : state) (c : char) : state :=
  let (m, st) := s in
  if is_ws c then s
  else match m with
       | MAfterElem acc =>
           if (c =? 44)%N then (MValue, FList acc :: st)
           else if (c =? 93)%N then complete (JList (rev acc)) st
           else (MFail expecting_comma, st)
       | MAfterMember acc =>
           if (c =? 44)%N then (MKey acc, st)
           else if (c =? 125)%N then complete (JDict acc) st
           else (MFail expecting_comma, st)
       | MDone _ => (MFail extra_data, st)
       | _ => s
       end.

Definition signed (neg : bool) (n : N) : Z :=
  if neg then (- Z.of_N n)%Z else Z.of_N n.

(** The value of a number that ends here, if it may end here. *)
Definition num_value (n : nstate) : option json :=
  match n with
  | NZero _ => Some (JInt 0)
  | NInt neg n => Some (JInt (signed neg n))
  | NFrac neg m k => Some (JFloat (FDec neg m (- Z.of_N k)))
  | NExp neg m k eneg e =>
      Some (JFloat (FDec neg m (signed eneg e - Z.of_N k)))
  | NMinus | NDot _ _ | NE _ _ _ | NESign _ _ _ _ => None
  end.

(** One more character of a number; [None] when [c] is not part of it. *)
Definition num_step (n : nstate) (c : char) : option mode :=
  let exp_mark := ((c =? 101) || (c =? 69))%N in
  match n with
  | NMinus =>
      if (c =? 73)%N then Some (MLit LNegInf 2)
      else match digit c with
           | Some 0%N => Some (MNumber (NZero true))
           | Some d => Some (MNumber (NInt true d))
           | None => Some (MFail expecting_value)
           end
  | NZero neg =>
      if (c =? 46)%N then Some (MNumber (NDot neg 0))
      else if exp_mark then Some (MNumber (NE neg 0 0))
      else None
  | NInt neg n =>
      match digit c with
      | Some d => Some (MNumber (NInt neg (10 * n + d)))
      | None =>
          if (c =? 46)%N then Some (MNumber (NDot neg n))
          else if exp_mark then Some (MNumber (NE neg n 0))
          else None
      end
  | NDot neg n =>
      match digit c with
      | Some d => Some (MNumber (NFrac neg (10 * n + d) 1))
      | None => None
      end
  | NFrac neg m k =>
      match digit c with
      | Some d => Some (MNumber (NFrac neg (10 * m + d) (k + 1)))
      | None => if exp_mark then Some (MNumber (NE neg m k)) else None
      end
  | NE neg m k =>
      match digit c with
      | Some d => Some (MNumber (NExp neg m k false d))
      | None =>
          if (c =? 43)%N then Some (MNumber (NESign neg m k false))
          else if (c =? 45)%N then Some (MNumber (NESign neg m k true))
          else None
      end
  | NESign neg m k eneg =>
      match digit c with
      | Some d => Some (MNumber (NExp neg m k eneg d))
      | None => None
      end
  | NExp neg m k eneg e =>
      match digit c with
      | Some d => Some (MNumber (NExp neg m k eneg (10 * e + d)))
      | None => None
      end
  end.

(** The character an escape stands for. *)
Definition escape (c : char) : option char :=
  if ((c =? 34) || (c =? 92) || (c =? 47))%N then Some c
  else if (c =? 98)%N then Some 8%N
  else if (c =? 102)%N then Some 12%N
  else if (c =? 110)%N then Some 10%N
  else if (c =? 114)%N then Some 13%N
  else if (c =? 116)%N then Some 9%N
  else None.

(** The string is closed: it is a value, or the key of a member. *)
Definition close_string (tgt : option dict) (buf : str)
    (st : list frame) : state :=
  match tgt with
  | None => complete (JStr (rev buf)) st
  | Some acc => (MColon acc (rev buf), st)
  end.

(** A \u escape is read.  A low surrogate that follows the escape of a
    high one makes one character with it. *)
Definition push_escaped (buf : str) (hi : bool) (u : char) : str * bool :=
  match buf with
  | h :: buf' =>
      if hi && is_low_surrogate u
      then (join_surrogates h u :: buf', false)
      else (u :: buf, is_high_surrogate u)
  | [] => (u :: buf, is_high_surrogate u)
  end.

Definition string_step (tgt : option dict) (buf : str) (hi : bool)
    (s : sstate) (c : char) (st : list frame) : state :=
  match s with
  | SChars =>
      if (c =? 34)%N then close_string tgt buf st
      else if (c =? 92)%N then (MString tgt buf hi SEsc, st)
      else if (c <? 32)%N then (MFail control_character, st)
      else (MString tgt (c :: buf) false SChars, st)
  | SEsc =>
      if (c =? 117)%N then (MString tgt buf hi (SHex 0 0), st)
      else match escape c with
           | Some x => (MString tgt (x :: buf) false SChars, st)
           | None => (MFail invalid_escape, st)
           end
  | SHex k acc =>
      match hexdigit c with
      | None => (MFail invalid_uescape, st)
      | Some d =>
          let acc' := (16 * acc + d)%N in
          match k with
          | 3%nat =>
              let (buf', hi') := push_escaped buf hi acc' in
              (MString tgt buf' hi' SChars, st)
          | _ => (MString tgt buf hi (SHex (S k) acc'), st)
          end
      end
  end.

Definition step (s : state) (c : char) : state :=
  let (m, st) := s in
  match m with
  | MFail _ => s
  | MValue => if is_ws c then s else begin_value c st
  | MFirst =>
      if is_ws c then s
      else if (c =? 93)%N then complete (JList []) st
      else begin_value c (FList [] :: st)
  | MKey0 =>
      if is_ws c then s
      else if (c =? 34)%N then (MString (Some []) [] false SChars, st)
      else if (c =? 125)%N then complete (JDict []) st
      else (MFail expecting_name, st)
  | MKey acc =>
      if is_ws c then s
      else if (c =? 34)%N then (MString (Some acc) [] false SChars, st)
      else (MFail expecting_name, st)
  | MColon acc k =>
      if is_ws c then s
      else if (c =? 58)%N then (MValue, FDict acc k :: st)
      else (MFail expecting_colon, st)
  | MAfterElem _ | MAfterMember _ | MDone _ => after_value s c
  | MString tgt buf hi ss => string_step tgt buf hi ss c st
  | MNumber n =>
      match num_step n c with
      | Some m' => (m', st)
      | None =>
          match num_value n with
          | Some v => after_value (complete v st) c
          | None => (MFail (after_msg st), st)
          end
      end
  | MLit l k =>
      match nth_error (lit_text l) k with
      | Some x =>
          if (c =? x)%N
          then if (S k =? length (lit_text l))%nat
               then complete (lit_value l) st
               else (MLit l (S k), st)
          else (MFail expecting_value, st)
      | None => (MFail expecting_value, st)
      end
  end.

Definition run (s : state) (text : str) : state := fold_left step text s.

(** The end of the text: the value, or the message of the error. *)
Definition finish (s : state) : str + json :=
  let (m, st) := s in
  match m with
  | MDone v => inr v
  | MNumber NMinus => inl expecting_value
  | MNumber n =>
      match num_value n, st with
      | Some v, [] => inr v
      | _, _ => inl (after_msg st)
      end
  | MFail msg => inl msg
  | MValue | MFirst | MLit _ _ => inl expecting_value
  | MAfterElem _ | MAfterMember _ => inl expecting_comma
  | MKey0 | MKey _ => inl expecting_name
  | MColon _ _ => inl expecting_colon
  | MString _ _ _ _ => inl unterminated
  end.

Definition decode (text : str) : str + json :=
  if startswith [0xFEFF%N] text then inl unexpected_bom
  else finish (run init text).

(** The value of a result, if it is one. *)
Definition value_of (r : str + json) : option json :=
  match r with
  | inr v => Some v
  | inl _ => None
  end.

(** A state no white space leads out of: the decoder has failed, or
    it is inside a string. *)
Definition stuck (s : state) : bool :=
  match fst s with
  | MFail _ | MString _ _ _ _ => true
  | _ => false
  end.

(** The shape of a state: where the decoder is, without the values read
    so far. *)
Inductive skind := KChars | KEsc | KHex (k : nat).

Inductive nkind := KMinus | KZero | KInt | KDot | KFrac | KE | KESign | KExp.

Inductive mkind :=
| KValue
| KFirst
| KAfterElem
| KKey0
| KKey
| KColon
| KAfterMember
| KString (is_key : bool) (s : skind)
| KNumber (n : nkind)
| KLit (l : literal) (k : nat)
| KDone
| KFail.

Definition sstate_kind (s : sstate) : skind :=
  match s with
  | SChars => KChars
  | SEsc => KEsc
  | SHex k _ => KHex k
  end.

Definition nstate_kind (n : nstate) : nkind :=
  match n with
  | NMinus => KMinus
  | NZero _ => KZero
  | NInt _ _ => KInt
  | NDot _ _ => KDot
  | NFrac _ _ _ => KFrac
  | NE _ _ _ => KE
  | NESign _ _ _ _ => KESign
  | NExp _ _ _ _ _ => KExp
  end.

Definition mode_kind (m : mode) : mkind :=
  match m with
  | MValue => KValue
  | MFirst => KFirst
  | MAfterElem _ => KAfterElem
  | MKey0 => KKey0
  | MKey _ => KKey
  | MColon _ _ => KColon
  | MAfterMember _ => KAfterMember
  | MString tgt _ _ s =>
      KString (match tgt with Some _ => true | None => false end)
        (sstate_kind s)
  | MNumber n => KNumber (nstate_kind n)
  | MLit l k => KLit l k
  | MDone _ => KDone
  | MFail _ => KFail
  end.

Definition frame_kind (f : frame) : bool :=
  match f with
  | FList _ => true
  | FDict _ _ => false
  end.

Definition shape (s : state) : mkind * list bool :=
  (mode_kind (fst s), map frame_kind (snd s)).

(** The decoder is between two characters of a string. *)
Definition in_string (s : state) : bool :=
  match fst s with
  | MString _ _ _ SChars => true
  | _ => false
  end.

End Decoder.

(** ** Exceptions *)

(** The exceptions of class [Exception] the script can meet.  [Failure]
    stands for any such exception raised by a library, the network or
    the model; [what] is its [str(e)]. *)
Inductive exn :=
| JSONDecodeError (msg : str)
| HTTPError (msg : str)
| TypeError (msg : str)
| AttributeError (msg : str)
| ValueError (msg : str)
| KeyError (key : str)
| Failure (what : str).

(** [str(e)] *)
Definition exn_str (e : exn) : str :=
  match e with
  | JSONDecodeError msg | HTTPError msg | TypeError msg
  | AttributeError msg | ValueError msg | Failure msg => msg
  | KeyError key => py "'" ++ key ++ py "'"
  end.

(** How a statement ends: it returns, an [Exception] propagates, or
    [st.stop()] halts the run of the script. *)
Inductive outcome (A : Type) :=
| Return (a : A)
| Raise (e : exn)
| Halt.
Arguments Return {A} a.
Arguments Raise {A} e.
Arguments Halt {A}.

(** [json.loads(s)] *)
Definition json_loads (s : str) : outcome json :=
  match Decoder.decode s with
  | inr v => Return v
  | inl msg => Raise (JSONDecodeError msg)
  end.

(** ** Python operations on the decoded values *)

Definition type_name (v : json) : str :=
  match v with
  | JNull => py "NoneType"
  | JBool _ => py "bool"
  | JInt _ => py "int"
  | JFloat _ => py "float"
  | JStr _ => py "str"
  | JList _ => py "list"
  | JDict _ => py "dict"
  end.

(** [f == 0.0]: a decimal is read as zero when it is zero or lies at
    most half way to the smallest positive [float], two to the -1074. *)
Definition float_is_zero (f : pyfloat) : bool :=
  match f with
  | FDec _ m e =>
      (m =? 0)%N || ((e <? 0) && (Z.of_N m * 2 ^ 1075 <=? 10 ^ (- e)))%Z
  | FInf _ | FNaN => false
  end.

(** [bool(v)], the test of [if v:]. *)
Definition truthy (v : json) : bool :=
  match v with
  | JNull => false
  | JBool b => b
  | JInt n => negb (n =? 0)%Z
  | JFloat f => negb (float_is_zero f)
  | JStr s => match s with [] => false | _ => true end
  | JList l => match l with [] => false | _ => true end
  | JDict d => match d with [] => false | _ => true end
  end.

Definition is_str (k : str) (v : json) : bool :=
  match v with JStr s => str_eqb s k | _ => false end.

(** [k in x] for a string [k] *)
Definition py_in (k : str) (x : json) : outcome bool :=
  match x with
  | JDict d => Return (has_key d k)
  | JList l => Return (existsb (is_str k) l)
  | JStr s => Return (contains k s)
  | _ => Raise (TypeError (py "argument of type '" ++ type_name x
                           ++ py "' is not iterable"))
  end.

(** [x[k]] for a string [k] *)
Definition py_getitem (x : json) (k : str) : outcome json :=
  match x with
  | JDict d =>
      match dict_find d k with
      | Some v => Return v
      | None => Raise (KeyError k)
      end
  | JList _ =>
      Raise (TypeError (py "list indices must be integers or slices, not str"))
  | JStr _ =>
      Raise (TypeError (py "string indices must be integers, not 'str'"))
  | _ => Raise (TypeError (py "'" ++ type_name x
                           ++ py "' object is not subscriptable"))
  end.

(** [x.get(k, default)] *)
Definition py_get (x : json) (k : str) (default : json) : outcome json :=
  match x with
  | JDict d => Return (dict_get d k default)
  | _ => Raise (AttributeError (py "'" ++ type_name x
                                ++ py "' object has no attribute 'get'"))
  end.

(** What [for flag in x] goes through: the elements of a list, the
    characters of a string, the keys of a dict. *)
Definition py_iter (x : json) : outcome (list json) :=
  match x with
  | JList l => Return l
  | JStr s => Return (map (fun c => JStr [c]) s)
  | JDict d => Return (map (fun kv => JStr (fst kv)) d)
  | _ => Raise (TypeError (py "'" ++ type_name x
                           ++ py "' object is not iterable"))
  end.

(** ** What the script shows and whom it calls *)

(** The text a call shows.  An f-string is the sequence of its [pieces]:
    literal text and formatted values.  Formatting a [str] gives its
    characters, so [fmt] turns such a value into text and joins
    neighbouring text; a value of another type stays a [Val], its
    [str(v)] is not spelled out. *)
Inductive piece :=
| Lit (s : str)
| Val (v : json).
Definition fstring := list piece.

Definition as_text (p : piece) : piece :=
  match p with
  | Val (JStr s) => Lit s
  | _ => p
  end.

Fixpoint fmt (pieces : list piece) : fstring :=
  match pieces with
  | [] => []
  | p :: rest =>
      match as_text p, fmt rest with
      | Lit a, Lit b :: r => Lit (a ++ b) :: r
      | q, r => q :: r
      end
  end.

(** A plain string as the body of a call. *)
Definition text (s : str) : fstring := fmt [Lit s].

(** An uploaded file, and the image [Image.open] makes of it. *)
Record upload := { file_name : str; file_bytes : list N }.
Inductive image := Opened (file : upload).

(** A page fetched by [requests.get], with the document
    [BeautifulSoup(response.content, 'html.parser')] reads from it: text,
    tags, and the strings [get_text] leaves out, such as comments. *)
#[warnings="-register-all"]
Inductive node :=
| Text (s : str)
| Comment (s : str)
| Tag (name : str) (children : list node).

Record response := {
  status_code : Z;
  reason : str;
  url : str;
  content : list node
}.

(** The figure of the gauge. *)
Record figure := {
  mode : str;
  value : json;
  domain : (Z * Z) * (Z * Z);
  title_text : str;
  title_font : Z * str;
  axis_range : Z * Z;
  axis_tickcolor : str;
  bar_color : str;
  bgcolor : str;
  steps : list ((Z * Z) * str);
  number_font_color : str;
  paper_bgcolor : str;
  font_color : str
}.

(** The calls of Streamlit, with their arguments. *)
Module St.
Inductive call :=
| set_page_config (page_title page_icon layout initial_sidebar_state : str)
| markdown (body : fstring) (unsafe_allow_html : bool)
| error (body : fstring) (icon : option str)
| warning (body : fstring)
| info (body : fstring) (icon : option str)
| success (body : fstring) (icon : option str)
| stop
| balloons
| title (body : str)
| header (body : str) (divider : option str)
| subheader (body : str)
| columns (spec : list Z)
| tabs (labels : list str)
| plotly_chart (fig : figure) (use_container_width : bool)
| selectbox (label : str) (options : list str) (key : str)
| text_area (label value : str) (height : Z) (key : str)
| text_input (label key : str)
| button (label : str) (use_container_width : bool) (key : str)
| file_uploader (label : str) (type : list str) (key : str)
| image (file : upload) (caption : str) (use_column_width : bool).
End St.

(** The blocks entered by [with]. *)
Inductive block :=
| Sidebar
| Tab (n : nat)
| Col (n : nat)
| Expander (label : str) (expanded : bool)
| Spinner (label : str).

Inductive part :=
| PText (s : str)
| PImage (i : image).

Inductive event :=
| Call (c : St.call)
| Enter (b : block)
| Exit (b : block)
| LoadDotenv
| Configure (api_key : option str)
| GenerativeModel (name : str)
| HttpGet (url : str) (headers : list (str * str)) (timeout : Z)
| GenerateContent (request_content : list part)
| ImageOpen (file : upload).

(** What is outside the script: the environment of the process, the
    libraries that may refuse, the network and the model.  A call that
    may fail gives its result or the exception it raises. *)
Record world := {
  load_dotenv : option exn;                  (* [load_dotenv()] *)
  getenv : str -> option str;                (* [os.getenv(name)] *)
  configure : option str -> option exn;      (* [genai.configure(api_key=k)] *)
  generative_model : str -> option exn;      (* [genai.GenerativeModel(name)] *)
  requests_get : str -> exn + response;      (* [requests.get(url, ...)] *)
  generate_content : list part -> exn + str; (* [generate_content(c).text] *)
  image_open : upload -> exn + image         (* PIL's [Image.open] on a file *)
}.

(** A statement of the script: the events it gives rise to, in order,
    and how it ends. *)
Definition prog (A : Type) : Type := (list event * outcome A)%type.

Definition ret {A} (a : A) : prog A := ([], Return a).

Definition bind {A B} (m : prog A) (k : A -> prog B) : prog B :=
  match m with
  | (t, Return a) => let (t', o) := k a in (t ++ t', o)
  | (t, Raise e) => (t, Raise e)
  | (t, Halt) => (t, Halt)
  end.

Declare Scope prog_scope.
Delimit Scope prog_scope with prog.
Bind Scope prog_scope with prog.
Notation "x <- m ;; k" := (bind m (fun x => k))
  (at level 61, m at next level, right associativity) : prog_scope.
Notation "m ;; k" := (bind m (fun _ => k))
  (at level 61, right associativity) : prog_scope.
Local Open Scope prog_scope.

Definition emit (e : event) : prog unit := ([e], Return tt).
Definition lift {A} (o : outcome A) : prog A := ([], o).
Definition st (c : St.call) : prog unit := emit (Call c).

(** [st.stop()] *)
Definition st_stop {A} : prog A := ([Call St.stop], Halt).

(** [try: body except Exception as e: handler e] *)
Definition try_except {A} (body : prog A) (handler : exn -> prog A)
    : prog A :=
  match body with
  | (t, Raise e) => let (t', o) := handler e in (t ++ t', o)
  | _ => body
  end.

(** [with b: body]; the block is left also when [body] does not
    return. *)
Definition within {A} (b : block) (body : prog A) : prog A :=
  let (t, o) := body in (Enter b :: t ++ [Exit b], o).

(** [for x in l: body x] *)
Fixpoint for_each {A} (l : list A) (body : A -> prog unit) : prog unit :=
  match l with
  | [] => ret tt
  | x :: l' => body x ;; for_each l' body
  end.

(** ** The helper functions of the script *)

(** [response.raise_for_status()]: the statuses from 400 to 599 raise. *)
Definition raise_for_status (r : response) : outcome unit :=
  let describe kind :=
    str_of_Z (status_code r) ++ kind ++ reason r ++ py " for url: " ++ url r in
  if ((400 <=? status_code r) && (status_code r <? 500))%Z
  then Raise (HTTPError (describe (py " Client Error: ")))
  else if ((500 <=? status_code r) && (status_code r <? 600))%Z
  then Raise (HTTPError (describe (py " Server Error: ")))
  else Return tt.

(** [tag.get_text()]: the strings below a tag, comments left out. *)
Fixpoint get_text (n : node) : str :=
  match n with
  | Text s => s
  | Comment _ => []
  | Tag _ children => concat (map get_text children)
  end.

(** [soup.find_all(name)]: the tags of that name, in document order,
    those nested in another one included. *)
Fixpoint find_all_in (name : str) (n : node) : list node :=
  match n with
  | Tag name' children =>
      (if str_eqb name' name then [n] else [])
      ++ concat (map (find_all_in name) children)
  | Text _ | Comment _ => []
  end.

Definition find_all (name : str) (soup : list node) : list node :=
  concat (map (find_all_in name) soup).

Definition get_text_from_url (w : world) (url : str) : prog str :=
  try_except
    (let headers := [(py "User-Agent", py "Mozilla/5.0")] in
     emit (HttpGet url headers 10) ;;
     response <- lift (match requests_get w url with
                       | inr r => Return r
                       | inl e => Raise e
                       end) ;;
     lift (raise_for_status response) ;;
     let soup := content response in
     let paragraphs := find_all (py "p") soup in
     ret (join (py " ") (map get_text paragraphs)))
    (fun e => ret (py "Error fetching URL: " ++ exn_str e)).

Definition prompt_template (text_prompt : str) : str :=
  nl ++ py "    As an expert misinformation analyst specializing in the Indian context, analyze the provided content. If the content is an image, describe it, extract any text, and then analyze. Your goal is to identify red flags and educate the user. Do not give a simple true/false verdict."
  ++ nl ++ py "    Content to analyze: --- " ++ text_prompt ++ py " ---"
  ++ nl ++ py "    Provide your analysis ONLY in a structured JSON format with keys: "
  ++ dq ++ py "credibility_score" ++ dq ++ py ", "
  ++ dq ++ py "summary" ++ dq ++ py ", "
  ++ dq ++ py "red_flags" ++ dq ++ py ", "
  ++ dq ++ py "educational_insight" ++ dq
  ++ py ". The " ++ dq ++ py "red_flags" ++ dq
  ++ py " key must be a list of JSON objects, where each object has a "
  ++ dq ++ py "flag_type" ++ dq ++ py " and a "
  ++ dq ++ py "description" ++ dq ++ py "." ++ nl ++ py "    ".

(** The two markers of a fenced block, and the two replacements that
    drop them. *)
Definition fence_open : str := py "```json".
Definition fence_close : str := py "```".

Definition drop_fences (s : str) : str :=
  replace fence_close [] (replace fence_open [] s).

(** [text.strip().replace("```json", "").replace("```", "")] *)
Definition strip_fences (text : str) : str := drop_fences (strip text).

Definition analysis_failed : str :=
  py "AI analysis failed. The model response was not valid JSON. Details: ".

(** The dict the [except] clause of [get_ai_analysis] returns. *)
Definition error_record (e : exn) : json :=
  JDict [(py "error", JStr (analysis_failed ++ exn_str e))].

(** [[prompt_template, image] if image else [prompt_template]] *)
Definition request_content (prompt_template : str) (image : option image)
    : list part :=
  match image with
  | Some i => [PText prompt_template; PImage i]
  | None => [PText prompt_template]
  end.

Definition get_ai_analysis (w : world) (text_prompt : str)
    (image : option image) : prog json :=
  let prompt_template := prompt_template text_prompt in
  try_except
    (let request_content := request_content prompt_template image in
     emit (GenerateContent request_content) ;;
     response_text <- lift (match generate_content w request_content with
                            | inr t => Return t
                            | inl e => Raise e
                            end) ;;
     let json_text := strip_fences response_text in
     lift (json_loads json_text))
    (fun e => ret (error_record e)).

(** The figure [create_gauge_chart] builds around a value. *)
Definition gauge (score : json) : figure :=
  {| mode := py "gauge+number";
     value := score;
     domain := ((0, 1), (0, 1))%Z;
     title_text := py "Trust Score";
     title_font := (24%Z, py "white");
     axis_range := (0, 10)%Z;
     axis_tickcolor := py "white";
     bar_color := py "#00d4ff";
     bgcolor := py "rgba(0,0,0,0.2)";
     steps := [((0, 4)%Z, py "rgba(255, 0, 0, 0.5)");
               ((4, 7)%Z, py "rgba(255, 255, 0, 0.5)");
               ((7, 10)%Z, py "rgba(0, 255, 0, 0.5)")];
     number_font_color := py "white";
     paper_bgcolor := py "rgba(0,0,0,0)";
     font_color := py "white" |}.

(** What [go.Indicator] takes as its [value]: a number ([int], [float]
    or [bool]) or [None]. *)
Definition gauge_value_ok (score : json) : bool :=
  match score with
  | JNull | JBool _ | JInt _ | JFloat _ => true
  | JStr _ | JList _ | JDict _ => false
  end.

(** [create_gauge_chart(score)]: plotly refuses another value with a
    [ValueError], whose message begins as below. *)
Definition create_gauge_chart (score : json) : outcome figure :=
  if gauge_value_ok score then Return (gauge score)
  else Raise (ValueError (py "Invalid value of type 'builtins."
                          ++ type_name score
                          ++ py "' received for the 'value' property of indicator")).

(** The body of the loop over the red flags. *)
Definition display_flag (flag : json) : prog unit :=
  match flag with
  | JDict f =>
      let flag_type := dict_get f (py "flag_type") (JStr (py "General Flag")) in
      let description :=
        dict_get f (py "description") (JStr (py "No description provided.")) in
      st (St.error (fmt [Lit (py "**"); Val flag_type; Lit (py ":** ");
                         Val description]) (Some fire))
  | JStr _ =>
      st (St.error (fmt [Lit (py "**General Flag:** "); Val flag])
            (Some fire))
  | _ => ret tt
  end.

(** The red flags of the report, lines 176 to 187. *)
Definition display_red_flags (analysis_result : json) : prog unit :=
  st (St.subheader (police_light ++ py " Detected Red Flags")) ;;
  red_flags <- lift (py_get analysis_result (py "red_flags") (JList [])) ;;
  if truthy red_flags then
    flags <- lift (py_iter red_flags) ;;
    for_each flags display_flag
  else
    st (St.success
          (text (party_popper ++ py " No significant red flags were detected."))
          (Some thumbs_up)).

Definition display_analysis_report (analysis_result : json) : prog unit :=
  is_error <- lift (py_in (py "error") analysis_result) ;;
  if is_error : bool then
    message <- lift (py_getitem analysis_result (py "error")) ;;
    st (St.error (fmt [Lit (warning_sign ++ py " Analysis Error: ");
                       Val message])
          (Some no_entry_sign))
  else
    st St.balloons ;;
    st (St.header (py "Analysis Report") (Some (py "rainbow"))) ;;
    st (St.columns [1; 2]%Z) ;;
    within (Col 1)
      (score <- lift (py_get analysis_result (py "credibility_score")
                        (JInt 0)) ;;
       fig <- lift (create_gauge_chart score) ;;
       st (St.plotly_chart fig true)) ;;
    within (Col 2)
      (st (St.subheader (py "Quick Summary")) ;;
       summary_text <- lift (py_get analysis_result (py "summary")
                               (JStr (py "No summary available."))) ;;
       st (St.markdown
             (fmt [Lit (py "<div class=" ++ dq ++ py "typewriter-container"
                        ++ dq ++ py ">");
                   Val summary_text; Lit (py "</div>")]) true) ;;
       st (St.info (text []) (Some info_sign))) ;;
    display_red_flags analysis_result ;;
    within
      (Expander (books ++ py " **Click here for the full educational insight**")
         true)
      (insight <- lift (py_get analysis_result (py "educational_insight")
                          (JStr (py "No educational insight available."))) ;;
       st (St.success (fmt [Val insight]) None)).

(** ** The page script *)

(** The entries of [EXAMPLES], in the order of the dict. *)
Inductive example := NoExample | LotteryScam | HealthCure.

Definition example_label (e : example) : str :=
  match e with
  | NoExample => sparkles ++ py " Select a Pre-loaded Example"
  | LotteryScam => money_bag ++ py " Lottery Scam Message"
  | HealthCure => herb ++ py " Viral Health 'Cure'"
  end.

Definition example_text (e : example) : str :=
  match e with
  | NoExample => []
  | LotteryScam =>
      py "CONGRATS! Your mobile number has won a " ++ rupee
      ++ py "50,00,000 prize in the KBC Lottery! To claim, transfer " ++ rupee
      ++ py "5,000 processing fee immediately to UPI ID: kbcwinner@bank. Limited time offer! Call +919876543210 for details. SHARE THIS WITH 5 GROUPS!"
  | HealthCure =>
      py "BREAKING! Doctors HIDING this! Ayurvedic miracle herb 'Velvet Leaf' found in India can CURE ALL types of cancer in 30 days! Research banned by big pharma. Share before they delete this truth!"
  end.

Definition EXAMPLES : list (str * str) :=
  map (fun e => (example_label e, example_text e))
      [NoExample; LotteryScam; HealthCure].

(** [d[k]] for a dict of strings *)
Fixpoint lookup (d : list (str * str)) (k : str) : outcome str :=
  match d with
  | [] => Raise (KeyError k)
  | (k', v) :: d' => if str_eqb k' k then Return v else lookup d' k
  end.

(** What the user did before this run of the script: the state of the
    widgets. *)
Record session := {
  selected_example : example;
  text_area_value : str;
  text_btn : bool;
  url_input_value : str;
  url_btn : bool;
  uploaded_file : option upload;
  img_btn : bool
}.

Definition nonempty (s : str) : bool :=
  match s with [] => false | _ :: _ => true end.

(** The two lines every scan ends with: the analysis, then its report. *)
Definition analyze (w : world) (text_prompt : str) (image : option image)
    : prog unit :=
  analysis <- get_ai_analysis w text_prompt image ;;
  display_analysis_report analysis.

(** The three scans, as the buttons start them. *)
Definition text_scan (w : world) (text_input : str) : prog unit :=
  within (Spinner (py "Analyzing linguistic patterns..."))
    (analyze w text_input None).

Definition url_scan (w : world) (url_input : str) : prog unit :=
  within (Spinner (py "Deploying web crawler and analyzing content..."))
    (scraped_text <- get_text_from_url w url_input ;;
     if contains (py "Error") scraped_text then
       st (St.error (text scraped_text) None)
     else
       analyze w scraped_text None).

Definition image_scan (w : world) (uploaded_image : upload) : prog unit :=
  within (Spinner (py "Processing visual data and extracting text..."))
    (emit (ImageOpen uploaded_image) ;;
     image <- lift (match image_open w uploaded_image with
                    | inr i => Return i
                    | inl e => Raise e
                    end) ;;
     analyze w (py "Analyze the text and context in this image.")
       (Some image)).

Definition may_raise (o : option exn) : prog unit :=
  match o with
  | Some e => lift (Raise e)
  | None => ret tt
  end.

(** The set-up of the model, lines 91 to 97. *)
Definition startup (w : world) : prog unit :=
  try_except
    (emit LoadDotenv ;;
     may_raise (load_dotenv w) ;;
     let api_key := getenv w (py "GOOGLE_API_KEY") in
     emit (Configure api_key) ;;
     may_raise (configure w api_key) ;;
     emit (GenerativeModel (py "gemini-1.5-flash")) ;;
     may_raise (generative_model w (py "gemini-1.5-flash")))
    (fun e =>
       st (St.error (text (police_light ++ py " AI Model Error: " ++ exn_str e
                           ++ py ". Check your API key."))
             (Some warning_sign)) ;;
       st_stop).

Definition sidebar : prog unit :=
  within Sidebar
    (st (St.title (py "SatyaCheck AI " ++ brain)) ;;
     st (St.header (py "The Digital Truth Sentinel") None) ;;
     st (St.info (text (py "Welcome to the next generation of misinformation analysis. Our multi-modal AI platform analyzes text, URLs, and images to illuminate the truth.")) None) ;;
     st (St.success (text (py "**Hackathon Champion Edition**")) None) ;;
     st (St.warning (text (py "**Disclaimer:** AI is a powerful tool, not a replacement for critical thinking. Always verify.")))).

Definition tab1 (w : world) (ui : session) : prog unit :=
  within (Tab 1)
    (st (St.header (py "Text Analysis Module") None) ;;
     st (St.selectbox (py "Choose a pre-loaded example:") (map fst EXAMPLES)
           (py "example_selector")) ;;
     let selected_example := example_label (selected_example ui) in
     value <- lift (lookup EXAMPLES selected_example) ;;
     st (St.text_area (py "Or, paste your text content here:") value 200
           (py "text_area")) ;;
     let text_input := text_area_value ui in
     st (St.button (py "Initiate Text Scan") true (py "text_btn")) ;;
     if text_btn ui then
       if nonempty text_input then text_scan w text_input
       else st (St.warning (text (py "Please provide text for analysis.")))
     else ret tt).

Definition tab2 (w : world) (ui : session) : prog unit :=
  within (Tab 2)
    (st (St.header (py "URL Analysis Module") None) ;;
     st (St.text_input (py "Enter webpage URL for deep content scan:")
           (py "url_input")) ;;
     let url_input := url_input_value ui in
     st (St.button (py "Initiate URL Scan") true (py "url_btn")) ;;
     if url_btn ui then
       if nonempty url_input then url_scan w url_input
       else st (St.warning (text (py "Please provide a URL for analysis.")))
     else ret tt).

(** [st.image(file, caption=..., use_column_width=...)] for an uploaded
    file.  Streamlit opens the bytes of the upload with PIL before it
    draws them: for a file PIL cannot read, the exception of PIL leaves
    the call. *)
Definition st_image (w : world) (file : upload) (caption : str)
    (use_column_width : bool) : prog unit :=
  st (St.image file caption use_column_width) ;;
  lift (match image_open w file with
        | inr _ => Return tt
        | inl e => Raise e
        end).

Definition tab3 (w : world) (ui : session) : prog unit :=
  within (Tab 3)
    (st (St.header (py "Image Analysis Module") None) ;;
     st (St.file_uploader
           (py "Upload image for optical character and context recognition:")
           [py "jpg"; py "jpeg"; py "png"] (py "img_uploader")) ;;
     match uploaded_file ui with
     | Some uploaded_image =>
         st_image w uploaded_image (py "Image awaiting analysis") true ;;
         st (St.button (py "Initiate Image Scan") true (py "img_btn")) ;;
         if img_btn ui then image_scan w uploaded_image else ret tt
     | None => ret tt
     end).

Section Script.

(** The style sheet of lines 20 to 87, which the script hands to
    [st.markdown] as it is. *)
Variable theme_css : str.

(** One run of [main.py]. *)
Definition script (w : world) (ui : session) : prog unit :=
  st (St.set_page_config
        (py "SatyaCheck AI | Holographic Command Center") robot
        (py "wide") (py "expanded")) ;;
  st (St.markdown (text theme_css) true) ;;
  startup w ;;
  sidebar ;;
  st (St.title (py "SatyaCheck AI: The Digital Truth Sentinel")) ;;
  st (St.tabs [magnifier ++ py " Analyze Text";
               link_sign ++ py " Analyze URL";
               camera ++ py " Analyze Image"]) ;;
  tab1 w ui ;;
  tab2 w ui ;;
  tab3 w ui.

End Script.

(** ** The result of an analysis *)

(** What [get_ai_analysis] hands to [display_analysis_report] is a
    failure record when it is a dict with the key ["error"]: the dict
    the [except] clause makes, and any other the report shows as an
    error. *)
Definition is_failure_record (v : json) : bool :=
  match v with
  | JDict d => has_key d (py "error")
  | _ => false
  end.

(** The types of the fields of a success record: those of the defaults
    [display_analysis_report] reads them with, and of the two cases of
    its loop over the red flags.  The score is a number, [int] or
    [float] (a [bool] or [None] is none, and nothing in the source
    bounds the number); the summary and the insight are strings; the red
    flags are a list whose entries are strings or dicts with, where they
    have them, a string as ["flag_type"] and as ["description"]. *)
Definition is_number (v : json) : bool :=
  match v with
  | JInt _ | JFloat _ => true
  | _ => false
  end.

Definition is_text (v : json) : bool :=
  match v with
  | JStr _ => true
  | _ => false
  end.

Definition is_flag (v : json) : bool :=
  match v with
  | JStr _ => true
  | JDict f =>
      is_text (dict_get f (py "flag_type") (JStr (py "General Flag")))
      && is_text (dict_get f (py "description")
                    (JStr (py "No description provided.")))
  | _ => false
  end.

Definition is_flags (v : json) : bool :=
  match v with
  | JList l => forallb is_flag l
  | _ => false
  end.

(** A success record is a dict without the key ["error"] whose four
    fields, each the value of its key or the default of the report when
    the key is missing, have these types. *)
Definition is_success_record (v : json) : bool :=
  match v with
  | JDict d =>
      negb (has_key d (py "error"))
      && is_number (dict_get d (py "credibility_score") (JInt 0))
      && is_text (dict_get d (py "summary")
                    (JStr (py "No summary available.")))
      && is_flags (dict_get d (py "red_flags") (JList []))
      && is_text (dict_get d (py "educational_insight")
                    (JStr (py "No educational insight available.")))
  | _ => false
  end.

(** The success record as the report shows it: the four fields, the red
    flags as pairs of a type and a description. *)
Record red_flag := {
  flagType : json;
  description : json
}.

Record success_record := {
  credibilityScore : json;
  summary : json;
  redFlags : list red_flag;
  educationalInsight : json
}.

(** The line of the report that shows a red flag. *)
Definition flag_event (f : red_flag) : event :=
  Call (St.error (fmt [Lit (py "**"); Val (flagType f); Lit (py ":** ");
                       Val (description f)]) (Some fire)).

(** The red flags of a success record on the page: a line for each, or
    the one line that says there is none. *)
Definition flags_report (flags : list red_flag) : list event :=
  Call (St.subheader (police_light ++ py " Detected Red Flags"))
  :: match flags with
     | [] => [Call (St.success
                      (text (party_popper
                             ++ py " No significant red flags were detected."))
                      (Some thumbs_up))]
     | _ => map flag_event flags
     end.

(** The report of a success record on the page. *)
Definition report (r : success_record) : list event :=
  [Call St.balloons;
   Call (St.header (py "Analysis Report") (Some (py "rainbow")));
   Call (St.columns [1; 2]%Z);
   Enter (Col 1);
   Call (St.plotly_chart (gauge (credibilityScore r)) true);
   Exit (Col 1);
   Enter (Col 2);
   Call (St.subheader (py "Quick Summary"));
   Call (St.markdown
           (fmt [Lit (py "<div class=" ++ dq ++ py "typewriter-container"
                      ++ dq ++ py ">");
                 Val (summary r); Lit (py "</div>")]) true);
   Call (St.info (text []) (Some info_sign));
   Exit (Col 2)]
  ++ flags_report (redFlags r)
  ++ [Enter (Expander
               (books ++ py " **Click here for the full educational insight**")
               true);
      Call (St.success (fmt [Val (educationalInsight r)]) None);
      Exit (Expander
              (books ++ py " **Click here for the full educational insight**")
              true)].

(** The message of a failure record on the page. *)
Definition failure_report (message : json) : list event :=
  [Call (St.error (fmt [Lit (warning_sign ++ py " Analysis Error: ");
                        Val message])
           (Some no_entry_sign))].

(** An entry of [red_flags] as the loop of the report reads it: an
    object gives its two fields, a string is a general flag, an entry of
    another type is passed over. *)
Definition normalize_flag (flag : json) : option red_flag :=
  match flag with
  | JDict f =>
      Some {| flagType := dict_get f (py "flag_type") (JStr (py "General Flag"));
              description := dict_get f (py "description")
                               (JStr (py "No description provided.")) |}
  | JStr s =>
      Some {| flagType := JStr (py "General Flag"); description := JStr s |}
  | _ => None
  end.

Definition normalize_flags (flags : list json) : list red_flag :=
  flat_map (fun flag => match normalize_flag flag with
                        | Some f => [f]
                        | None => []
                        end) flags.

(** The first exception the set-up of the model meets, if any. *)
Definition startup_error (w : world) : option exn :=
  match load_dotenv w with
  | Some e => Some e
  | None =>
      match configure w (getenv w (py "GOOGLE_API_KEY")) with
      | Some e => Some e
      | None => generative_model w (py "gemini-1.5-flash")
      end
  end.

(** The page text of a response: what [get_text_from_url] joins. *)
Definition page_text (r : response) : str :=
  join (py " ") (map get_text (find_all (py "p") (content r))).

(** [x] is what [d.get(k, default)] gives. *)
Definition field_or (d : dict) (k : str) (default x : json) : Prop :=
  match dict_find d k with
  | Some v => x = v
  | None => x = default
  end.

(** An entry of [red_flags] of the requested shape: an object with a
    ["flag_type"] and a ["description"], which [f] holds. *)
Definition structured (x : json) (f : red_flag) : Prop :=
  exists o, x = JDict o
            /\ dict_find o (py "flag_type") = Some (flagType f)
            /\ dict_find o (py "description") = Some (description f).

Definition is_dict_or_str (v : json) : bool :=
  match v with
  | JDict _ | JStr _ => true
  | _ => false
  end.

(** The answer of the model to the request of [get_ai_analysis]. *)
Definition answer (w : world) (text_prompt : str) (image : option image)
    : exn + str :=
  generate_content w (request_content (prompt_template text_prompt) image).

(** The value of a computation that returned. *)
Definition parsed {A} (o : outcome A) : option A :=
  match o with
  | Return v => Some v
  | _ => None
  end.

(** A text between the two markers, with [w1] and [w2] between the
    markers and the text; and the usual case, a text between a [```json]
    line and a [```] line. *)
Definition fenced_with (w1 w2 t : str) : str :=
  fence_open ++ w1 ++ t ++ w2 ++ fence_close.

Definition fenced (t : str) : str := fenced_with nl nl t.

(** ** Worlds and texts to run the script on *)

(** A JSON text typed with apostrophes where it has double quotes. *)
Definition js (s : string) : str :=
  map (fun c => if (c =? 39)%N then 34%N else c) (py s).
Arguments js s%_string.

(** A world whose model gives the answer [a] to every request and whose
    network gives [page]. *)
Definition stub (a : exn + str) (page : exn + response) : world :=
  {| load_dotenv := None;
     getenv := fun _ => None;
     configure := fun _ => None;
     generative_model := fun _ => None;
     requests_get := fun _ => page;
     generate_content := fun _ => a;
     image_open := fun f => inr (Opened f) |}.

Definition offline : exn + response :=
  inl (Failure (py "connection refused")).

Definition answering (t : str) : world := stub (inr t) offline.

Definition serving (status : Z) (reason : str) (soup : list node) : world :=
  stub (inl (Failure (py "quota exceeded")))
       (inr {| status_code := status; reason := reason;
               url := py "http://example.org/"; content := soup |}).

(** A world without an API key.  [genai.configure] takes the absent
    key and the model is made without a call of the service; it is the
    call of the model that fails for want of a key. *)
Definition keyless : world :=
  {| load_dotenv := None;
     getenv := fun _ => None;
     configure := fun _ => None;
     generative_model := fun _ => None;
     requests_get := fun _ => offline;
     generate_content := fun _ => inl (Failure (py "No API key"));
     image_open := fun f => inr (Opened f) |}.


(** A page with two paragraphs. *)
Definition two_paragraphs : list node :=
  [Tag (py "html")
     [Tag (py "head") [Tag (py "title") [Text (py "News")]];
      Tag (py "body")
        [Tag (py "h1") [Text (py "News")];
         Tag (py "p") [Text (py "A.")];
         Comment (py "an advertisement");
         Tag (py "div") [Tag (py "p") [Text (py "B.")]]]]].

(** The request [get_text_from_url] sends. *)
Definition fetch (url : str) : event :=
  HttpGet url [(py "User-Agent", py "Mozilla/5.0")] 10.

(** ** What a run does besides drawing *)

(** The events that draw on the page: the calls of Streamlit and the
    blocks.  The others reach outside the script: the environment, the
    libraries, the network and the model. *)
Definition draws (e : event) : bool :=
  match e with
  | Call _ | Enter _ | Exit _ => true
  | _ => false
  end.

(** The events of a trace that reach outside, in their order. *)
Definition outside (t : list event) : list event :=
  filter (fun e => negb (draws e)) t.


Definition is_page_config (e : event) : bool :=
  match e with
  | Call (St.set_page_config _ _ _ _) => true
  | _ => false
  end.

(** The values [for flag in red_flags] goes through. *)
Definition iterable (v : json) : bool :=
  match v with
  | JList _ | JStr _ | JDict _ => true
  | _ => false
  end.

(** The exceptions the report raises. *)
Definition of_report (e : exn) : bool :=
  match e with
  | TypeError _ | AttributeError _ | ValueError _ => true
  | _ => false
  end.

(** The heading of the red flags, and the line of the report for a
    string among them. *)
Definition subheader_of_flags : event :=
  Call (St.subheader (police_light ++ py " Detected Red Flags")).

Definition general_flag (s : str) : event :=
  Call (St.error (text (py "**General Flag:** " ++ s)) (Some fire)).

(** A character a JSON value can begin with, as [json.loads] has it. *)
Definition starts_value (c : char) : bool :=
  match fst (Decoder.begin_value c []) with
  | Decoder.MFail _ => false
  | _ => true
  end.

(** A state of the decoder in which the value at the top is no object:
    a number or a constant is being read there, or a value that is no
    object has been read, or the text is refused. *)
Definition scalar (s : Decoder.state) : bool :=
  match s with
  | (Decoder.MNumber _, []) | (Decoder.MLit _ _, [])
  | (Decoder.MFail _, _) => true
  | (Decoder.MDone v, _) => match v with JDict _ => false | _ => true end
  | _ => false
  end.

(** A text between two markers without the name of a language. *)
Definition bare_fenced (w1 w2 t : str) : str :=
  fence_close ++ w1 ++ t ++ w2 ++ fence_close.

Definition url_spinner : block :=
  Spinner (py "Deploying web crawler and analyzing content...").
Definition image_spinner : block :=
  Spinner (py "Processing visual data and extracting text...").

Definition image_instruction : str :=
  py "Analyze the text and context in this image.".

Definition no_text_warning : event :=
  Call (St.warning (text (py "Please provide text for analysis."))).
Definition no_url_warning : event :=
  Call (St.warning (text (py "Please provide a URL for analysis."))).

(** Whether [raise_for_status] lets the response through. *)
Definition status_passes (r : response) : bool :=
  match raise_for_status r with
  | Return _ => true
  | _ => false
  end.

(** The calls of the set-up of the model when nothing raises. *)
Definition setup_calls (w : world) : list event :=
  [LoadDotenv; Configure (getenv w (py "GOOGLE_API_KEY"));
   GenerativeModel (py "gemini-1.5-flash")].

(** The first call of the script. *)
Definition page_config : event :=
  Call (St.set_page_config
          (py "SatyaCheck AI | Holographic Command Center") robot
          (py "wide") (py "expanded")).

(** Sessions with one button pressed. *)
Definition pressing_text (s : str) : session :=
  {| selected_example := NoExample;
     text_area_value := s;
     text_btn := true;
     url_input_value := [];
     url_btn := false;
     uploaded_file := None;
     img_btn := false |}.

Definition pressing_url (s : str) : session :=
  {| selected_example := NoExample;
     text_area_value := [];
     text_btn := false;
     url_input_value := s;
     url_btn := true;
     uploaded_file := None;
     img_btn := false |}.

Definition pressing_image (f : upload) : session :=
  {| selected_example := NoExample;
     text_area_value := [];
     text_btn := false;
     url_input_value := [];
     url_btn := false;
     uploaded_file := Some f;
     img_btn := true |}.

(** A world whose image library refuses every file. *)
Definition unreadable : world :=
  {| load_dotenv := None;
     getenv := fun _ => None;
     configure := fun _ => None;
     generative_model := fun _ => None;
     requests_get := fun _ => offline;
     generate_content := fun _ => inr (js "{}");
     image_open := fun _ => inl (Failure (py "cannot identify image file")) |}.

(** * Properties *)

(** ** Strings *)

Lemma str_eqb_eq (a b : str) : str_eqb a b = true <-> a = b.
Proof.
  revert b; induction a as [|x a IH]; intros [|y b]; simpl;
    try (split; [discriminate | discriminate]); try tauto.
  rewrite andb_true_iff, N.eqb_eq, IH.
  split; [intros [-> ->]; reflexivity | intros H; inversion H; auto].
Qed.

Lemma str_eqb_refl (a : str) : str_eqb a a = true.
Proof. apply str_eqb_eq; reflexivity. Qed.

Lemma startswith_app (p s : str) : startswith p (p ++ s) = true.
Proof.
  induction p as [|x p IH]; simpl; [reflexivity|].
  rewrite N.eqb_refl; exact IH.
Qed.

Lemma startswith_more (p s t : str) :
  startswith p s = true -> startswith p (s ++ t) = true.
Proof.
  revert s; induction p as [|x p IH]; intros [|y s]; simpl; try easy.
  rewrite !andb_true_iff; intros [-> H]; auto.
Qed.

(** A prefix that reaches a character it does not hold ends before it. *)
Lemma startswith_before (p s t : str) (c : char) :
  ~ In c p -> startswith p (s ++ c :: t) = startswith p s.
Proof.
  revert s; induction p as [|x p IH]; intros s Hc; [destruct s; reflexivity|].
  destruct s as [|y s]; simpl.
  - destruct (N.eqb_spec x c) as [->|]; [|reflexivity].
    exfalso; apply Hc; left; reflexivity.
  - rewrite IH; [reflexivity|]. intros H; apply Hc; right; exact H.
Qed.

Lemma startswith_length (p s : str) :
  startswith p s = true -> length p <= length s.
Proof.
  revert s; induction p as [|x p IH]; intros [|y s]; simpl; try easy; try lia.
  rewrite andb_true_iff; intros [_ H]; apply IH in H; lia.
Qed.

Lemma startswith_split (p q s : str) :
  startswith (p ++ q) s = true -> startswith p s = true.
Proof.
  revert s; induction p as [|x p IH]; intros s; simpl; [reflexivity|].
  destruct s as [|y s]; [discriminate|].
  rewrite !andb_true_iff; intros [-> H]; auto.
Qed.

Lemma startswith_prefix (p s : str) :
  startswith p s = true -> exists r, s = p ++ r.
Proof.
  revert s; induction p as [|x p IH]; intros s H; [exists s; reflexivity|].
  destruct s as [|y s]; [discriminate H|].
  simpl in H. apply andb_true_iff in H as [E H].
  apply N.eqb_eq in E; subst y.
  destruct (IH s H) as [r ->]. exists r; reflexivity.
Qed.

Lemma contains_split (p q s : str) :
  contains p s = false -> contains (p ++ q) s = false.
Proof.
  induction s as [|c s IH]; simpl.
  - rewrite !orb_false_r. intros H.
    destruct (startswith (p ++ q) []) eqn:E; [|reflexivity].
    apply startswith_split in E; congruence.
  - rewrite !orb_false_iff; intros [H1 H2]; split; [|auto].
    destruct (startswith (p ++ q) (c :: s)) eqn:E; [|reflexivity].
    apply startswith_split in E; congruence.
Qed.

(** A part of a string holds no occurrence the string does not hold. *)
Lemma contains_inside (p a s b : str) :
  contains p (a ++ s ++ b) = false -> contains p s = false.
Proof.
  induction a as [|c a IH]; simpl.
  - induction s as [|c s IHs]; simpl.
    + destruct p; [|reflexivity]. destruct b; discriminate.
    + rewrite !orb_false_iff; intros [H1 H2]; split; [|auto].
      destruct (startswith p (c :: s)) eqn:E; [|reflexivity].
      apply (startswith_more _ _ b) in E; simpl in E; congruence.
  - rewrite orb_false_iff; intros [_ H]; auto.
Qed.

(** *** [replace] *)

Section Replace.

Variables old new : str.
Hypothesis old_nonempty : old <> [].

Lemma replace_from_skip (x s : str) :
  replace_from old new (length x) (x ++ s) = replace_from old new 0 s.
Proof.
  induction x as [|c x IH]; simpl; [reflexivity | exact IH].
Qed.

(** An occurrence cannot reach over a character [old] does not hold. *)
Lemma replace_from_before (c : char) (s t : str) (k : nat) :
  ~ In c old -> k <= length s ->
  replace_from old new k (s ++ c :: t)
  = replace_from old new k s ++ c :: replace_from old new 0 t.
Proof.
  intros Hc; revert k; induction s as [|a s IH]; intros k Hk.
  - simpl in Hk. assert (k = 0) by lia; subst k. simpl.
    destruct old as [|x p]; [congruence|]. simpl.
    destruct (N.eqb_spec x c) as [->|]; [|reflexivity].
    exfalso; apply Hc; left; reflexivity.
  - destruct k as [|k]; [|simpl in *; apply IH; lia].
    change ((a :: s) ++ c :: t) with (a :: (s ++ c :: t)).
    cbn [replace_from].
    change (a :: (s ++ c :: t)) with ((a :: s) ++ c :: t).
    rewrite startswith_before by exact Hc.
    destruct (startswith old (a :: s)) eqn:E.
    + apply startswith_length in E; simpl in E.
      rewrite IH by lia. rewrite app_assoc; reflexivity.
    + rewrite IH by lia. reflexivity.
Qed.

Lemma replace_around (c : char) (s t : str) :
  ~ In c old ->
  replace old new (s ++ c :: t)
  = replace old new s ++ c :: replace old new t.
Proof.
  intros Hc. apply (replace_from_before c s t 0 Hc). lia.
Qed.

Lemma replace_cons (c : char) (t : str) :
  ~ In c old -> replace old new (c :: t) = c :: replace old new t.
Proof.
  intros Hc. apply (replace_from_before c [] t 0 Hc). simpl; lia.
Qed.

Lemma replace_prefix (w s : str) :
  (forall c, In c w -> ~ In c old) ->
  replace old new (w ++ s) = w ++ replace old new s.
Proof.
  induction w as [|c w IH]; intros Hw; simpl; [reflexivity|].
  rewrite replace_cons by (apply Hw; left; reflexivity).
  rewrite IH; [reflexivity|]. intros x Hx; apply Hw; right; exact Hx.
Qed.

Lemma replace_suffix (s w : str) :
  (forall c, In c w -> ~ In c old) ->
  replace old new (s ++ w) = replace old new s ++ w.
Proof.
  destruct w as [|c w]; intros Hw.
  - rewrite !app_nil_r; reflexivity.
  - unfold replace. rewrite replace_from_before;
      [|apply Hw; left; reflexivity | lia].
    fold (replace old new w).
    rewrite <- (app_nil_r w) at 1. rewrite replace_prefix.
    + rewrite app_nil_r; reflexivity.
    + intros x Hx; apply Hw; right; exact Hx.
Qed.

Lemma replace_occurrence (s : str) :
  replace old new (old ++ s) = new ++ replace old new s.
Proof.
  unfold replace. destruct old as [|x p] eqn:E; [congruence|].
  change ((x :: p) ++ s) with (x :: (p ++ s)). cbn [replace_from].
  change (x :: (p ++ s)) with ((x :: p) ++ s).
  rewrite startswith_app. simpl pred. rewrite <- E.
  rewrite replace_from_skip; reflexivity.
Qed.

Lemma replace_absent (s : str) :
  contains old s = false -> replace old new s = s.
Proof.
  unfold replace; induction s as [|c s IH]; [reflexivity|].
  cbn [contains replace_from]. rewrite orb_false_iff; intros [-> H].
  rewrite IH by exact H; reflexivity.
Qed.

End Replace.

(** *** [strip] *)

Lemma lstrip_split (s : str) :
  exists w, s = w ++ lstrip s /\ forallb isspace w = true.
Proof.
  induction s as [|c s (w & E & Hw)]; [exists []; split; reflexivity|].
  simpl. destruct (isspace c) eqn:Hc.
  - exists (c :: w); simpl; rewrite Hc, Hw, <- E; split; reflexivity.
  - exists []; split; reflexivity.
Qed.

Lemma strip_split (s : str) :
  exists w1 w2, s = w1 ++ strip s ++ w2
                /\ forallb isspace w1 = true /\ forallb isspace w2 = true.
Proof.
  destruct (lstrip_split s) as (w1 & E1 & H1).
  destruct (lstrip_split (rev (lstrip s))) as (w2 & E2 & H2).
  exists w1, (rev w2). unfold strip, rstrip. split; [|split].
  - rewrite E1 at 1. f_equal.
    rewrite <- rev_app_distr, <- E2, rev_involutive; reflexivity.
  - exact H1.
  - rewrite forallb_forall in *. intros x Hx; apply H2, in_rev; exact Hx.
Qed.

Lemma lstrip_id (c : char) (s : str) :
  isspace c = false -> lstrip (c :: s) = c :: s.
Proof. intros H; simpl; rewrite H; reflexivity. Qed.

Lemma rstrip_id (s : str) (c : char) :
  isspace c = false -> rstrip (s ++ [c]) = s ++ [c].
Proof.
  intros H. unfold rstrip. rewrite rev_app_distr.
  change (rev [c] ++ rev s) with (c :: rev s).
  rewrite lstrip_id by exact H.
  change (c :: rev s) with ([c] ++ rev s).
  rewrite rev_app_distr, rev_involutive; reflexivity.
Qed.

(** *** The fence markers *)

Lemma strip_fences_unfold (t : str) :
  strip_fences t = drop_fences (strip t).
Proof. reflexivity. Qed.

Lemma space_not_in_fence (c : char) :
  isspace c = true -> ~ In c fence_open /\ ~ In c fence_close.
Proof.
  intros H; split; intros Hin; cbv in Hin;
    repeat (destruct Hin as [Hin|Hin]; [subst c; discriminate H|]);
    exact Hin.
Qed.

Lemma spaces_not_in_fence (w : str) :
  forallb isspace w = true ->
  (forall c, In c w -> ~ In c fence_open)
  /\ (forall c, In c w -> ~ In c fence_close).
Proof.
  rewrite forallb_forall; intros H; split; intros c Hc;
    apply space_not_in_fence, H, Hc.
Qed.

Lemma fence_open_nonempty : fence_open <> [].
Proof. discriminate. Qed.

Lemma fence_close_nonempty : fence_close <> [].
Proof. discriminate. Qed.

(** White space around a text stays where it is. *)
Lemma drop_fences_spaces (w1 s w2 : str) :
  forallb isspace w1 = true -> forallb isspace w2 = true ->
  drop_fences (w1 ++ s ++ w2) = w1 ++ drop_fences s ++ w2.
Proof.
  intros H1 H2.
  destruct (spaces_not_in_fence w1 H1) as [O1 C1].
  destruct (spaces_not_in_fence w2 H2) as [O2 C2].
  unfold drop_fences.
  rewrite (replace_prefix _ _ fence_open_nonempty) by exact O1.
  rewrite (replace_suffix _ _ fence_open_nonempty) by exact O2.
  rewrite (replace_prefix _ _ fence_close_nonempty) by exact C1.
  rewrite (replace_suffix _ _ fence_close_nonempty) by exact C2.
  reflexivity.
Qed.

Lemma strip_fenced_with (w1 w2 t : str) :
  strip (fenced_with w1 w2 t) = fenced_with w1 w2 t.
Proof.
  unfold strip, fenced_with.
  change (fence_open ++ w1 ++ t ++ w2 ++ fence_close)
    with (backtick :: (py "``json" ++ w1 ++ t ++ w2 ++ fence_close)).
  rewrite lstrip_id by reflexivity.
  change (backtick :: (py "``json" ++ w1 ++ t ++ w2 ++ fence_close))
    with (fence_open ++ w1 ++ t ++ w2 ++ (py "``" ++ [backtick])).
  rewrite !app_assoc. apply rstrip_id; reflexivity.
Qed.

(** ** The decoder and white space *)

Module DecoderFacts.
Import Decoder.

Lemma run_app (s : state) (a b : str) : run s (a ++ b) = run (run s a) b.
Proof. apply fold_left_app. Qed.

Lemma run_fail (msg : str) (st : list frame) (t : str) :
  run (MFail msg, st) t = (MFail msg, st).
Proof. induction t as [|c t IH]; [reflexivity | exact IH]. Qed.

(** The characters [strip] removes: the four of JSON, six more
    controls, or characters from 0x85 on. *)
Lemma isspace_cases (c : char) :
  isspace c = true ->
  is_ws c = true
  \/ ((c = 11 \/ c = 12 \/ c = 28 \/ c = 29 \/ c = 30 \/ c = 31)%N
      /\ is_ws c = false)
  \/ ((133 <= c)%N /\ is_ws c = false).
Proof.
  unfold isspace, is_ws.
  rewrite !orb_true_iff, !andb_true_iff, !N.leb_le, !N.eqb_eq.
  intros H.
  destruct (N.le_gt_cases 133 c) as [Hbig|Hsmall].
  - right; right; split; [exact Hbig|].
    rewrite !orb_false_iff, !N.eqb_neq; lia.
  - assert (Hc : (c = 9 \/ c = 10 \/ c = 11 \/ c = 12 \/ c = 13 \/ c = 28
                  \/ c = 29 \/ c = 30 \/ c = 31 \/ c = 32)%N) by lia.
    clear H Hsmall.
    repeat (destruct Hc as [->|Hc]; [auto 10|]). subst c; auto.
Qed.

Lemma lit_text_plain (l : literal) (k : nat) (x : char) :
  nth_error (lit_text l) k = Some x ->
  (33 <= x < 128)%N /\ x <> backtick /\ x <> 34%N.
Proof.
  destruct l;
    do 10 (destruct k as [|k];
           [intros E; cbv in E; try discriminate E;
            injection E as <-; unfold backtick; lia|]);
    intros E; cbv in E; discriminate E.
Qed.

(** White space after the text does not change the value read. *)
Lemma step_ws (s : state) (c : char) :
  is_ws c = true -> value_of (finish (step s c)) = value_of (finish s).
Proof.
  intros H. unfold is_ws in H.
  rewrite !orb_true_iff, !N.eqb_eq in H.
  destruct s as [m st].
  destruct m as [| | | | | | |tgt buf hi ss|n|l k| |];
    try (destruct H as [[[-> | ->] | ->] | ->]; reflexivity).
  - destruct ss; destruct H as [[[-> | ->] | ->] | ->]; reflexivity.
  - destruct n; destruct st as [|[] st];
      destruct H as [[[-> | ->] | ->] | ->]; reflexivity.
  - cbn [step]. destruct (nth_error (lit_text l) k) as [x|] eqn:E;
      [|reflexivity].
    apply lit_text_plain in E.
    destruct (N.eqb_spec c x) as [->|]; [|reflexivity].
    exfalso; lia.
Qed.

Lemma run_ws (w : str) (s : state) :
  forallb is_ws w = true -> value_of (finish (run s w)) = value_of (finish s).
Proof.
  revert s; induction w as [|c w IH]; intros s H; [reflexivity|].
  simpl in H; apply andb_true_iff in H as [Hc Hw].
  change (run s (c :: w)) with (run (step s c) w).
  rewrite IH by exact Hw. apply step_ws, Hc.
Qed.

Lemma run_init_ws (w t : str) :
  forallb is_ws w = true -> run init (w ++ t) = run init t.
Proof.
  induction w as [|c w IH]; intros H; [reflexivity|].
  simpl in H; apply andb_true_iff in H as [Hc Hw].
  change (run init ((c :: w) ++ t)) with (run (step init c) (w ++ t)).
  unfold init at 1; cbn [step]. rewrite Hc. apply IH, Hw.
Qed.

(** The other characters [strip] removes are refused everywhere but
    inside a string. *)
Lemma odd_space_cases (c : char) :
  isspace c = true -> is_ws c = false ->
  (c = 11 \/ c = 12 \/ c = 28 \/ c = 29 \/ c = 30 \/ c = 31 \/ 133 <= c)%N.
Proof.
  intros H1 H2. destruct (isspace_cases c H1) as [H|[[H _]|[H _]]].
  - congruence.
  - lia.
  - lia.
Qed.

Ltac other_char c :=
  unfold digit, hexdigit, escape, is_ws;
  repeat match goal with
    | |- context [(c =? ?k)%N] =>
        destruct (N.eqb_spec c k); [exfalso; lia|]
    | |- context [(?k <=? c)%N] => destruct (N.leb_spec k c)
    | |- context [(c <=? ?k)%N] => destruct (N.leb_spec c k)
    | |- context [(c <? ?k)%N] => destruct (N.ltb_spec c k)
    end;
  cbn [andb orb]; try reflexivity; try (exfalso; lia).

Lemma begin_value_odd (c : char) (st : list frame) :
  isspace c = true -> is_ws c = false ->
  begin_value c st = (MFail expecting_value, st).
Proof.
  intros H1 H2. pose proof (odd_space_cases c H1 H2) as H.
  unfold begin_value. other_char c.
Qed.

Lemma after_value_odd (m : mode) (st : list frame) (c : char) :
  isspace c = true -> is_ws c = false ->
  match m with
  | MAfterElem _ | MAfterMember _ | MDone _ => True
  | _ => False
  end ->
  stuck (after_value (m, st) c) = true.
Proof.
  intros H1 H2 Hm. pose proof (odd_space_cases c H1 H2) as H.
  unfold after_value. rewrite H2.
  destruct m; try contradiction; other_char c.
Qed.

Lemma complete_after (v : json) (st : list frame) :
  match fst (complete v st) with
  | MAfterElem _ | MAfterMember _ | MDone _ => True
  | _ => False
  end.
Proof. destruct st as [|[] st]; exact I. Qed.

Lemma step_odd (s : state) (c : char) :
  isspace c = true -> is_ws c = false -> stuck (step s c) = true.
Proof.
  intros H1 H2. pose proof (odd_space_cases c H1 H2) as H.
  destruct s as [m st].
  destruct m as [| | | | | | |tgt buf hi ss|n|l k| |]; cbn [step];
    try (apply after_value_odd; [assumption | assumption | exact I]);
    try rewrite H2; try rewrite (begin_value_odd c _ H1 H2);
    try reflexivity.
  - other_char c.
  - other_char c.
  - other_char c.
  - other_char c.
  - unfold string_step. destruct ss; other_char c.
  - destruct (num_step n c) as [m'|] eqn:E.
    + destruct n; unfold num_step in E; revert E; other_char c;
        intros [= <-]; reflexivity.
    + destruct (num_value n) as [v|]; [|reflexivity].
      pose proof (complete_after v st) as Hv.
      destruct (complete v st) as [m' st'].
      apply after_value_odd; assumption.
  - destruct (nth_error (lit_text l) k) as [x|] eqn:E; [|reflexivity].
    apply lit_text_plain in E.
    destruct (N.eqb_spec c x) as [->|]; [exfalso; lia | reflexivity].
Qed.

Lemma step_stuck (s : state) (c : char) :
  stuck s = true -> isspace c = true -> stuck (step s c) = true.
Proof.
  intros Hs Hc. destruct s as [m st].
  destruct m as [| | | | | | |tgt buf hi ss| | | |]; try discriminate Hs;
    [|reflexivity].
  cbn [step]. unfold string_step.
  destruct (isspace_cases c Hc) as [H|[[H _]|[H _]]].
  - unfold is_ws in H. rewrite !orb_true_iff, !N.eqb_eq in H.
    destruct ss; destruct H as [[[-> | ->] | ->] | ->]; reflexivity.
  - destruct ss; other_char c.
  - destruct ss; other_char c.
Qed.

Lemma run_stuck (w : str) (s : state) :
  stuck s = true -> forallb isspace w = true -> stuck (run s w) = true.
Proof.
  revert s; induction w as [|c w IH]; intros s Hs H; [exact Hs|].
  simpl in H; apply andb_true_iff in H as [Hc Hw].
  change (run s (c :: w)) with (run (step s c) w).
  apply IH; [apply step_stuck; assumption | exact Hw].
Qed.

Lemma finish_stuck (s : state) :
  stuck s = true -> value_of (finish s) = None.
Proof.
  destruct s as [m st]; destruct m; try discriminate; reflexivity.
Qed.

(** A text that is read to its end holds, among the characters
    [strip] removes at its end, only those the decoder skips. *)
Lemma trailing_spaces (w : str) (s : state) (v : json) :
  forallb isspace w = true -> finish (run s w) = inr v ->
  forallb is_ws w = true.
Proof.
  revert s; induction w as [|c w IH]; intros s H Hv; [reflexivity|].
  simpl in H; apply andb_true_iff in H as [Hc Hw].
  change (run s (c :: w)) with (run (step s c) w) in Hv.
  simpl. destruct (is_ws c) eqn:E.
  - apply (IH (step s c)); assumption.
  - pose proof (finish_stuck _ (run_stuck w _ (step_odd s c Hc E) Hw)) as F.
    rewrite Hv in F; discriminate F.
Qed.

(** The same at the beginning of the text. *)
Lemma leading_spaces (w t : str) (v : json) :
  forallb isspace w = true -> finish (run init (w ++ t)) = inr v ->
  forallb is_ws w = true.
Proof.
  induction w as [|c w IH]; intros H Hv; [reflexivity|].
  simpl in H; apply andb_true_iff in H as [Hc Hw].
  change (run init ((c :: w) ++ t)) with (run (step init c) (w ++ t)) in Hv.
  simpl. destruct (is_ws c) eqn:E.
  - apply IH; [exact Hw|].
    unfold init in Hv at 1; cbn [step] in Hv. rewrite E in Hv. exact Hv.
  - unfold init in Hv at 1; cbn [step] in Hv. rewrite E in Hv.
    rewrite begin_value_odd, run_fail in Hv by assumption.
    discriminate Hv.
Qed.

(** No value ends with a character of the markers: a backquote or one
    of the letters of "json". *)
Lemma step_fence_char (s : state) (c : char) :
  In c fence_open -> value_of (finish (step s c)) = None.
Proof.
  intros H.
  assert (Hc : (c = 96 \/ c = 106 \/ c = 115 \/ c = 111 \/ c = 110)%N).
  { cbv in H. intuition auto. }
  clear H. destruct s as [m st].
  destruct m as [| | | | | | |tgt buf hi ss|n|l k| |];
    try (decompose [or] Hc; subst c; reflexivity).
  - destruct ss; decompose [or] Hc; subst c; reflexivity.
  - destruct n; destruct st as [|[] st];
      decompose [or] Hc; subst c; reflexivity.
  - destruct l; do 10 (destruct k as [|k]; [decompose [or] Hc; subst c; reflexivity|]);
      decompose [or] Hc; subst c; reflexivity.
Qed.


(** *** The shape of the states *)

Ltac same_tests :=
  repeat match goal with
    | |- context [if ?b then _ else _] => destruct b
    | |- context [match digit ?c with _ => _ end] =>
        destruct (digit c) as [[|?]|]
    | |- context [match hexdigit ?c with _ => _ end] => destruct (hexdigit c)
    | |- context [match escape ?c with _ => _ end] => destruct (escape c)
    end;
  unfold shape; simpl; try congruence.

Lemma complete_shape (v v' : json) (st st' : list frame) :
  map frame_kind st = map frame_kind st' ->
  shape (complete v st) = shape (complete v' st').
Proof.
  destruct st as [|[] st], st' as [|[] st']; simpl; intros H;
    try discriminate H; unfold shape; simpl; congruence.
Qed.

Lemma begin_value_shape (c : char) (st st' : list frame) :
  map frame_kind st = map frame_kind st' ->
  shape (begin_value c st) = shape (begin_value c st').
Proof. intros H. unfold begin_value. same_tests. Qed.

Lemma after_value_shape (m m' : mode) (st st' : list frame) (c : char) :
  mode_kind m = mode_kind m' ->
  map frame_kind st = map frame_kind st' ->
  shape (after_value (m, st) c) = shape (after_value (m', st') c).
Proof.
  intros Hm H. unfold after_value.
  destruct (is_ws c); [unfold shape; simpl; congruence|].
  destruct m, m'; try discriminate Hm; simpl in Hm;
    try (unfold shape; simpl; congruence);
    repeat match goal with
      | |- context [if ?b then _ else _] => destruct b
      end;
    try (unfold shape; simpl; congruence);
    apply complete_shape; exact H.
Qed.

Lemma after_value_shape' (s s' : state) (c : char) :
  shape s = shape s' -> shape (after_value s c) = shape (after_value s' c).
Proof.
  destruct s as [m st], s' as [m' st']. unfold shape at 1 2; simpl.
  intros H; injection H as Hm Hst. apply after_value_shape; assumption.
Qed.

Ltac shape_step :=
  repeat match goal with
    | |- context [if ?b then _ else _] => destruct b
    end;
  first [ apply complete_shape; assumption
        | apply begin_value_shape; simpl; congruence
        | apply after_value_shape', complete_shape; assumption
        | unfold shape; simpl; congruence ].

(** The shape of the next state depends on the shape of the state
    alone. *)
Lemma step_shape (s s' : state) (c : char) :
  shape s = shape s' -> shape (step s c) = shape (step s' c).
Proof.
  destruct s as [m st], s' as [m' st']. unfold shape at 1 2. simpl.
  intros H. injection H as Hm Hst.
  destruct m as [| | | | | | |tgt buf hi ss|n|l k| |],
           m' as [| | | | | | |tgt' buf' hi' ss'|n'|l' k'| |];
    try discriminate Hm; cbn [step]; try shape_step.
  - simpl in Hm. injection Hm as Ht Hs. unfold string_step, close_string.
    destruct ss as [| |j acc], ss' as [| |j' acc']; try discriminate Hs.
    + destruct tgt, tgt'; try discriminate Ht; shape_step.
    + destruct (escape c); shape_step.
    + injection Hs as <-. destruct (hexdigit c); [|shape_step].
      destruct j as [|[|[|[|j]]]]; try shape_step.
      destruct (push_escaped buf hi _), (push_escaped buf' hi' _).
      shape_step.
  - simpl in Hm. injection Hm as Hn.
    destruct n, n'; try discriminate Hn; unfold num_step, num_value;
      repeat match goal with
        | |- context [match digit ?c with _ => _ end] =>
            destruct (digit c) as [[|?]|]
        end;
      shape_step.
  - simpl in Hm. injection Hm as <- <-.
    destruct (nth_error (lit_text l) k); shape_step.
Qed.

Lemma run_shape (t : str) (s s' : state) :
  shape s = shape s' -> shape (run s t) = shape (run s' t).
Proof.
  revert s s'; induction t as [|c t IH]; intros s s' H; [exact H|].
  apply (IH (step s c) (step s' c)), step_shape, H.
Qed.

(** Whether the text is read to its end depends on the shape alone. *)
Lemma finish_shape (s s' : state) :
  shape s = shape s' ->
  value_of (finish s) = None -> value_of (finish s') = None.
Proof.
  destruct s as [m st], s' as [m' st']. unfold shape; simpl.
  intros H; injection H as Hm Hst.
  destruct m as [| | | | | | |tgt buf hi ss|n|l k| |],
           m' as [| | | | | | |tgt' buf' hi' ss'|n'|l' k'| |];
    try discriminate Hm; try reflexivity; try discriminate.
  simpl in Hm. injection Hm as Hn.
  destruct n, n'; try discriminate Hn; try reflexivity;
    destruct st, st'; try discriminate Hst; try reflexivity; discriminate.
Qed.

(** A backquote is refused everywhere but between two characters of a
    string. *)
Lemma step_backquote (s : state) :
  in_string s = false -> exists msg st, step s backtick = (MFail msg, st).
Proof.
  destruct s as [m st]. unfold in_string; simpl.
  destruct m as [| | | | | | |tgt buf hi ss|n|l k| |]; intros H;
    try (do 2 eexists; reflexivity).
  - destruct ss; try discriminate H; do 2 eexists; reflexivity.
  - destruct n; destruct st as [|[] st]; do 2 eexists; reflexivity.
  - cbn [step]. destruct (nth_error (lit_text l) k) as [x|] eqn:E;
      [|do 2 eexists; reflexivity].
    apply lit_text_plain in E.
    destruct x as [|q]; [do 2 eexists; reflexivity|].
    destruct (Pos.eqb_spec 96 q) as [<-|]; [|do 2 eexists; reflexivity].
    exfalso. destruct E as (_ & E & _). apply E. reflexivity.
Qed.

(** There, the characters of the markers are characters of the string. *)
Lemma step_in_string (s : state) (c : char) :
  in_string s = true -> In c fence_open ->
  in_string (step s c) = true /\ shape (step s c) = shape s.
Proof.
  intros Hs H.
  assert (Hc : (c = 96 \/ c = 106 \/ c = 115 \/ c = 111 \/ c = 110)%N).
  { cbv in H. intuition auto. }
  clear H. destruct s as [m st].
  destruct m as [| | | | | | |tgt buf hi ss| | | |]; try discriminate Hs.
  destruct ss; try discriminate Hs.
  decompose [or] Hc; subst c; split; reflexivity.
Qed.

Lemma run_in_string (w : str) (s : state) :
  (forall c, In c w -> In c fence_open) -> in_string s = true ->
  in_string (run s w) = true /\ shape (run s w) = shape s.
Proof.
  revert s; induction w as [|c w IH]; intros s Hw Hs; [split; auto|].
  change (run s (c :: w)) with (run (step s c) w).
  destruct (step_in_string s c Hs) as [H1 H2]; [apply Hw; left; reflexivity|].
  destruct (IH (step s c)) as [H3 H4];
    [intros x Hx; apply Hw; right; exact Hx | exact H1 |].
  split; [exact H3 | congruence].
Qed.

Section Drop.

Variable rest : str.
Hypothesis rest_chars : forall c, In c rest -> In c fence_open.

(** A text that is read to its end is read to its end without the
    markers in it: they are inside its strings. *)
Lemma run_drop (n : nat) :
  forall (t : str) (s s' : state),
    length t <= n -> shape s = shape s' ->
    value_of (finish (run s t)) <> None ->
    value_of (finish (run s' (replace (backtick :: rest) [] t))) <> None.
Proof.
  induction n as [|n IH]; intros t s s' Hn Hs Hv.
  - destruct t; [|simpl in Hn; lia].
    intros F; apply Hv. apply (finish_shape s' s); [symmetry; exact Hs|exact F].
  - destruct t as [|c t].
    + intros F; apply Hv.
      apply (finish_shape s' s); [symmetry; exact Hs|exact F].
    + simpl in Hn. unfold replace. cbn [replace_from].
      destruct (startswith (backtick :: rest) (c :: t)) eqn:E.
      * apply startswith_prefix in E as [r E].
        injection E as -> ->. simpl pred. simpl app.
        rewrite (replace_from_skip (backtick :: rest) []).
        change (run s (backtick :: rest ++ r))
          with (run (step s backtick) (rest ++ r)) in Hv.
        destruct (in_string s) eqn:I.
        -- destruct (step_in_string s backtick I) as [I1 S1];
             [left; reflexivity|].
           rewrite run_app in Hv.
           destruct (run_in_string rest _ rest_chars I1) as [I2 S2].
           apply (IH r (run (step s backtick) rest) s').
           ++ rewrite length_app in Hn. lia.
           ++ congruence.
           ++ exact Hv.
        -- destruct (step_backquote s I) as (msg & st & F).
           rewrite F, run_fail in Hv. exfalso; apply Hv; reflexivity.
      * change (run s' (c :: replace_from (backtick :: rest) [] 0 t))
          with (run (step s' c) (replace (backtick :: rest) [] t)).
        apply (IH t (step s c) (step s' c)).
        -- lia.
        -- apply step_shape, Hs.
        -- exact Hv.
Qed.

End Drop.

Lemma run_drop_fences (t : str) :
  value_of (finish (run init t)) <> None ->
  value_of (finish (run init (drop_fences t))) <> None.
Proof.
  intros H. unfold drop_fences.
  apply (run_drop (py "``")) with (n := length (replace fence_open [] t))
                                  (s := init);
    [intros c Hc; cbv in Hc |- *; tauto | lia | reflexivity |].
  apply (run_drop (py "``json")) with (n := length t) (s := init);
    [intros c Hc; cbv in Hc |- *; tauto | lia | reflexivity | exact H].
Qed.

Lemma decode_value (t : str) :
  value_of (decode t) = value_of (finish (run init t)).
Proof.
  unfold decode. destruct (startswith [0xFEFF%N] t) eqn:E; [|reflexivity].
  destruct t as [|c t]; [discriminate E|].
  unfold startswith in E. apply andb_true_iff in E as [E _].
  apply N.eqb_eq in E; subst c.
  change (run init (0xFEFF%N :: t)) with (run (step init 0xFEFF%N) t).
  change (step init 0xFEFF%N) with (MFail expecting_value, @nil frame).
  rewrite run_fail. reflexivity.
Qed.

End DecoderFacts.

Lemma parsed_loads (t : str) :
  parsed (json_loads t) = Decoder.value_of (Decoder.decode t).
Proof. unfold json_loads. destruct (Decoder.decode t); reflexivity. Qed.

(** [json.loads] reads a text the same with the white space of JSON
    before and after it. *)
Lemma loads_spaces (w1 t w2 : str) :
  forallb Decoder.is_ws w1 = true -> forallb Decoder.is_ws w2 = true ->
  parsed (json_loads (w1 ++ t ++ w2)) = parsed (json_loads t).
Proof.
  intros H1 H2. rewrite !parsed_loads, !DecoderFacts.decode_value.
  rewrite DecoderFacts.run_init_ws by exact H1.
  rewrite DecoderFacts.run_app. apply DecoderFacts.run_ws, H2.
Qed.

Lemma loads_finish (t : str) (v : json) :
  json_loads t = Return v ->
  Decoder.finish (Decoder.run Decoder.init t) = inr v.
Proof.
  intros Hv.
  pose proof (DecoderFacts.decode_value t) as D.
  pose proof (parsed_loads t) as P.
  rewrite Hv in P; simpl in P. rewrite <- P in D.
  destruct (Decoder.finish _) as [|v']; [discriminate D|].
  injection D as ->; reflexivity.
Qed.

(** What [strip] removes from a JSON text is white space of JSON. *)
Lemma loads_strip_spaces (w1 t w2 : str) (v : json) :
  forallb isspace w1 = true -> forallb isspace w2 = true ->
  json_loads (w1 ++ t ++ w2) = Return v ->
  forallb Decoder.is_ws w1 = true /\ forallb Decoder.is_ws w2 = true.
Proof.
  intros H1 H2 Hv. pose proof (loads_finish _ _ Hv) as F.
  split.
  - exact (DecoderFacts.leading_spaces _ _ _ H1 F).
  - rewrite app_assoc, DecoderFacts.run_app in F.
    exact (DecoderFacts.trailing_spaces _ _ _ H2 F).
Qed.

Lemma parsed_return {A} (o : outcome A) (v : A) :
  parsed o = Some v -> o = Return v.
Proof. destruct o; simpl; congruence. Qed.

(** [strip] does not change what a JSON text is read as. *)
Lemma loads_strip (t : str) (v : json) :
  json_loads t = Return v -> json_loads (strip t) = Return v.
Proof.
  intros Hv. destruct (strip_split t) as (w1 & w2 & E & H1 & H2).
  rewrite E in Hv. destruct (loads_strip_spaces _ _ _ _ H1 H2 Hv) as [J1 J2].
  apply parsed_return. rewrite <- (loads_spaces w1 _ w2 J1 J2), Hv.
  reflexivity.
Qed.

(** A JSON text is a JSON text without the markers in it. *)
Lemma loads_strip_fences (t : str) (v : json) :
  json_loads t = Return v -> exists v', json_loads (strip_fences t) = Return v'.
Proof.
  intros Hv. apply loads_strip, loads_finish in Hv.
  unfold strip_fences.
  pose proof (DecoderFacts.run_drop_fences (strip t)) as H.
  rewrite Hv in H. specialize (H ltac:(discriminate)).
  rewrite <- DecoderFacts.decode_value, <- parsed_loads in H.
  destruct (json_loads (drop_fences (strip t))) as [v'| |];
    [exists v'; reflexivity | |]; exfalso; apply H; reflexivity.
Qed.

(** A JSON text without the white space around it ends with a character
    that is in neither marker. *)
Lemma loads_last (t : str) (v : json) :
  json_loads t = Return v ->
  exists core c, strip t = core ++ [c] /\ ~ In c fence_open.
Proof.
  intros Hv. pose proof (loads_finish _ _ (loads_strip t v Hv)) as F.
  destruct (strip t) as [|x s] eqn:E; [discriminate F|].
  destruct (@exists_last _ (x :: s)) as (core & c & Hc); [discriminate|].
  exists core, c. split; [exact Hc|]. intros Hin.
  rewrite Hc, DecoderFacts.run_app in F.
  pose proof (DecoderFacts.step_fence_char
                (Decoder.run Decoder.init core) c Hin) as S.
  change (Decoder.run (Decoder.run Decoder.init core) [c])
    with (Decoder.step (Decoder.run Decoder.init core) c) in F.
  rewrite F in S. discriminate S.
Qed.

(** ** Statements *)

Lemma bind_return {A B} (a : A) (k : A -> prog B) :
  bind (lift (Return a)) k = k a.
Proof. unfold bind, lift. destruct (k a); reflexivity. Qed.

Lemma bind_ret_r {A} (m : prog A) : bind m ret = m.
Proof.
  destruct m as [t [a|e|]]; unfold bind, ret; rewrite ?app_nil_r; reflexivity.
Qed.

Lemma bind_assoc {A B C} (m : prog A) (f : A -> prog B) (g : B -> prog C) :
  bind (bind m f) g = bind m (fun a => bind (f a) g).
Proof.
  destruct m as [t [a|e|]]; unfold bind; try reflexivity.
  destruct (f a) as [t1 [b|e|]]; try reflexivity.
  destruct (g b) as [t2 o]. rewrite app_assoc; reflexivity.
Qed.

Lemma bind_st_fst {B} (c : St.call) (k : unit -> prog B) :
  fst (bind (st c) k) = Call c :: fst (k tt).
Proof. unfold bind, st, emit. destruct (k tt); reflexivity. Qed.

(** ** The analysis *)

Lemma json_loads_cases (s : str) :
  (exists v, json_loads s = Return v)
  \/ (exists msg, json_loads s = Raise (JSONDecodeError msg)).
Proof.
  unfold json_loads. destruct (Decoder.decode s) as [msg|v]; eauto.
Qed.

Section Analysis.

Variable w : world.
Variable text_prompt : str.
Variable image : option image.


Lemma analysis_call_fails (e : exn) :
  answer w text_prompt image = inl e ->
  get_ai_analysis w text_prompt image
  = ([GenerateContent (request_content (prompt_template text_prompt) image)],
     Return (error_record e)).
Proof.
  unfold answer, get_ai_analysis, try_except, bind, emit, lift, ret.
  intros ->. reflexivity.
Qed.

Lemma analysis_parse_fails (t : str) (e : exn) :
  answer w text_prompt image = inr t ->
  json_loads (strip_fences t) = Raise e ->
  get_ai_analysis w text_prompt image
  = ([GenerateContent (request_content (prompt_template text_prompt) image)],
     Return (error_record e)).
Proof.
  unfold answer, get_ai_analysis, try_except, bind, emit, lift, ret.
  intros -> ->. reflexivity.
Qed.

Lemma analysis_parses (t : str) (v : json) :
  answer w text_prompt image = inr t ->
  json_loads (strip_fences t) = Return v ->
  get_ai_analysis w text_prompt image
  = ([GenerateContent (request_content (prompt_template text_prompt) image)],
     Return v).
Proof.
  unfold answer, get_ai_analysis, try_except, bind, emit, lift, ret.
  intros -> ->. reflexivity.
Qed.

Lemma analyze_parses (t : str) (v : json) :
  answer w text_prompt image = inr t ->
  json_loads (strip_fences t) = Return v ->
  analyze w text_prompt image
  = (GenerateContent (request_content (prompt_template text_prompt) image)
     :: fst (display_analysis_report v),
     snd (display_analysis_report v)).
Proof.
  intros Ha Hv. unfold analyze. rewrite (analysis_parses t v Ha Hv).
  unfold bind. destruct (display_analysis_report v); reflexivity.
Qed.

End Analysis.

(** [get_ai_analysis] makes one call of the model and returns, whatever
    the answer. *)
Lemma get_ai_analysis_returns (w : world) (text_prompt : str)
    (image : option image) :
  exists v,
    get_ai_analysis w text_prompt image
    = ([GenerateContent (request_content (prompt_template text_prompt) image)],
       Return v).
Proof.
  destruct (answer w text_prompt image) as [e|t] eqn:Ha.
  - eexists. apply analysis_call_fails, Ha.
  - destruct (json_loads_cases (strip_fences t)) as [[v Hv]|[msg Hv]];
      eexists.
    + apply (analysis_parses _ _ _ t), Hv. exact Ha.
    + apply (analysis_parse_fails _ _ _ t), Hv. exact Ha.
Qed.

(** C2.  When the call of the model fails with [e], or its answer does
    not parse and [json.loads] raises [e], [get_ai_analysis] returns: its
    value is the failure record whose message is the fixed text, which
    begins with "AI analysis failed", followed by [str(e)]. *)
Theorem analysis_failure_record (w : world) (text_prompt : str)
    (image : option image) (e : exn) :
  answer w text_prompt image = inl e
  \/ (exists t, answer w text_prompt image = inr t
                /\ json_loads (strip_fences t) = Raise e) ->
  get_ai_analysis w text_prompt image
  = ([GenerateContent (request_content (prompt_template text_prompt) image)],
     Return (JDict [(py "error", JStr (analysis_failed ++ exn_str e))]))
  /\ startswith (py "AI analysis failed") (analysis_failed ++ exn_str e) = true
  /\ is_failure_record
       (JDict [(py "error", JStr (analysis_failed ++ exn_str e))]) = true.
Proof.
  intros H. split; [|split; reflexivity].
  destruct H as [H|(t & Ha & Ht)].
  - apply analysis_call_fails, H.
  - apply (analysis_parse_fails _ _ _ t); assumption.
Qed.

(** An answer that breaks off inside a string. *)
Lemma analysis_failure_record_witness :
  let w := answering (js "{'summary': 'Scam', 'red_fla") in
  let e := JSONDecodeError Decoder.unterminated in
  get_ai_analysis w (py "You won a prize") None
  = ([GenerateContent
        (request_content (prompt_template (py "You won a prize")) None)],
     Return (JDict [(py "error", JStr (analysis_failed ++ exn_str e))]))
  /\ startswith (py "AI analysis failed") (analysis_failed ++ exn_str e) = true
  /\ is_failure_record
       (JDict [(py "error", JStr (analysis_failed ++ exn_str e))]) = true.
Proof.
  intros w e. apply (analysis_failure_record w).
  right. eexists. split; reflexivity.
Defined.

(** ** The report *)

Lemma normalize_flags_cons (x : json) (l : list json) (f : red_flag) :
  normalize_flag x = Some f ->
  normalize_flags (x :: l) = f :: normalize_flags l.
Proof. unfold normalize_flags; simpl; intros ->; reflexivity. Qed.

Lemma display_flag_event (x : json) :
  is_dict_or_str x = true ->
  exists f, normalize_flag x = Some f
            /\ display_flag x = ([flag_event f], Return tt).
Proof.
  destruct x; try discriminate; intros _; eexists; split; reflexivity.
Qed.

Lemma for_each_flags (l : list json) :
  forallb is_dict_or_str l = true ->
  for_each l display_flag = (map flag_event (normalize_flags l), Return tt).
Proof.
  induction l as [|x l IH]; intros H; [reflexivity|].
  simpl in H; apply andb_true_iff in H as [Hx Hl].
  destruct (display_flag_event x Hx) as (f & Hf & Hd).
  cbn [for_each]. rewrite Hd, (normalize_flags_cons _ _ _ Hf).
  unfold bind. rewrite (IH Hl). reflexivity.
Qed.

Lemma normalize_flags_length (l : list json) :
  forallb is_dict_or_str l = true ->
  length (normalize_flags l) = length l.
Proof.
  induction l as [|x l IH]; intros H; [reflexivity|].
  simpl in H; apply andb_true_iff in H as [Hx Hl].
  destruct (display_flag_event x Hx) as (f & Hf & _).
  rewrite (normalize_flags_cons _ _ _ Hf). simpl. rewrite IH; auto.
Qed.

Lemma normalize_flags_nth (l : list json) (n : nat) (x : json) :
  forallb is_dict_or_str l = true ->
  nth_error l n = Some x ->
  nth_error (normalize_flags l) n = normalize_flag x.
Proof.
  revert n; induction l as [|y l IH]; intros n H Hn;
    [destruct n; discriminate Hn|].
  simpl in H; apply andb_true_iff in H as [Hy Hl].
  destruct (display_flag_event y Hy) as (f & Hf & _).
  rewrite (normalize_flags_cons _ _ _ Hf).
  destruct n as [|n]; simpl in *.
  - injection Hn as <-. symmetry; exact Hf.
  - apply IH; assumption.
Qed.

(** The red flags of an object whose ["red_flags"] is a list of objects
    and strings. *)
Lemma display_red_flags_report (d : dict) (l : list json) :
  dict_get d (py "red_flags") (JList []) = JList l ->
  forallb is_dict_or_str l = true ->
  display_red_flags (JDict d) = (flags_report (normalize_flags l), Return tt).
Proof.
  intros Hf Hl. unfold display_red_flags. cbn [py_get]. rewrite Hf.
  destruct l as [|x l]; [reflexivity|].
  destruct (display_flag_event x) as (f & Hx & _).
  { simpl in Hl. apply andb_true_iff in Hl as [Hl _]. exact Hl. }
  unfold flags_report. rewrite (normalize_flags_cons _ _ _ Hx).
  rewrite <- (normalize_flags_cons _ _ _ Hx).
  cbv beta iota delta [bind lift st emit ret truthy py_iter].
  rewrite (for_each_flags _ Hl). reflexivity.
Qed.

(** The report of an object without the key ["error"], with a score the
    gauge takes and red flags that are a list of objects and strings. *)
Lemma display_report (d : dict) (l : list json) :
  has_key d (py "error") = false ->
  gauge_value_ok (dict_get d (py "credibility_score") (JInt 0)) = true ->
  dict_get d (py "red_flags") (JList []) = JList l ->
  forallb is_dict_or_str l = true ->
  display_analysis_report (JDict d)
  = (report {| credibilityScore := dict_get d (py "credibility_score") (JInt 0);
               summary := dict_get d (py "summary")
                            (JStr (py "No summary available."));
               redFlags := normalize_flags l;
               educationalInsight :=
                 dict_get d (py "educational_insight")
                   (JStr (py "No educational insight available.")) |},
     Return tt).
Proof.
  intros He Hg Hf Hl. unfold display_analysis_report.
  cbn [py_in py_get]. rewrite He.
  cbv beta iota delta [bind lift st emit within ret create_gauge_chart].
  rewrite Hg, (display_red_flags_report d l Hf Hl). reflexivity.
Qed.

Lemma field_or_get (d : dict) (k : str) (default : json) :
  field_or d k default (dict_get d k default).
Proof.
  unfold field_or, dict_get. destruct (dict_find d k); reflexivity.
Qed.

Lemma dict_get_found (d : dict) (k : str) (default v : json) :
  dict_find d k = Some v -> dict_get d k default = v.
Proof. unfold dict_get; intros ->; reflexivity. Qed.

Lemma dict_get_missing (d : dict) (k : str) (default : json) :
  dict_find d k = None -> dict_get d k default = default.
Proof. unfold dict_get; intros ->; reflexivity. Qed.

(** The analysis of an answer that parses to such an object, and its
    report. *)
Lemma analyze_report (w : world) (text_prompt : str) (image : option image)
    (t : str) (d : dict) (l : list json) :
  answer w text_prompt image = inr t ->
  json_loads (strip_fences t) = Return (JDict d) ->
  has_key d (py "error") = false ->
  gauge_value_ok (dict_get d (py "credibility_score") (JInt 0)) = true ->
  dict_get d (py "red_flags") (JList []) = JList l ->
  forallb is_dict_or_str l = true ->
  analyze w text_prompt image
  = (GenerateContent (request_content (prompt_template text_prompt) image)
     :: report
          {| credibilityScore := dict_get d (py "credibility_score") (JInt 0);
             summary := dict_get d (py "summary")
                          (JStr (py "No summary available."));
             redFlags := normalize_flags l;
             educationalInsight :=
               dict_get d (py "educational_insight")
                 (JStr (py "No educational insight available.")) |},
     Return tt).
Proof.
  intros Ha Hv He Hg Hl Hs.
  rewrite (analyze_parses _ _ _ t (JDict d) Ha Hv).
  rewrite (display_report d l He Hg Hl Hs). reflexivity.
Qed.

(** C3, as amended.  When the answer of the model parses to an object
    without the key ["error"] whose ["credibility_score"], if present, is
    a value the gauge takes (a number) and whose ["red_flags"], if
    present, is a list of objects and strings, the page shows the report
    of a success record; each of the four fields is the value of its key
    or, when the key is missing, its default: 0, "No summary available.",
    no red flag, "No educational insight available.". *)
Theorem report_defaults (w : world) (text_prompt : str)
    (image : option image) (t : str) (d : dict) :
  answer w text_prompt image = inr t ->
  json_loads (strip_fences t) = Return (JDict d) ->
  has_key d (py "error") = false ->
  gauge_value_ok (dict_get d (py "credibility_score") (JInt 0)) = true ->
  dict_find d (py "red_flags") = None
  \/ (exists l, dict_find d (py "red_flags") = Some (JList l)
                /\ forallb is_dict_or_str l = true) ->
  exists r,
    analyze w text_prompt image
    = (GenerateContent (request_content (prompt_template text_prompt) image)
       :: report r, Return tt)
    /\ field_or d (py "credibility_score") (JInt 0) (credibilityScore r)
    /\ field_or d (py "summary") (JStr (py "No summary available."))
         (summary r)
    /\ field_or d (py "educational_insight")
         (JStr (py "No educational insight available."))
         (educationalInsight r)
    /\ (dict_find d (py "red_flags") = None -> redFlags r = [])
    /\ (forall l, dict_find d (py "red_flags") = Some (JList l) ->
                  redFlags r = normalize_flags l).
Proof.
  intros Ha Hv He Hg Hf.
  assert (exists l, dict_get d (py "red_flags") (JList []) = JList l
                    /\ forallb is_dict_or_str l = true
                    /\ (dict_find d (py "red_flags") = None -> l = [])
                    /\ (forall l', dict_find d (py "red_flags")
                                   = Some (JList l') -> l = l'))
    as (l & Hl & Hs & Hn & Hj).
  { destruct Hf as [Hf|(l & Hf & Hs)].
    - exists []. rewrite (dict_get_missing _ _ _ Hf).
      repeat split; auto. intros l'; rewrite Hf; discriminate.
    - exists l. rewrite (dict_get_found _ _ _ _ Hf).
      repeat split; auto.
      + rewrite Hf; discriminate.
      + intros l'; rewrite Hf; intros [= ->]; reflexivity. }
  eexists. split.
  - exact (analyze_report w text_prompt image t d l Ha Hv He Hg Hl Hs).
  - cbn [credibilityScore summary educationalInsight redFlags].
    repeat split; try apply field_or_get.
    + intros H; rewrite (Hn H); reflexivity.
    + intros l' H; rewrite (Hj l' H); reflexivity.
Qed.

(** An answer with a summary and nothing else. *)
Lemma report_defaults_witness :
  exists r,
    analyze (answering (js "{'summary': 'Scam'}")) (py "You won a prize") None
    = (GenerateContent
         (request_content (prompt_template (py "You won a prize")) None)
       :: report r, Return tt)
    /\ credibilityScore r = JInt 0
    /\ summary r = JStr (py "Scam")
    /\ educationalInsight r = JStr (py "No educational insight available.")
    /\ redFlags r = [].
Proof.
  destruct (report_defaults (answering (js "{'summary': 'Scam'}"))
              (py "You won a prize") None (js "{'summary': 'Scam'}")
              [(py "summary", JStr (py "Scam"))])
    as (r & Hr & H1 & H2 & H3 & H4 & _);
    [reflexivity | reflexivity | reflexivity | reflexivity
    | left; reflexivity |].
  exists r. repeat split; auto.
Defined.

(** C3 as stated fails.  The answer [{"error": ..., "summary": ...}]
    parses and misses three of the four keys, and the page shows an
    analysis error; the answer [{"summary": ..., "red_flags": 3}] parses
    and misses two, and the report raises in the loop over the red
    flags. *)
Lemma report_not_shown :
  let p := py "You won a prize" in
  let request := request_content (prompt_template p) None in
  let t1 := js "{'error': 'none', 'summary': 'Looks fine'}" in
  let t2 := js "{'summary': 'Scam', 'red_flags': 3}" in
  json_loads (strip_fences t1)
  = Return (JDict [(py "error", JStr (py "none"));
                   (py "summary", JStr (py "Looks fine"))])
  /\ analyze (answering t1) p None
     = (GenerateContent request :: failure_report (JStr (py "none")),
        Return tt)
  /\ json_loads (strip_fences t2)
     = Return (JDict [(py "summary", JStr (py "Scam"));
                      (py "red_flags", JInt 3)])
  /\ snd (analyze (answering t2) p None)
     = Raise (TypeError (py "'int' object is not iterable")).
Proof. repeat split. Qed.

(** C4, as amended.  When ["red_flags"] is a list of objects and
    strings, the red flags of the report are shown and no entry is left
    out: there are as many red flags as entries, in the order of the
    list; a string has the type "General Flag" and itself as description,
    an object its two fields, with their defaults. *)
Theorem red_flags_normalized (d : dict) (l : list json) :
  dict_find d (py "red_flags") = Some (JList l) ->
  forallb is_dict_or_str l = true ->
  exists flags,
    display_red_flags (JDict d) = (flags_report flags, Return tt)
    /\ length flags = length l
    /\ (forall n s, nth_error l n = Some (JStr s) ->
          nth_error flags n
          = Some {| flagType := JStr (py "General Flag");
                    description := JStr s |})
    /\ (forall n o, nth_error l n = Some (JDict o) ->
          nth_error flags n
          = Some {| flagType := dict_get o (py "flag_type")
                                  (JStr (py "General Flag"));
                    description := dict_get o (py "description")
                                     (JStr (py "No description provided.")) |}).
Proof.
  intros Hf Hs. exists (normalize_flags l). split; [|split; [|split]].
  - apply display_red_flags_report; [apply dict_get_found, Hf | exact Hs].
  - apply normalize_flags_length, Hs.
  - intros n s Hn. rewrite (normalize_flags_nth l n _ Hs Hn). reflexivity.
  - intros n o Hn. rewrite (normalize_flags_nth l n _ Hs Hn). reflexivity.
Qed.

(** Two red flags given as strings. *)
Lemma red_flags_normalized_witness :
  display_red_flags
    (JDict [(py "red_flags",
             JList [JStr (py "Urgency"); JStr (py "Too good")])])
  = (flags_report
       [ {| flagType := JStr (py "General Flag");
            description := JStr (py "Urgency") |};
         {| flagType := JStr (py "General Flag");
            description := JStr (py "Too good") |} ],
     Return tt).
Proof.
  destruct (red_flags_normalized
              [(py "red_flags",
                JList [JStr (py "Urgency"); JStr (py "Too good")])]
              [JStr (py "Urgency"); JStr (py "Too good")] eq_refl eq_refl)
    as (flags & Hr & Hlen & Hstr & _).
  pose proof (Hstr 0 _ eq_refl) as H0. pose proof (Hstr 1 _ eq_refl) as H1.
  destruct flags as [|a [|b [|c fl]]]; try discriminate Hlen.
  simpl in H0, H1. injection H0 as ->. injection H1 as ->. exact Hr.
Defined.

(** C4 as stated fails.  Of the two entries of [[7, "Urgent"]] the page
    shows one: the number is passed over.  And when ["red_flags"] is the
    number 7, the loop over it raises, and so does the analysis of such
    an answer. *)
Lemma red_flags_dropped :
  let v := JDict [(py "red_flags", JList [JInt 7; JStr (py "Urgent")])] in
  json_loads (js "{'red_flags': [7, 'Urgent']}") = Return v
  /\ display_red_flags v
     = ([Call (St.subheader (police_light ++ py " Detected Red Flags"));
         Call (St.error (text (py "**General Flag:** Urgent")) (Some fire))],
        Return tt)
  /\ json_loads (js "{'red_flags': 7}")
     = Return (JDict [(py "red_flags", JInt 7)])
  /\ snd (display_red_flags (JDict [(py "red_flags", JInt 7)]))
     = Raise (TypeError (py "'int' object is not iterable"))
  /\ snd (analyze (answering (js "{'red_flags': 7}")) (py "You won a prize")
            None)
     = Raise (TypeError (py "'int' object is not iterable")).
Proof. repeat split. Qed.

(** The gauge takes no text: an answer whose score is a string makes the
    report raise. *)
Lemma gauge_refuses_text :
  snd (analyze (answering (js "{'credibility_score': 'high'}"))
         (py "You won a prize") None)
  = Raise (ValueError (py "Invalid value of type 'builtins.str' received for the 'value' property of indicator")).
Proof. reflexivity. Qed.

(** The report of an object with the key ["error"]. *)
Lemma display_failure (d : dict) (message : json) :
  dict_find d (py "error") = Some message ->
  display_analysis_report (JDict d) = (failure_report message, Return tt).
Proof.
  intros H. unfold display_analysis_report, failure_report.
  cbn [py_in py_getitem lift]. unfold has_key. rewrite H. reflexivity.
Qed.

Lemma display_success_begins (d : dict) :
  has_key d (py "error") = false ->
  exists t, fst (display_analysis_report (JDict d)) = Call St.balloons :: t.
Proof.
  intros H. unfold display_analysis_report. cbn [py_in]. rewrite H.
  rewrite bind_return, bind_st_fst. eexists; reflexivity.
Qed.

(** ** The two records *)

Lemma never_both (v : json) :
  is_success_record v && is_failure_record v = false.
Proof.
  destruct v as [| | | | | |d]; try reflexivity.
  unfold is_success_record, is_failure_record.
  destruct (has_key d (py "error")); [reflexivity | apply andb_false_r].
Qed.

Lemma is_flags_shown (l : list json) :
  forallb is_flag l = true -> forallb is_dict_or_str l = true.
Proof.
  induction l as [|x l IH]; [reflexivity|]. cbn [forallb].
  rewrite !andb_true_iff. intros [Hx Hl]. split; [|exact (IH Hl)].
  destruct x; try discriminate Hx; reflexivity.
Qed.

(** The report of a success record is the report of its four fields. *)
Lemma success_record_shown (v : json) :
  is_success_record v = true ->
  exists r, display_analysis_report v = (report r, Return tt).
Proof.
  destruct v as [| | | | | |d]; try discriminate.
  unfold is_success_record. rewrite !andb_true_iff.
  intros [[[[He Hs] _] Hf] _].
  destruct (dict_get d (py "red_flags") (JList [])) as [| | | | |l|] eqn:E;
    try discriminate Hf.
  eexists. apply (display_report d l).
  - destruct (has_key d (py "error")); [discriminate He | reflexivity].
  - destruct (dict_get d (py "credibility_score") (JInt 0));
      try discriminate Hs; reflexivity.
  - exact E.
  - apply is_flags_shown, Hf.
Qed.

Lemma failure_record_shown (v : json) :
  is_failure_record v = true ->
  exists message,
    display_analysis_report v = (failure_report message, Return tt).
Proof.
  destruct v as [| | | | | |d]; try discriminate.
  unfold is_failure_record, has_key.
  destruct (dict_find d (py "error")) as [m|] eqn:E; [|discriminate].
  intros _. exists m. apply display_failure, E.
Qed.

(** C1, as amended.  For a text, a page text or an image with its
    instruction, [get_ai_analysis] returns a value after the one call of
    the model, and the value is never both a success record and a
    failure record.  When the call fails or the answer does not parse,
    the value is a failure record, and so exactly one of the two.  When
    the answer parses, the value is what [json.loads] read, unchecked:
    it is exactly one of the two records exactly when the answer is an
    object with the key ["error"] or an object without it whose four
    fields have the types of a success record.  The report shows a
    failure record as the analysis error and a success record as the
    report. *)
Theorem get_ai_analysis_one_record (w : world) (text_prompt : str)
    (image : option image) :
  exists v,
    get_ai_analysis w text_prompt image
    = ([GenerateContent (request_content (prompt_template text_prompt) image)],
       Return v)
    /\ is_success_record v && is_failure_record v = false
    /\ (forall e,
          answer w text_prompt image = inl e
          \/ (exists t, answer w text_prompt image = inr t
                        /\ json_loads (strip_fences t) = Raise e) ->
          is_failure_record v = true
          /\ xorb (is_success_record v) (is_failure_record v) = true)
    /\ (forall t parsed_value,
          answer w text_prompt image = inr t ->
          json_loads (strip_fences t) = Return parsed_value ->
          v = parsed_value
          /\ (xorb (is_success_record v) (is_failure_record v) = true
              <-> is_failure_record parsed_value = true
                  \/ is_success_record parsed_value = true))
    /\ (is_failure_record v = true ->
        exists message,
          display_analysis_report v = (failure_report message, Return tt))
    /\ (is_success_record v = true ->
        exists r, display_analysis_report v = (report r, Return tt)).
Proof.
  assert (X : forall v, xorb (is_success_record v) (is_failure_record v) = true
                        <-> is_failure_record v = true
                            \/ is_success_record v = true).
  { intros v. pose proof (never_both v) as N.
    destruct (is_success_record v), (is_failure_record v);
      try discriminate N; simpl; intuition congruence. }
  assert (R : exists v,
    get_ai_analysis w text_prompt image
    = ([GenerateContent (request_content (prompt_template text_prompt) image)],
       Return v)
    /\ (forall e,
          answer w text_prompt image = inl e
          \/ (exists t, answer w text_prompt image = inr t
                        /\ json_loads (strip_fences t) = Raise e) ->
          is_failure_record v = true)
    /\ (forall t parsed_value,
          answer w text_prompt image = inr t ->
          json_loads (strip_fences t) = Return parsed_value ->
          v = parsed_value)).
  { destruct (answer w text_prompt image) as [e|t] eqn:Ha.
    - exists (error_record e). split; [apply analysis_call_fails, Ha|].
      split; [reflexivity | discriminate].
    - destruct (json_loads_cases (strip_fences t)) as [[v Hv]|[msg Hv]].
      + exists v. split; [apply (analysis_parses _ _ _ t), Hv; exact Ha|].
        split.
        * intros e [F|(t' & Ht & F)]; [discriminate F|].
          injection Ht as <-. rewrite Hv in F. discriminate F.
        * intros t' v' Ht Hv'. injection Ht as <-.
          rewrite Hv in Hv'. injection Hv' as ->. reflexivity.
      + exists (error_record (JSONDecodeError msg)).
        split; [apply (analysis_parse_fails _ _ _ t), Hv; exact Ha|].
        split; [reflexivity|].
        intros t' v' Ht Hv'. injection Ht as <-.
        rewrite Hv in Hv'. discriminate Hv'. }
  destruct R as (v & Hr & Hf & Hp). exists v.
  split; [exact Hr|]. split; [apply never_both|].
  split; [|split; [|split]].
  - intros e He. pose proof (Hf e He) as F. split; [exact F|].
    apply X. left. exact F.
  - intros t p Ha Hv. pose proof (Hp t p Ha Hv) as E. split; [exact E|].
    rewrite E. apply X.
  - apply failure_record_shown.
  - apply success_record_shown.
Qed.

(** An answer with the four fields as the prompt asks for them: the
    value returned is the object read, a success record and no failure
    record, and the report of it is drawn. *)
Lemma get_ai_analysis_one_record_witness :
  let t := js "{'credibility_score': 2, 'summary': 'Scam', 'red_flags': [{'flag_type': 'Urgency', 'description': 'Act now'}, 'No source'], 'educational_insight': 'Ask the sender'}" in
  let p := py "You won a prize" in
  let d := JDict [(py "credibility_score", JInt 2);
                  (py "summary", JStr (py "Scam"));
                  (py "red_flags",
                   JList [JDict [(py "flag_type", JStr (py "Urgency"));
                                 (py "description", JStr (py "Act now"))];
                          JStr (py "No source")]);
                  (py "educational_insight", JStr (py "Ask the sender"))] in
  exists v,
    get_ai_analysis (answering t) p None
    = ([GenerateContent (request_content (prompt_template p) None)], Return v)
    /\ v = d
    /\ is_success_record v = true
    /\ is_failure_record v = false
    /\ xorb (is_success_record v) (is_failure_record v) = true
    /\ exists r, display_analysis_report v = (report r, Return tt).
Proof.
  intros t p d.
  destruct (get_ai_analysis_one_record (answering t) p None)
    as (v & Hr & _ & _ & Hp & _ & Hs).
  assert (A : answer (answering t) p None = inr t) by reflexivity.
  assert (L : json_loads (strip_fences t) = Return d)
    by (vm_compute; reflexivity).
  destruct (Hp t d A L) as [E X].
  assert (S : is_success_record d = true) by (vm_compute; reflexivity).
  assert (F : is_failure_record d = false) by (vm_compute; reflexivity).
  exists v. split; [exact Hr|]. split; [exact E|].
  rewrite E in *.
  split; [exact S|]. split; [exact F|].
  split; [apply X; right; exact S | apply Hs, S].
Defined.

(** C1 as stated fails.  The answer [[]] is JSON but no object, and
    [get_ai_analysis] returns the empty list; the answer
    [{"summary": "Scam", "red_flags": 3}] is an object whose red flags
    are no list, and [get_ai_analysis] returns it.  Either value is
    neither a success record nor a failure record, and the report of it
    raises. *)
Lemma get_ai_analysis_neither_record :
  let v := JList [] in
  let v' := JDict [(py "summary", JStr (py "Scam"));
                   (py "red_flags", JInt 3)] in
  snd (get_ai_analysis (answering (js "[]")) (py "You won a prize") None)
  = Return v
  /\ is_success_record v = false
  /\ is_failure_record v = false
  /\ snd (display_analysis_report v)
     = Raise (AttributeError (py "'list' object has no attribute 'get'"))
  /\ snd (get_ai_analysis
            (answering (js "{'summary': 'Scam', 'red_flags': 3}"))
            (py "You won a prize") None)
     = Return v'
  /\ is_success_record v' = false
  /\ is_failure_record v' = false
  /\ snd (display_analysis_report v')
     = Raise (TypeError (py "'int' object is not iterable")).
Proof. repeat split. Qed.

(** C10.  Of an object, the key ["error"] alone decides: with it the page
    shows the analysis error with the value of the key, without it the
    report begins.  So an answer of the model that parses to an object
    with that key is shown as a failure, though the call and the parsing
    succeeded. *)
Theorem error_key_decides :
  (forall d, has_key d (py "error") = true ->
     exists message,
       dict_find d (py "error") = Some message
       /\ display_analysis_report (JDict d)
          = (failure_report message, Return tt))
  /\ (forall d, has_key d (py "error") = false ->
        exists t,
          fst (display_analysis_report (JDict d)) = Call St.balloons :: t)
  /\ (let t := js "{'credibility_score': 9, 'summary': 'Genuine', 'error': 'none found'}" in
      let p := py "Polls open at 7 am" in
      exists d,
        answer (answering t) p None = inr t
        /\ json_loads (strip_fences t) = Return (JDict d)
        /\ has_key d (py "error") = true
        /\ analyze (answering t) p None
           = (GenerateContent (request_content (prompt_template p) None)
              :: failure_report (JStr (py "none found")), Return tt)).
Proof.
  split; [|split].
  - intros d H. unfold has_key in H.
    destruct (dict_find d (py "error")) as [m|] eqn:E; [|discriminate H].
    exists m. split; [reflexivity | apply display_failure, E].
  - apply display_success_begins.
  - eexists. repeat split.
Qed.

(** ** Fences *)

Lemma no_fence_drop (s : str) :
  contains fence_close s = false -> drop_fences s = s.
Proof.
  intros H. unfold drop_fences.
  rewrite (replace_absent fence_open []).
  - apply replace_absent, H.
  - change fence_open with (fence_close ++ py "json").
    apply contains_split, H.
Qed.

(** A JSON text without the closing marker goes through [strip_fences]
    unchanged as far as [json.loads] reads it. *)
Lemma loads_plain (t : str) (v : json) :
  json_loads t = Return v -> contains fence_close t = false ->
  json_loads (strip_fences t) = Return v.
Proof.
  intros Hv Hc. unfold strip_fences.
  destruct (strip_split t) as (w1 & w2 & E & _ & _).
  rewrite no_fence_drop; [apply loads_strip, Hv|].
  rewrite E in Hc. exact (contains_inside _ _ _ _ Hc).
Qed.

Lemma is_ws_isspace (w : str) :
  forallb Decoder.is_ws w = true -> forallb isspace w = true.
Proof.
  rewrite !forallb_forall. intros H c Hc. specialize (H c Hc).
  unfold Decoder.is_ws in H. rewrite !orb_true_iff, !N.eqb_eq in H.
  destruct H as [[[-> | ->] | ->] | ->]; reflexivity.
Qed.

(** What [strip_fences] leaves of a fenced JSON text: what it leaves of
    the text alone, with white space of JSON around it. *)
Lemma strip_fences_fenced_with (w1 w2 t : str) (v : json) :
  json_loads t = Return v ->
  forallb Decoder.is_ws w1 = true -> forallb Decoder.is_ws w2 = true ->
  exists a b,
    forallb Decoder.is_ws a = true /\ forallb Decoder.is_ws b = true
    /\ strip_fences (fenced_with w1 w2 t) = a ++ strip_fences t ++ b.
Proof.
  intros Hv H1 H2.
  destruct (strip_split t) as (u1 & u2 & E & S1 & S2).
  assert (J : forallb Decoder.is_ws u1 = true
              /\ forallb Decoder.is_ws u2 = true).
  { rewrite E in Hv. exact (loads_strip_spaces _ _ _ _ S1 S2 Hv). }
  destruct J as [J1 J2].
  destruct (loads_last t v Hv) as (core & c & Hc & Ho).
  assert (Hcl : ~ In c fence_close).
  { intros Hin; apply Ho. cbv in Hin |- *. intuition auto. }
  exists (w1 ++ u1), (u2 ++ w2). rewrite !forallb_app, H1, H2, J1, J2.
  split; [reflexivity|]. split; [reflexivity|].
  assert (W1 : forallb isspace (w1 ++ u1) = true).
  { rewrite forallb_app, S1, (is_ws_isspace _ H1); reflexivity. }
  assert (W2 : forallb isspace (u2 ++ w2) = true).
  { rewrite forallb_app, S2, (is_ws_isspace _ H2); reflexivity. }
  destruct (spaces_not_in_fence _ W1) as [O1 C1].
  destruct (spaces_not_in_fence _ W2) as [O2 C2].
  assert (D : strip_fences t = drop_fences core ++ [c]).
  { unfold strip_fences. rewrite Hc. unfold drop_fences.
    rewrite (replace_suffix _ _ fence_open_nonempty)
      by (intros x [<-|[]]; exact Ho).
    rewrite (replace_suffix _ _ fence_close_nonempty)
      by (intros x [<-|[]]; exact Hcl).
    reflexivity. }
  rewrite D, strip_fences_unfold, strip_fenced_with.
  unfold fenced_with. rewrite E at 1. rewrite Hc.
  replace (fence_open ++ w1 ++ (u1 ++ (core ++ [c]) ++ u2) ++ w2 ++ fence_close)
    with (fence_open ++ (w1 ++ u1) ++ core ++ c :: (u2 ++ w2) ++ fence_close)
    by (rewrite <- !app_assoc; reflexivity).
  unfold drop_fences.
  rewrite (replace_occurrence _ _ fence_open_nonempty). simpl app at 1.
  rewrite (replace_prefix _ _ fence_open_nonempty) by exact O1.
  rewrite (replace_around _ _ fence_open_nonempty) by exact Ho.
  rewrite (replace_prefix _ _ fence_open_nonempty) by exact O2.
  change (replace fence_open [] fence_close) with fence_close.
  rewrite (replace_prefix _ _ fence_close_nonempty) by exact C1.
  rewrite (replace_around _ _ fence_close_nonempty) by exact Hcl.
  rewrite (replace_prefix _ _ fence_close_nonempty) by exact C2.
  change (replace fence_close [] fence_close) with (@nil N).
  rewrite <- !app_assoc. rewrite app_nil_r. reflexivity.
Qed.

Lemma fenced_with_parsed (t w1 w2 : str) (v : json) :
  json_loads t = Return v ->
  forallb Decoder.is_ws w1 = true -> forallb Decoder.is_ws w2 = true ->
  parsed (json_loads (strip_fences (fenced_with w1 w2 t)))
  = parsed (json_loads (strip_fences t)).
Proof.
  intros Hv H1 H2.
  destruct (strip_fences_fenced_with w1 w2 t v Hv H1 H2)
    as (a & b & Ha & Hb & E).
  rewrite E. apply loads_spaces; assumption.
Qed.

(** A fenced JSON text without the closing marker inside is read as the
    text. *)
Lemma loads_fenced_plain (t w1 w2 : str) (v : json) :
  json_loads t = Return v ->
  forallb Decoder.is_ws w1 = true -> forallb Decoder.is_ws w2 = true ->
  contains fence_close t = false ->
  json_loads (strip_fences (fenced_with w1 w2 t)) = Return v.
Proof.
  intros Hv H1 H2 Hc. apply parsed_return.
  rewrite (fenced_with_parsed t w1 w2 v Hv H1 H2), (loads_plain t v Hv Hc).
  reflexivity.
Qed.

(** C5.  A JSON text [t] is a JSON text after [strip_fences], and so
    is the text between the two markers, with white space of JSON or
    nothing between the markers and the text (a line feed in the usual
    case, [fenced t]); both are read as the same value, and when [t]
    holds no [```] this is the value [json.loads] reads [t] as. *)
Theorem fenced_parses_alike (t w1 w2 : str) (v : json) :
  json_loads t = Return v ->
  forallb Decoder.is_ws w1 = true -> forallb Decoder.is_ws w2 = true ->
  exists v',
    json_loads (strip_fences (fenced_with w1 w2 t)) = Return v'
    /\ json_loads (strip_fences t) = Return v'
    /\ (contains fence_close t = false -> v' = v).
Proof.
  intros Hv H1 H2. destruct (loads_strip_fences t v Hv) as [v' Hv'].
  exists v'. split; [|split].
  - apply parsed_return.
    rewrite (fenced_with_parsed t w1 w2 v Hv H1 H2), Hv'. reflexivity.
  - exact Hv'.
  - intros Hc. rewrite (loads_plain t v Hv Hc) in Hv'.
    injection Hv' as <-; reflexivity.
Qed.

(** A text with spaces around it and a marker inside a string, between
    two lines; and a text right between the markers. *)
Lemma fenced_parses_alike_witness :
  let t := js " {'summary': 'Scam', 'red_flags': ['```json in a flag']} " in
  let v := JDict [(py "summary", JStr (py "Scam"));
                  (py "red_flags", JList [JStr (py "```json in a flag")])] in
  let v' := JDict [(py "summary", JStr (py "Scam"));
                   (py "red_flags", JList [JStr (py " in a flag")])] in
  json_loads t = Return v
  /\ json_loads (strip_fences (fenced t)) = Return v'
  /\ json_loads (strip_fences t) = Return v'
  /\ json_loads (strip_fences (fence_open ++ js "{'a': 1}" ++ fence_close))
     = Return (JDict [(py "a", JInt 1)]).
Proof.
  intros t v v'. split; [reflexivity|].
  destruct (fenced_parses_alike t nl nl v eq_refl eq_refl eq_refl)
    as (x & E1 & E2 & _).
  assert (Hx : Return x = Return v').
  { rewrite <- E2. vm_compute. reflexivity. }
  injection Hx as ->.
  split; [exact E1|]. split; [exact E2|].
  destruct (fenced_parses_alike (js "{'a': 1}") [] []
              (JDict [(py "a", JInt 1)]) eq_refl eq_refl eq_refl)
    as (y & E & _ & Hy).
  rewrite (Hy eq_refl) in E. exact E.
Defined.

(** ** The round trip *)

Lemma structured_normalized (l : list json) (flags : list red_flag) :
  Forall2 structured l flags ->
  forallb is_dict_or_str l = true /\ normalize_flags l = flags.
Proof.
  induction 1 as [|x f l flags (o & -> & Ht & Hd) _ [IH1 IH2]];
    [split; reflexivity|].
  split; [exact IH1|].
  rewrite (normalize_flags_cons _ _ f), IH2; [reflexivity|].
  simpl. rewrite (dict_get_found _ _ _ _ Ht), (dict_get_found _ _ _ _ Hd).
  destruct f; reflexivity.
Qed.

(** C6, as amended.  The answer is a JSON text that holds no [```],
    alone or between the markers (with white space of JSON or nothing
    between the markers and the text); it is an object without the key
    ["error"] and with the four keys, its ["credibility_score"] a value
    the gauge takes (a number), its ["red_flags"] a list of objects with
    a ["flag_type"] and a ["description"].  Then the page shows the
    report of the success record with exactly these values. *)
Theorem report_roundtrip (w : world) (text_prompt : str)
    (image : option image) (t t0 : str) (d : dict) (l : list json)
    (r : success_record) :
  answer w text_prompt image = inr t ->
  t = t0
  \/ (exists w1 w2, t = fenced_with w1 w2 t0
                    /\ forallb Decoder.is_ws w1 = true
                    /\ forallb Decoder.is_ws w2 = true) ->
  contains fence_close t0 = false ->
  json_loads t0 = Return (JDict d) ->
  has_key d (py "error") = false ->
  dict_find d (py "credibility_score") = Some (credibilityScore r) ->
  gauge_value_ok (credibilityScore r) = true ->
  dict_find d (py "summary") = Some (summary r) ->
  dict_find d (py "educational_insight") = Some (educationalInsight r) ->
  dict_find d (py "red_flags") = Some (JList l) ->
  Forall2 structured l (redFlags r) ->
  analyze w text_prompt image
  = (GenerateContent (request_content (prompt_template text_prompt) image)
     :: report r, Return tt).
Proof.
  intros Ha Ht Hc Hv He Hs Hg Hm Hi Hf Hl.
  assert (Hp : json_loads (strip_fences t) = Return (JDict d)).
  { destruct Ht as [->|(w1 & w2 & -> & H1 & H2)];
      [apply loads_plain | apply loads_fenced_plain]; assumption. }
  destruct (structured_normalized _ _ Hl) as [Hd Hn].
  rewrite (analyze_report w text_prompt image t d l Ha Hp He);
    [|rewrite (dict_get_found _ _ _ _ Hs); exact Hg
     |exact (dict_get_found _ _ _ _ Hf) | exact Hd].
  rewrite Hn, (dict_get_found _ _ _ _ Hs), (dict_get_found _ _ _ _ Hm),
    (dict_get_found _ _ _ _ Hi).
  destruct r; reflexivity.
Qed.

(** The lottery message and its analysis, between fences. *)
Lemma report_roundtrip_witness :
  let p := py "CONGRATS! You won..." in
  let t := js "{'credibility_score': 2, 'summary': 'Scam', 'red_flags': [{'flag_type':'Urgency','description':'Pressure to act fast'}], 'educational_insight': 'Lottery scams...'}" in
  analyze (answering (fenced t)) p None
  = (GenerateContent (request_content (prompt_template p) None)
     :: report {| credibilityScore := JInt 2;
                  summary := JStr (py "Scam");
                  redFlags :=
                    [ {| flagType := JStr (py "Urgency");
                         description := JStr (py "Pressure to act fast") |} ];
                  educationalInsight := JStr (py "Lottery scams...") |},
     Return tt).
Proof.
  intros p t.
  apply (report_roundtrip (answering (fenced t)) p None (fenced t) t
           [(py "credibility_score", JInt 2);
            (py "summary", JStr (py "Scam"));
            (py "red_flags",
             JList [JDict [(py "flag_type", JStr (py "Urgency"));
                           (py "description",
                            JStr (py "Pressure to act fast"))]]);
            (py "educational_insight", JStr (py "Lottery scams..."))]
           [JDict [(py "flag_type", JStr (py "Urgency"));
                   (py "description", JStr (py "Pressure to act fast"))]]);
    try (vm_compute; reflexivity).
  - right. exists nl, nl. repeat split.
  - repeat constructor. eexists. repeat split.
Defined.

(** C6 as stated fails.  A summary that holds [```] reaches the page
    without it, and an answer with the four keys and the key ["error"]
    is shown as a failure. *)
Lemma report_not_verbatim :
  let p := py "CONGRATS! You won..." in
  let t1 := js "{'credibility_score': 2, 'summary': 'Do ```not``` pay', 'red_flags': [], 'educational_insight': 'Lottery scams...'}" in
  let t2 := js "{'credibility_score': 2, 'summary': 'Scam', 'red_flags': [{'flag_type':'Urgency','description':'Pressure to act fast'}], 'educational_insight': 'Lottery scams...', 'error': 'none'}" in
  json_loads t1
  = Return (JDict [(py "credibility_score", JInt 2);
                   (py "summary", JStr (py "Do ```not``` pay"));
                   (py "red_flags", JList []);
                   (py "educational_insight", JStr (py "Lottery scams..."))])
  /\ analyze (answering t1) p None
     = (GenerateContent (request_content (prompt_template p) None)
        :: report {| credibilityScore := JInt 2;
                     summary := JStr (py "Do not pay");
                     redFlags := [];
                     educationalInsight := JStr (py "Lottery scams...") |},
        Return tt)
  /\ parsed (json_loads t2)
     = Some (JDict [(py "credibility_score", JInt 2);
                    (py "summary", JStr (py "Scam"));
                    (py "red_flags",
                     JList [JDict [(py "flag_type", JStr (py "Urgency"));
                                   (py "description",
                                    JStr (py "Pressure to act fast"))]]);
                    (py "educational_insight", JStr (py "Lottery scams..."));
                    (py "error", JStr (py "none"))])
  /\ analyze (answering t2) p None
     = (GenerateContent (request_content (prompt_template p) None)
        :: failure_report (JStr (py "none")), Return tt).
Proof. intros p t1 t2. split; [|split; [|split]]; vm_compute; reflexivity. Qed.

(** ** The page fetched from a URL *)

Lemma raise_for_status_cases (r : response) :
  ((400 <= status_code r < 600)%Z /\ exists e, raise_for_status r = Raise e)
  \/ (~ (400 <= status_code r < 600)%Z /\ raise_for_status r = Return tt).
Proof.
  unfold raise_for_status.
  destruct (Z.leb_spec 400 (status_code r));
    destruct (Z.ltb_spec (status_code r) 500);
    destruct (Z.leb_spec 500 (status_code r));
    destruct (Z.ltb_spec (status_code r) 600);
    cbn [andb]; try lia;
    solve [left; split; [lia | eexists; reflexivity]
          | right; split; [lia | reflexivity]].
Qed.

Section Fetch.

Variable w : world.
Variable url : str.

Lemma fetch_refused (e : exn) :
  requests_get w url = inl e ->
  get_text_from_url w url
  = ([fetch url], Return (py "Error fetching URL: " ++ exn_str e)).
Proof.
  intros H. unfold get_text_from_url, try_except, bind, emit, lift, ret.
  rewrite H. reflexivity.
Qed.

Lemma fetch_bad_status (r : response) (e : exn) :
  requests_get w url = inr r -> raise_for_status r = Raise e ->
  get_text_from_url w url
  = ([fetch url], Return (py "Error fetching URL: " ++ exn_str e)).
Proof.
  intros H He. unfold get_text_from_url, try_except, bind, emit, lift, ret.
  rewrite H, He. reflexivity.
Qed.

Lemma fetch_page (r : response) :
  requests_get w url = inr r -> raise_for_status r = Return tt ->
  get_text_from_url w url = ([fetch url], Return (page_text r)).
Proof.
  intros H He. unfold get_text_from_url, try_except, bind, emit, lift, ret.
  rewrite H, He. reflexivity.
Qed.

End Fetch.




(** ** The scan of a URL *)

(** C9.  When the page is fetched, the word "Error" in its text alone
    decides: with it the scan shows the text as an error and the model is
    not called, without it the analysis runs on the text. *)
Theorem url_scan_error_word (w : world) (url : str) (r : response) :
  requests_get w url = inr r ->
  raise_for_status r = Return tt ->
  let spinner :=
    Spinner (py "Deploying web crawler and analyzing content...") in
  (contains (py "Error") (page_text r) = true ->
   url_scan w url
   = ([Enter spinner; fetch url;
       Call (St.error (text (page_text r)) None); Exit spinner],
      Return tt)
   /\ forall request, ~ In (GenerateContent request) (fst (url_scan w url)))
  /\ (contains (py "Error") (page_text r) = false ->
      url_scan w url
      = (Enter spinner :: fetch url
         :: fst (analyze w (page_text r) None) ++ [Exit spinner],
         snd (analyze w (page_text r) None))).
Proof.
  intros H He spinner.
  assert (U : forall b, contains (py "Error") (page_text r) = b ->
    url_scan w url
    = within spinner
        (bind ([fetch url], Return (page_text r))
           (fun s => if b then st (St.error (text s) None)
                     else analyze w s None))).
  { intros b Hb. unfold url_scan. rewrite (fetch_page w url r H He).
    unfold bind. rewrite Hb. reflexivity. }
  split; intros Hc; rewrite (U _ Hc).
  - split; [reflexivity|].
    intros request [F|[F|[F|[F|[]]]]]; discriminate F.
  - unfold bind, within. destruct (analyze w (page_text r) None) as [t o].
    destruct o; reflexivity.
Qed.

(** A fetch that failed is told from the others by the same word: its
    text begins with "Error". *)
Lemma url_scan_fetch_failed (w : world) (url : str) (e : exn) :
  requests_get w url = inl e ->
  url_scan w url
  = ([Enter (Spinner (py "Deploying web crawler and analyzing content..."));
      fetch url;
      Call (St.error (text (py "Error fetching URL: " ++ exn_str e)) None);
      Exit (Spinner (py "Deploying web crawler and analyzing content..."))],
     Return tt).
Proof.
  intros H. unfold url_scan. rewrite (fetch_refused w url e H).
  reflexivity.
Qed.

(** A page that reports on error rates. *)
Lemma url_scan_error_word_witness :
  let w := serving 200 (py "OK")
             [Tag (py "p") [Text (py "Error rates fell in 2023.")];
              Tag (py "p") [Text (py "Experts agree.")]] in
  let url := py "http://example.org/" in
  let spinner :=
    Spinner (py "Deploying web crawler and analyzing content...") in
  url_scan w url
  = ([Enter spinner; fetch url;
      Call (St.error (text (py "Error rates fell in 2023. Experts agree."))
              None);
      Exit spinner],
     Return tt).
Proof.
  intros w url spinner.
  destruct (url_scan_error_word w url _ eq_refl eq_refl) as [H _].
  destruct (H eq_refl) as [E _]. exact E.
Defined.

(** ** The set-up of the model *)





(** * The rest of the script *)

(** ** Traces *)

Lemma fst_bind {A B} (m : prog A) (k : A -> prog B) :
  fst (bind m k)
  = fst m ++ match snd m with
             | Return a => fst (k a)
             | _ => []
             end.
Proof.
  destruct m as [t [a|e|]]; unfold bind; simpl; rewrite ?app_nil_r;
    try reflexivity.
  destruct (k a); reflexivity.
Qed.

Lemma snd_bind {A B} (m : prog A) (k : A -> prog B) :
  snd (bind m k)
  = match snd m with
    | Return a => snd (k a)
    | Raise e => Raise e
    | Halt => Halt
    end.
Proof.
  destruct m as [t [a|e|]]; unfold bind; simpl; try reflexivity.
  destruct (k a); reflexivity.
Qed.

Lemma fst_within {A} (b : block) (m : prog A) :
  fst (within b m) = Enter b :: fst m ++ [Exit b].
Proof. destruct m; reflexivity. Qed.

Lemma snd_within {A} (b : block) (m : prog A) :
  snd (within b m) = snd m.
Proof. destruct m; reflexivity. Qed.

Lemma outside_app (a b : list event) :
  outside (a ++ b) = outside a ++ outside b.
Proof. apply filter_app. Qed.

Lemma outside_draws (t : list event) :
  forallb draws t = true -> outside t = [].
Proof.
  induction t as [|e t IH]; [reflexivity|]. simpl.
  rewrite andb_true_iff; intros [-> H]. simpl. exact (IH H).
Qed.

Section Events.

Variable P : event -> bool.

Lemma all_bind {A B} (m : prog A) (k : A -> prog B) :
  forallb P (fst m) = true ->
  (forall a, snd m = Return a -> forallb P (fst (k a)) = true) ->
  forallb P (fst (bind m k)) = true.
Proof.
  intros Hm Hk. rewrite fst_bind, forallb_app, Hm.
  destruct (snd m) as [a|e|]; [apply Hk; reflexivity | reflexivity..].
Qed.

Lemma all_within {A} (b : block) (m : prog A) :
  P (Enter b) = true -> P (Exit b) = true ->
  forallb P (fst m) = true -> forallb P (fst (within b m)) = true.
Proof.
  intros H1 H2 Hm. rewrite fst_within. simpl.
  rewrite forallb_app, H1, Hm. simpl. rewrite H2. reflexivity.
Qed.

Lemma all_for_each {A} (l : list A) (body : A -> prog unit) :
  (forall x, forallb P (fst (body x)) = true) ->
  forallb P (fst (for_each l body)) = true.
Proof.
  intros H. induction l as [|x l IH]; [reflexivity|].
  cbn [for_each]. apply all_bind; [apply H | intros _ _; exact IH].
Qed.

Lemma all_try {A} (body : prog A) (handler : exn -> prog A) :
  forallb P (fst body) = true ->
  (forall e, forallb P (fst (handler e)) = true) ->
  forallb P (fst (try_except body handler)) = true.
Proof.
  intros Hb Hh. destruct body as [t [a|e|]]; simpl in *; try exact Hb.
  specialize (Hh e). destruct (handler e) as [t' o]. simpl in *.
  rewrite forallb_app, Hb, Hh. reflexivity.
Qed.

(** What holds of every drawing but the page configuration holds of the
    events of the report. *)
Hypothesis P_drawing :
  forall e, draws e = true -> is_page_config e = false -> P e = true.

Lemma all_st (c : St.call) :
  is_page_config (Call c) = false -> forallb P (fst (st c)) = true.
Proof.
  intros H. simpl. rewrite P_drawing; [reflexivity | reflexivity | exact H].
Qed.

Lemma all_lift {A} (o : outcome A) : forallb P (fst (lift o)) = true.
Proof. reflexivity. Qed.

Lemma all_display_flag (flag : json) :
  forallb P (fst (display_flag flag)) = true.
Proof. destruct flag; try reflexivity; apply all_st; reflexivity. Qed.

Lemma all_display_red_flags (v : json) :
  forallb P (fst (display_red_flags v)) = true.
Proof.
  unfold display_red_flags.
  apply all_bind; [apply all_st; reflexivity | intros _ _].
  apply all_bind; [apply all_lift | intros red_flags _].
  destruct (truthy red_flags); [|apply all_st; reflexivity].
  apply all_bind; [apply all_lift | intros flags _].
  apply all_for_each, all_display_flag.
Qed.

Lemma all_report (v : json) :
  forallb P (fst (display_analysis_report v)) = true.
Proof.
  unfold display_analysis_report.
  apply all_bind; [apply all_lift | intros [|] _].
  - apply all_bind; [apply all_lift | intros message _].
    apply all_st; reflexivity.
  - repeat first
      [ apply all_display_red_flags
      | apply all_lift
      | apply all_st; reflexivity
      | apply all_within; [apply P_drawing; reflexivity
                          | apply P_drawing; reflexivity |]
      | apply all_bind; [|intros ? _] ].
Qed.

End Events.

(** ** The calls a scan makes *)

Lemma outside_bind {A B} (m : prog A) (k : A -> prog B) :
  outside (fst (bind m k))
  = outside (fst m) ++ match snd m with
                       | Return a => outside (fst (k a))
                       | _ => []
                       end.
Proof.
  rewrite fst_bind, outside_app. destruct (snd m); reflexivity.
Qed.

Lemma outside_within {A} (b : block) (m : prog A) :
  outside (fst (within b m)) = outside (fst m).
Proof.
  rewrite fst_within. change (Enter b :: fst m ++ [Exit b])
    with ([Enter b] ++ fst m ++ [Exit b]).
  rewrite !outside_app. simpl. apply app_nil_r.
Qed.

Lemma outside_report (v : json) :
  outside (fst (display_analysis_report v)) = [].
Proof. apply outside_draws, all_report. intros e H _; exact H. Qed.

Lemma analyze_trace (w : world) (text_prompt : str) (image : option image) :
  exists v,
    analyze w text_prompt image
    = (GenerateContent (request_content (prompt_template text_prompt) image)
       :: fst (display_analysis_report v),
       snd (display_analysis_report v)).
Proof.
  destruct (get_ai_analysis_returns w text_prompt image) as [v Hv].
  exists v. unfold analyze. rewrite Hv. unfold bind.
  destruct (display_analysis_report v); reflexivity.
Qed.

Lemma outside_analyze (w : world) (text_prompt : str)
    (image : option image) :
  outside (fst (analyze w text_prompt image))
  = [GenerateContent (request_content (prompt_template text_prompt) image)].
Proof.
  destruct (analyze_trace w text_prompt image) as [v ->].
  cbn [fst]. change (GenerateContent ?r :: ?t) with ([GenerateContent r] ++ t).
  rewrite outside_app, outside_report. reflexivity.
Qed.

Lemma lookup_example (e : example) :
  lookup EXAMPLES (example_label e) = Return (example_text e).
Proof. destruct e; vm_compute; reflexivity. Qed.

Lemma get_text_from_url_cases (w : world) (url : str) :
  get_text_from_url w url
  = ([fetch url],
     Return match requests_get w url with
            | inl e => py "Error fetching URL: " ++ exn_str e
            | inr r =>
                match raise_for_status r with
                | Raise e => py "Error fetching URL: " ++ exn_str e
                | _ => page_text r
                end
            end).
Proof.
  unfold get_text_from_url, fetch, page_text.
  cbv beta iota zeta delta [try_except bind emit lift ret].
  destruct (requests_get w url) as [e|r]; [reflexivity|].
  destruct (raise_for_status r) as [[]|e|] eqn:E; try reflexivity.
  exfalso. unfold raise_for_status in E.
  repeat match type of E with
    | (if ?b then _ else _) = _ => destruct b
    end; discriminate E.
Qed.

(** The text of a failed fetch holds the word the scan looks for. *)
Lemma error_word (s : str) :
  contains (py "Error") (py "Error fetching URL: " ++ s) = true.
Proof. reflexivity. Qed.

Lemma outside_url_scan (w : world) (url : str) :
  outside (fst (url_scan w url))
  = fetch url
    :: match requests_get w url with
       | inr r =>
           if status_passes r && negb (contains (py "Error") (page_text r))
           then [GenerateContent
                   (request_content (prompt_template (page_text r)) None)]
           else []
       | inl _ => []
       end.
Proof.
  unfold url_scan. rewrite outside_within, outside_bind.
  unfold status_passes.
  destruct (requests_get w url) as [e|r] eqn:H.
  - rewrite (fetch_refused w url e H). cbn [fst snd]. rewrite error_word.
    reflexivity.
  - destruct (raise_for_status_cases r) as [[_ [e He]]|[_ He]]; rewrite He.
    + rewrite (fetch_bad_status w url r e H He). cbn [fst snd].
      rewrite error_word. reflexivity.
    + rewrite (fetch_page w url r H He). cbn [fst snd andb].
      destruct (contains (py "Error") (page_text r)); [reflexivity|].
      cbn [negb]. rewrite outside_analyze. reflexivity.
Qed.

Lemma outside_image_scan (w : world) (f : upload) :
  outside (fst (image_scan w f))
  = ImageOpen f
    :: match image_open w f with
       | inr i =>
           [GenerateContent
              (request_content (prompt_template image_instruction) (Some i))]
       | inl _ => []
       end.
Proof.
  unfold image_scan. rewrite outside_within, outside_bind.
  cbn [emit fst snd]. rewrite outside_bind.
  destruct (image_open w f) as [e|i]; cbn [lift fst snd]; [reflexivity|].
  rewrite outside_analyze. reflexivity.
Qed.

Ltac outside_calls :=
  repeat (rewrite outside_bind;
          cbn [st emit lift ret fst snd outside filter draws negb app]).

Lemma outside_tab1 (w : world) (ui : session) :
  outside (fst (tab1 w ui))
  = if text_btn ui && nonempty (text_area_value ui)
    then [GenerateContent
            (request_content (prompt_template (text_area_value ui)) None)]
    else [].
Proof.
  unfold tab1. rewrite outside_within. outside_calls.
  rewrite lookup_example. outside_calls.
  destruct (text_btn ui); [|reflexivity].
  destruct (nonempty (text_area_value ui)); [|reflexivity].
  unfold text_scan. rewrite outside_within. apply outside_analyze.
Qed.

Lemma outside_tab2 (w : world) (ui : session) :
  outside (fst (tab2 w ui))
  = if url_btn ui && nonempty (url_input_value ui)
    then outside (fst (url_scan w (url_input_value ui)))
    else [].
Proof.
  unfold tab2. rewrite outside_within. outside_calls.
  destruct (url_btn ui); [|reflexivity].
  destruct (nonempty (url_input_value ui)); reflexivity.
Qed.

(** [st.image] returns for the files PIL reads, and raises for the
    others. *)
Lemma st_image_cases (w : world) (f : upload) (caption : str) (b : bool) :
  st_image w f caption b
  = ([Call (St.image f caption b)],
     match image_open w f with
     | inr _ => Return tt
     | inl e => Raise e
     end).
Proof.
  unfold st_image, bind, st, emit, lift.
  destruct (image_open w f); reflexivity.
Qed.

Lemma outside_tab3 (w : world) (ui : session) :
  outside (fst (tab3 w ui))
  = match uploaded_file ui with
    | Some f =>
        match image_open w f with
        | inr _ => if img_btn ui then outside (fst (image_scan w f)) else []
        | inl _ => []
        end
    | None => []
    end.
Proof.
  unfold tab3. rewrite outside_within. outside_calls.
  destruct (uploaded_file ui) as [f|]; [|reflexivity].
  rewrite outside_bind, st_image_cases. cbn [fst snd].
  destruct (image_open w f) as [e|i]; [reflexivity|]. outside_calls.
  destruct (img_btn ui); reflexivity.
Qed.

(** X1.  The report of any value only draws: its events are calls of
    Streamlit and blocks, none reaches the network, the model or a
    library. *)
Theorem report_only_draws (v : json) :
  forallb draws (fst (display_analysis_report v)) = true.
Proof. apply all_report. intros e H _; exact H. Qed.

(** X2.  An analysis with its report calls the model once, with the
    request made of the prompt and, after it, the image if there is one;
    nothing else reaches outside the page, whatever the model answers. *)
Theorem analysis_calls_model_once (w : world) (text_prompt : str)
    (image : option image) :
  outside (fst (analyze w text_prompt image))
  = [GenerateContent (request_content (prompt_template text_prompt) image)].
Proof. apply outside_analyze. Qed.

(** X3.  The text tab calls the model exactly when its button is pressed
    over a text that is not empty, once, with the prompt of the text of
    the field; it makes no other call. *)
Theorem text_tab_calls (w : world) (ui : session) :
  outside (fst (tab1 w ui))
  = if text_btn ui && nonempty (text_area_value ui)
    then [GenerateContent
            (request_content (prompt_template (text_area_value ui)) None)]
    else [].
Proof. apply outside_tab1. Qed.

(** X4.  The URL tab sends one request for the page exactly when its
    button is pressed over a URL that is not empty, and then calls the
    model exactly when the page came with a status outside 400 to 599 and
    its text does not hold the word "Error"; the prompt is that of the
    text of the page. *)
Theorem url_tab_calls (w : world) (ui : session) :
  outside (fst (tab2 w ui))
  = if url_btn ui && nonempty (url_input_value ui)
    then fetch (url_input_value ui)
         :: match requests_get w (url_input_value ui) with
            | inr r =>
                if status_passes r
                   && negb (contains (py "Error") (page_text r))
                then [GenerateContent
                        (request_content (prompt_template (page_text r))
                           None)]
                else []
            | inl _ => []
            end
    else [].
Proof. rewrite outside_tab2, outside_url_scan. reflexivity. Qed.

(** X5.  The image tab reaches outside the page exactly when there is
    an uploaded file that PIL reads and its button is pressed: it then
    opens the file and calls the model once, with the prompt of the
    fixed instruction and the image after it.  For a file PIL cannot
    read, [st.image] raises before the button is drawn, and nothing
    reaches outside. *)
Theorem image_tab_calls (w : world) (ui : session) :
  outside (fst (tab3 w ui))
  = match uploaded_file ui with
    | Some f =>
        match image_open w f with
        | inr i =>
            if img_btn ui
            then [ImageOpen f;
                  GenerateContent
                    (request_content (prompt_template image_instruction)
                       (Some i))]
            else []
        | inl _ => []
        end
    | None => []
    end.
Proof.
  rewrite outside_tab3. destruct (uploaded_file ui) as [f|]; [|reflexivity].
  rewrite outside_image_scan.
  destruct (image_open w f); reflexivity.
Qed.

(** ** A run of the script *)

Lemma startup_succeeds (w : world) :
  startup_error w = None -> startup w = (setup_calls w, Return tt).
Proof.
  unfold startup_error, startup, setup_calls. intros H.
  destruct (load_dotenv w) as [e1|] eqn:E1; [discriminate H|].
  destruct (configure w (getenv w (py "GOOGLE_API_KEY"))) as [e2|] eqn:E2;
    [discriminate H|].
  cbv beta iota zeta delta [try_except bind emit may_raise lift ret].
  rewrite H. reflexivity.
Qed.

Ltac how_it_ends :=
  repeat (rewrite snd_bind; cbn [st emit lift ret fst snd]).

(** X6.  A run in which the set-up of the model succeeds and no scan
    is started (the text and the URL button are each at rest or pressed
    over an empty field, and there is no uploaded file, or one that PIL
    reads with the image button at rest) returns, and the three calls of
    the set-up are all that reaches outside the page: no page is
    fetched, no image opened, the model is not called. *)
Theorem run_at_rest (theme_css : str) (w : world) (ui : session) :
  startup_error w = None ->
  text_btn ui && nonempty (text_area_value ui) = false ->
  url_btn ui && nonempty (url_input_value ui) = false ->
  uploaded_file ui = None
  \/ (img_btn ui = false
      /\ exists f i, uploaded_file ui = Some f /\ image_open w f = inr i) ->
  snd (script theme_css w ui) = Return tt
  /\ outside (fst (script theme_css w ui)) = setup_calls w.
Proof.
  intros Hs H1 H2 H3.
  assert (T1 : snd (tab1 w ui) = Return tt).
  { unfold tab1. rewrite snd_within. how_it_ends.
    rewrite lookup_example. how_it_ends.
    destruct (text_btn ui); [|reflexivity].
    destruct (nonempty (text_area_value ui)); [discriminate H1 | reflexivity]. }
  assert (T2 : snd (tab2 w ui) = Return tt).
  { unfold tab2. rewrite snd_within. how_it_ends.
    destruct (url_btn ui); [|reflexivity].
    destruct (nonempty (url_input_value ui)); [discriminate H2 | reflexivity]. }
  assert (T3 : snd (tab3 w ui) = Return tt).
  { unfold tab3. rewrite snd_within. how_it_ends.
    destruct H3 as [H3|(H3 & f & i & Hf & Hi)]; [rewrite H3; reflexivity|].
    rewrite Hf, snd_bind, st_image_cases. cbn [snd]. rewrite Hi.
    how_it_ends. rewrite H3. reflexivity. }
  assert (E : outside (fst (tab3 w ui)) = []).
  { rewrite outside_tab3.
    destruct H3 as [H3|(H3 & f & i & Hf & Hi)]; [rewrite H3; reflexivity|].
    rewrite Hf, Hi, H3. reflexivity. }
  split.
  - unfold script. how_it_ends. rewrite (startup_succeeds w Hs).
    how_it_ends. unfold sidebar. rewrite snd_within. how_it_ends.
    rewrite T1, T2. exact T3.
  - unfold script. outside_calls. rewrite (startup_succeeds w Hs).
    cbn [fst snd]. outside_calls.
    assert (Hside : outside (fst sidebar) = []) by reflexivity.
    assert (Hret : snd sidebar = Return tt) by reflexivity.
    rewrite Hside, Hret. outside_calls.
    rewrite outside_tab1, outside_tab2, E, H1, H2, T1, T2.
    reflexivity.
Qed.

(** A run with the text button pressed over an empty field, and a model
    that would answer. *)
Lemma run_at_rest_witness :
  let w := answering (js "{'summary': 'Scam'}") in
  snd (script (py "<style></style>") w (pressing_text [])) = Return tt
  /\ outside (fst (script (py "<style></style>") w (pressing_text [])))
     = [LoadDotenv; Configure None; GenerativeModel (py "gemini-1.5-flash")].
Proof.
  intros w.
  apply (run_at_rest (py "<style></style>") w (pressing_text []));
    [reflexivity | reflexivity | reflexivity | left; reflexivity].
Defined.

(** X7.  The button of the text tab pressed over an empty text: the tab
    shows its widgets, the text area with the text of the selected
    example, and the warning; it returns and the model is not called. *)
Theorem empty_text_warns (w : world) (ui : session) :
  text_btn ui = true -> text_area_value ui = [] ->
  tab1 w ui
  = ([Enter (Tab 1);
      Call (St.header (py "Text Analysis Module") None);
      Call (St.selectbox (py "Choose a pre-loaded example:")
              (map example_label [NoExample; LotteryScam; HealthCure])
              (py "example_selector"));
      Call (St.text_area (py "Or, paste your text content here:")
              (example_text (selected_example ui)) 200 (py "text_area"));
      Call (St.button (py "Initiate Text Scan") true (py "text_btn"));
      no_text_warning;
      Exit (Tab 1)],
     Return tt).
Proof.
  intros H1 H2. unfold tab1.
  cbv beta iota zeta delta [bind st emit lift ret within].
  rewrite lookup_example. cbv beta iota. rewrite H1, H2. reflexivity.
Qed.

Lemma empty_text_warns_witness :
  snd (tab1 keyless (pressing_text [])) = Return tt
  /\ In no_text_warning (fst (tab1 keyless (pressing_text [])))
  /\ outside (fst (tab1 keyless (pressing_text []))) = [].
Proof.
  rewrite (empty_text_warns keyless (pressing_text []) eq_refl eq_refl).
  split; [reflexivity|]. split; [|reflexivity].
  do 5 right. left. reflexivity.
Defined.

(** X8.  The button of the URL tab pressed over an empty field: the tab
    shows its widgets and the warning; it returns, no page is fetched and
    the model is not called. *)
Theorem empty_url_warns (w : world) (ui : session) :
  url_btn ui = true -> url_input_value ui = [] ->
  tab2 w ui
  = ([Enter (Tab 2);
      Call (St.header (py "URL Analysis Module") None);
      Call (St.text_input (py "Enter webpage URL for deep content scan:")
              (py "url_input"));
      Call (St.button (py "Initiate URL Scan") true (py "url_btn"));
      no_url_warning;
      Exit (Tab 2)],
     Return tt).
Proof.
  intros H1 H2. unfold tab2.
  cbv beta iota zeta delta [bind st emit lift ret within].
  rewrite H1, H2. reflexivity.
Qed.

Lemma empty_url_warns_witness :
  snd (tab2 keyless (pressing_url [])) = Return tt
  /\ In no_url_warning (fst (tab2 keyless (pressing_url [])))
  /\ outside (fst (tab2 keyless (pressing_url []))) = [].
Proof.
  rewrite (empty_url_warns keyless (pressing_url []) eq_refl eq_refl).
  split; [reflexivity|]. split; [|reflexivity].
  do 4 right. left. reflexivity.
Defined.

(** X9.  An uploaded file that PIL cannot read makes the image tab
    raise at [st.image], whether its button was pressed or not: after
    the heading and the uploader comes the call of [st.image], the tab
    is left and the exception leaves it.  The button is not drawn,
    [Image.open] is not reached, the model is not called, and nothing
    catches the exception. *)
Theorem unreadable_image_raises (w : world) (ui : session) (f : upload)
    (e : exn) :
  uploaded_file ui = Some f ->
  image_open w f = inl e ->
  exists raised,
    tab3 w ui
    = ([Enter (Tab 3);
        Call (St.header (py "Image Analysis Module") None);
        Call (St.file_uploader
                (py "Upload image for optical character and context recognition:")
                [py "jpg"; py "jpeg"; py "png"] (py "img_uploader"));
        Call (St.image f (py "Image awaiting analysis") true);
        Exit (Tab 3)],
       Raise raised).
Proof.
  intros H1 H2. exists e. unfold tab3, st_image.
  cbv beta iota zeta delta [bind st emit lift ret within].
  rewrite H1. cbv beta iota. rewrite H2. reflexivity.
Qed.

Lemma unreadable_image_raises_witness :
  let f := {| file_name := py "notes.png"; file_bytes := [] |} in
  exists raised,
    tab3 unreadable (pressing_image f)
    = ([Enter (Tab 3);
        Call (St.header (py "Image Analysis Module") None);
        Call (St.file_uploader
                (py "Upload image for optical character and context recognition:")
                [py "jpg"; py "jpeg"; py "png"] (py "img_uploader"));
        Call (St.image f (py "Image awaiting analysis") true);
        Exit (Tab 3)],
       Raise raised).
Proof.
  intros f.
  exact (unreadable_image_raises unreadable (pressing_image f) f
           (Failure (py "cannot identify image file")) eq_refl eq_refl).
Defined.

(** X10.  An analysis that fails is shown as one error line: when the
    call of the model raises, or its answer does not parse, the page
    shows "Analysis Error:" with the fixed text of [get_ai_analysis] and
    the cause; there are no balloons and no report, and the scan
    returns. *)
Theorem failed_analysis_shown (w : world) (text_prompt : str)
    (image : option image) (e : exn) :
  answer w text_prompt image = inl e
  \/ (exists t, answer w text_prompt image = inr t
                /\ json_loads (strip_fences t) = Raise e) ->
  analyze w text_prompt image
  = ([GenerateContent (request_content (prompt_template text_prompt) image);
      Call (St.error
              (text (warning_sign ++ py " Analysis Error: "
                     ++ analysis_failed ++ exn_str e))
              (Some no_entry_sign))],
     Return tt).
Proof.
  intros H.
  assert (G : get_ai_analysis w text_prompt image
              = ([GenerateContent
                    (request_content (prompt_template text_prompt) image)],
                 Return (error_record e))).
  { destruct H as [H|(t & Ha & Ht)].
    - apply analysis_call_fails, H.
    - apply (analysis_parse_fails _ _ _ t); assumption. }
  unfold analyze. rewrite G. unfold bind, error_record. cbv beta.
  rewrite (display_failure
             [(py "error", JStr (analysis_failed ++ exn_str e))]
             (JStr (analysis_failed ++ exn_str e)) eq_refl).
  reflexivity.
Qed.

(** A model that cannot be reached. *)
Lemma failed_analysis_shown_witness :
  analyze keyless (py "You won a prize") None
  = ([GenerateContent
        (request_content (prompt_template (py "You won a prize")) None);
      Call (St.error
              (text (warning_sign
                     ++ py " Analysis Error: AI analysis failed. The model response was not valid JSON. Details: No API key"))
              (Some no_entry_sign))],
     Return tt).
Proof.
  exact (failed_analysis_shown keyless (py "You won a prize") None
           (Failure (py "No API key")) (or_introl eq_refl)).
Defined.

(** X11.  A fetch that fails is never analysed: when the request raises
    or the status is refused, the scan of the URL shows the text "Error
    fetching URL: " with the cause as an error and returns; the model is
    not called, whatever the cause reads. *)
Theorem failed_fetch_shown (w : world) (url : str) (e : exn) :
  requests_get w url = inl e
  \/ (exists r, requests_get w url = inr r /\ raise_for_status r = Raise e) ->
  url_scan w url
  = ([Enter url_spinner; fetch url;
      Call (St.error (text (py "Error fetching URL: " ++ exn_str e)) None);
      Exit url_spinner],
     Return tt).
Proof.
  intros H.
  assert (G : get_text_from_url w url
              = ([fetch url], Return (py "Error fetching URL: " ++ exn_str e))).
  { destruct H as [H|(r & H & He)].
    - apply fetch_refused, H.
    - apply (fetch_bad_status w url r); assumption. }
  unfold url_scan. rewrite G. reflexivity.
Qed.

(** A page that is not found. *)
Lemma failed_fetch_shown_witness :
  let url := py "http://example.org/" in
  url_scan (serving 404 (py "Not Found") two_paragraphs) url
  = ([Enter url_spinner; fetch url;
      Call (St.error
              (text (py "Error fetching URL: 404 Client Error: Not Found for url: http://example.org/"))
              None);
      Exit url_spinner],
     Return tt).
Proof.
  intros url.
  apply (failed_fetch_shown (serving 404 (py "Not Found") two_paragraphs) url
           (HTTPError (py "404 Client Error: Not Found for url: http://example.org/"))).
  right. eexists. split; reflexivity.
Defined.

(** ** How the report ends *)

Lemma display_flag_returns (flag : json) :
  snd (display_flag flag) = Return tt.
Proof. destruct flag; reflexivity. Qed.

Lemma for_each_returns (l : list json) :
  snd (for_each l display_flag) = Return tt.
Proof.
  induction l as [|x l IH]; [reflexivity|].
  cbn [for_each]. rewrite snd_bind, display_flag_returns. exact IH.
Qed.

Lemma for_each_strings (A : Type) (name : A -> str) (l : list A) :
  for_each (map (fun x => JStr (name x)) l) display_flag
  = (map (fun x => general_flag (name x)) l, Return tt).
Proof.
  induction l as [|x l IH]; [reflexivity|].
  cbn [map for_each]. rewrite IH. reflexivity.
Qed.

Lemma display_red_flags_cases (d : dict) :
  display_red_flags (JDict d)
  = let red_flags := dict_get d (py "red_flags") (JList []) in
    if truthy red_flags then
      match py_iter red_flags with
      | Return flags =>
          (subheader_of_flags :: fst (for_each flags display_flag), Return tt)
      | Raise e => ([subheader_of_flags], Raise e)
      | Halt => ([subheader_of_flags], Halt)
      end
    else (flags_report [], Return tt).
Proof.
  unfold display_red_flags. cbn [py_get].
  cbv beta iota zeta delta [bind st emit lift ret].
  destruct (truthy (dict_get d (py "red_flags") (JList []))); [|reflexivity].
  destruct (py_iter (dict_get d (py "red_flags") (JList []))) as [l|e|];
    try reflexivity.
  pose proof (for_each_returns l) as H.
  destruct (for_each l display_flag) as [t o]. simpl in H. subst o.
  reflexivity.
Qed.

Lemma report_ends (d : dict) :
  has_key d (py "error") = false ->
  snd (display_analysis_report (JDict d))
  = match create_gauge_chart (dict_get d (py "credibility_score") (JInt 0)) with
    | Return _ => snd (display_red_flags (JDict d))
    | Raise e => Raise e
    | Halt => Halt
    end.
Proof.
  intros H. unfold display_analysis_report. cbn [py_in]. rewrite H.
  how_it_ends. rewrite snd_within. how_it_ends. cbn [py_get].
  destruct (create_gauge_chart _); [|reflexivity..].
  how_it_ends. rewrite snd_within. how_it_ends.
  destruct (snd (display_red_flags (JDict d))) as [[]| |]; [|reflexivity..].
  rewrite snd_within. how_it_ends. reflexivity.
Qed.

Lemma report_of_other (v : json) :
  (forall d, v <> JDict d) ->
  exists e, snd (display_analysis_report v) = Raise e
            /\ match e with
               | TypeError _ | AttributeError _ => True
               | _ => False
               end.
Proof.
  intros H. unfold display_analysis_report.
  destruct v as [|b|n|f|s|l|d];
    try (eexists; split; [reflexivity | exact I]).
  - cbn [py_in]. rewrite bind_return.
    destruct (contains (py "error") s);
      eexists; (split; [reflexivity | exact I]).
  - cbn [py_in]. rewrite bind_return.
    destruct (existsb (is_str (py "error")) l);
      eexists; (split; [reflexivity | exact I]).
  - exfalso. apply (H d). reflexivity.
Qed.

Lemma report_outcomes (v : json) :
  match snd (display_analysis_report v) with
  | Return _ => True
  | Raise e => of_report e = true
  | Halt => False
  end.
Proof.
  destruct v as [|b|n|f|s|l|d];
    try (match goal with
         | |- context [display_analysis_report ?x] =>
             destruct (report_of_other x ltac:(discriminate))
               as (e & -> & He)
         end;
         destruct e; try contradiction; reflexivity).
  destruct (has_key d (py "error")) eqn:E.
  - unfold has_key in E.
    destruct (dict_find d (py "error")) as [m|] eqn:F; [|discriminate E].
    rewrite (display_failure d m F). exact I.
  - rewrite (report_ends d E). unfold create_gauge_chart.
    destruct (gauge_value_ok _); [|reflexivity].
    rewrite display_red_flags_cases. cbv zeta.
    destruct (truthy _); [|exact I].
    destruct (dict_get d (py "red_flags") (JList [])); simpl;
      solve [exact I | reflexivity].
Qed.

(** X12.  The report returns exactly for an object that has the key
    ["error"], or whose score the gauge takes and whose red flags are
    empty, zero, [None] or [False], or else a list, a string or an
    object; for any other value it does not reach its end. *)
Theorem report_returns_iff (v : json) :
  snd (display_analysis_report v) = Return tt
  <-> exists d,
        v = JDict d
        /\ (has_key d (py "error") = true
            \/ (gauge_value_ok (dict_get d (py "credibility_score") (JInt 0))
                = true
                /\ (truthy (dict_get d (py "red_flags") (JList [])) = false
                    \/ iterable (dict_get d (py "red_flags") (JList []))
                       = true))).
Proof.
  split.
  - intros H.
    destruct v as [|b|n|f|s|l|d];
      try (match type of H with
           | context [display_analysis_report ?x] =>
               destruct (report_of_other x ltac:(discriminate))
                 as (e & He & _)
           end;
           rewrite He in H; discriminate H).
    exists d. split; [reflexivity|].
    destruct (has_key d (py "error")) eqn:E; [left; reflexivity | right].
    rewrite (report_ends d E) in H. unfold create_gauge_chart in H.
    destruct (gauge_value_ok _); [|discriminate H].
    split; [reflexivity|].
    rewrite display_red_flags_cases in H. cbv zeta in H.
    destruct (truthy _); [right | left; reflexivity].
    destruct (dict_get d (py "red_flags") (JList []));
      try reflexivity; discriminate H.
  - intros (d & -> & [H|(Hg & Hf)]).
    + unfold has_key in H.
      destruct (dict_find d (py "error")) as [m|] eqn:F; [|discriminate H].
      rewrite (display_failure d m F). reflexivity.
    + destruct (has_key d (py "error")) eqn:E.
      * unfold has_key in E.
        destruct (dict_find d (py "error")) as [m|] eqn:F; [|discriminate E].
        rewrite (display_failure d m F). reflexivity.
      * rewrite (report_ends d E). unfold create_gauge_chart. rewrite Hg.
        rewrite display_red_flags_cases. cbv zeta.
        destruct Hf as [->|Hi]; [reflexivity|].
        destruct (truthy _); [|reflexivity].
        destruct (dict_get d (py "red_flags") (JList []));
          try discriminate Hi; reflexivity.
Qed.

(** X13.  No failure of the network or of the model leaves the scan of a
    text or of a URL: whatever the world does, such a scan returns, or
    raises one of the three exceptions of the report, a [TypeError], an
    [AttributeError] or a [ValueError]; it never stops the script. *)
Theorem scans_contain_failures (w : world) (s : str) :
  match snd (text_scan w s) with
  | Return _ => True
  | Raise e => of_report e = true
  | Halt => False
  end
  /\ match snd (url_scan w s) with
     | Return _ => True
     | Raise e => of_report e = true
     | Halt => False
     end.
Proof.
  assert (A : forall p, match snd (analyze w p None) with
                        | Return _ => True
                        | Raise e => of_report e = true
                        | Halt => False
                        end).
  { intros p. destruct (analyze_trace w p None) as [v ->].
    apply report_outcomes. }
  split.
  - unfold text_scan. rewrite snd_within. apply A.
  - unfold url_scan. rewrite snd_within, snd_bind.
    rewrite get_text_from_url_cases. cbn [snd].
    destruct (contains (py "Error") _); [exact I | apply A].
Qed.

(** X14.  The value [json.loads] reads from the answer is not checked:
    when it is not an object (a list, a string, a number, [true],
    [false] or [null]), [get_ai_analysis] returns it and the report of
    it raises a [TypeError] or an [AttributeError], which leaves the
    scan. *)
Theorem non_object_answer_raises (w : world) (text_prompt : str)
    (image : option image) (t : str) (v : json) :
  answer w text_prompt image = inr t ->
  json_loads (strip_fences t) = Return v ->
  (forall d, v <> JDict d) ->
  snd (get_ai_analysis w text_prompt image) = Return v
  /\ exists e,
       snd (analyze w text_prompt image) = Raise e
       /\ match e with
          | TypeError _ | AttributeError _ => True
          | _ => False
          end.
Proof.
  intros Ha Hv Hd. split.
  - rewrite (analysis_parses w text_prompt image t v Ha Hv). reflexivity.
  - rewrite (analyze_parses w text_prompt image t v Ha Hv). cbn [snd].
    apply report_of_other, Hd.
Qed.

(** An answer that is a sentence in quotes, and one that is a number. *)
Lemma non_object_answer_raises_witness :
  snd (analyze (answering (js "'The message is a scam.'"))
         (py "You won a prize") None)
  = Raise (AttributeError (py "'str' object has no attribute 'get'"))
  /\ snd (analyze (answering (py "2")) (py "You won a prize") None)
     = Raise (TypeError (py "argument of type 'int' is not iterable")).
Proof.
  split.
  - destruct (non_object_answer_raises
                (answering (js "'The message is a scam.'"))
                (py "You won a prize") None
                (js "'The message is a scam.'")
                (JStr (py "The message is a scam.")) eq_refl eq_refl
                ltac:(discriminate)) as [_ (e & He & _)].
    rewrite He. vm_compute in He. injection He as <-. reflexivity.
  - destruct (non_object_answer_raises (answering (py "2"))
                (py "You won a prize") None (py "2") (JInt 2)
                eq_refl eq_refl ltac:(discriminate)) as [_ (e & He & _)].
    rewrite He. vm_compute in He. injection He as <-. reflexivity.
Defined.

(** ** Red flags that are no list *)

(** X15.  Red flags that are [None], [False], zero or an empty string or
    object are shown like an empty list: the one line that says that no
    red flag was detected; nothing is raised. *)
Theorem falsy_red_flags (d : dict) (v : json) :
  dict_find d (py "red_flags") = Some v -> truthy v = false ->
  display_red_flags (JDict d) = (flags_report [], Return tt).
Proof.
  intros Hf Hv. rewrite display_red_flags_cases.
  rewrite (dict_get_found _ _ _ _ Hf). cbv zeta. rewrite Hv. reflexivity.
Qed.

Lemma falsy_red_flags_witness :
  json_loads (js "{'summary': 'Fine', 'red_flags': null}")
  = Return (JDict [(py "summary", JStr (py "Fine")); (py "red_flags", JNull)])
  /\ display_red_flags
       (JDict [(py "summary", JStr (py "Fine")); (py "red_flags", JNull)])
     = ([subheader_of_flags;
         Call (St.success
                 (text (party_popper
                        ++ py " No significant red flags were detected."))
                 (Some thumbs_up))],
        Return tt).
Proof.
  split; [reflexivity|].
  exact (falsy_red_flags
           [(py "summary", JStr (py "Fine")); (py "red_flags", JNull)] JNull
           eq_refl eq_refl).
Defined.

(** X16.  Red flags that are one string are taken apart: the loop goes
    through the characters of the string, and the page shows one general
    flag for each character, in order. *)
Theorem text_red_flags (d : dict) (s : str) :
  dict_find d (py "red_flags") = Some (JStr s) -> s <> [] ->
  display_red_flags (JDict d)
  = (subheader_of_flags :: map (fun c => general_flag [c]) s, Return tt).
Proof.
  intros Hf Hs. rewrite display_red_flags_cases.
  rewrite (dict_get_found _ _ _ _ Hf). cbv zeta.
  destruct s as [|c s]; [congruence|]. cbn [truthy py_iter].
  rewrite (for_each_strings char (fun c => [c])). reflexivity.
Qed.

Lemma text_red_flags_witness :
  display_red_flags (JDict [(py "red_flags", JStr (py "No"))])
  = ([subheader_of_flags; general_flag (py "N"); general_flag (py "o")],
     Return tt).
Proof.
  exact (text_red_flags [(py "red_flags", JStr (py "No"))] (py "No") eq_refl
           ltac:(discriminate)).
Defined.

(** X17.  Red flags that are one object are read by their keys: the page
    shows one general flag for each key of the object, in the order of
    the keys, and none of the values. *)
Theorem object_red_flags (d o : dict) :
  dict_find d (py "red_flags") = Some (JDict o) -> o <> [] ->
  display_red_flags (JDict d)
  = (subheader_of_flags :: map (fun kv => general_flag (fst kv)) o,
     Return tt).
Proof.
  intros Hf Ho. rewrite display_red_flags_cases.
  rewrite (dict_get_found _ _ _ _ Hf). cbv zeta.
  destruct o as [|kv o]; [congruence|]. cbn [truthy py_iter].
  rewrite (for_each_strings (str * json) fst). reflexivity.
Qed.

Lemma object_red_flags_witness :
  let flag := [(py "flag_type", JStr (py "Urgency"));
               (py "description", JStr (py "Pressure to act fast"))] in
  json_loads (js "{'red_flags': {'flag_type': 'Urgency', 'description': 'Pressure to act fast'}}")
  = Return (JDict [(py "red_flags", JDict flag)])
  /\ display_red_flags (JDict [(py "red_flags", JDict flag)])
     = ([subheader_of_flags; general_flag (py "flag_type");
         general_flag (py "description")],
        Return tt).
Proof.
  intros flag. split; [reflexivity|].
  exact (object_red_flags [(py "red_flags", JDict flag)] flag eq_refl
           ltac:(discriminate)).
Defined.

(** X18.  Red flags that are a number other than zero, or [True], make
    the loop raise a [TypeError] after the heading of the red flags: the
    value is not iterable. *)
Theorem number_red_flags (d : dict) (v : json) :
  dict_find d (py "red_flags") = Some v ->
  truthy v = true -> iterable v = false ->
  display_red_flags (JDict d)
  = ([subheader_of_flags],
     Raise (TypeError (py "'" ++ type_name v ++ py "' object is not iterable"))).
Proof.
  intros Hf Ht Hi. rewrite display_red_flags_cases.
  rewrite (dict_get_found _ _ _ _ Hf). cbv zeta. rewrite Ht.
  destruct v; try discriminate Hi; reflexivity.
Qed.

Lemma number_red_flags_witness :
  display_red_flags (JDict [(py "red_flags", JBool true)])
  = ([subheader_of_flags],
     Raise (TypeError (py "'bool' object is not iterable"))).
Proof.
  exact (number_red_flags [(py "red_flags", JBool true)] (JBool true)
           eq_refl eq_refl eq_refl).
Defined.

(** X19.  A score that is no number (a string, a list or an object)
    stops the report at the gauge: after the balloons, the heading and
    the columns, the first column is entered and left, and the
    [ValueError] of the gauge leaves the report; the summary, the red
    flags and the insight are not shown. *)
Theorem bad_score_raises (d : dict) :
  has_key d (py "error") = false ->
  gauge_value_ok (dict_get d (py "credibility_score") (JInt 0)) = false ->
  exists msg,
    display_analysis_report (JDict d)
    = ([Call St.balloons;
        Call (St.header (py "Analysis Report") (Some (py "rainbow")));
        Call (St.columns [1; 2]%Z);
        Enter (Col 1);
        Exit (Col 1)],
       Raise (ValueError msg)).
Proof.
  intros He Hg. unfold display_analysis_report. cbn [py_in py_get].
  rewrite He.
  cbv beta iota zeta delta [bind lift st emit within ret create_gauge_chart].
  rewrite Hg. eexists. reflexivity.
Qed.

(** A score given in words. *)
Lemma bad_score_raises_witness :
  json_loads (js "{'credibility_score': 'high', 'summary': 'Genuine'}")
  = Return (JDict [(py "credibility_score", JStr (py "high"));
                   (py "summary", JStr (py "Genuine"))])
  /\ exists msg,
       display_analysis_report
         (JDict [(py "credibility_score", JStr (py "high"));
                 (py "summary", JStr (py "Genuine"))])
       = ([Call St.balloons;
           Call (St.header (py "Analysis Report") (Some (py "rainbow")));
           Call (St.columns [1; 2]%Z);
           Enter (Col 1);
           Exit (Col 1)],
          Raise (ValueError msg)).
Proof.
  split; [reflexivity|].
  exact (bad_score_raises
           [(py "credibility_score", JStr (py "high"));
            (py "summary", JStr (py "Genuine"))] eq_refl eq_refl).
Defined.

(** ** More on the fences *)

Lemma replace_close_nil : replace fence_close [] [] = [].
Proof. reflexivity. Qed.

Lemma replace_close_first (y : char) (s : str) :
  startswith fence_close (y :: s) = false ->
  replace fence_close [] (y :: s) = y :: replace fence_close [] s.
Proof. unfold replace. cbn [replace_from]. intros ->. reflexivity. Qed.

Lemma replace_open_first (y : char) (s : str) :
  startswith fence_open (y :: s) = false ->
  replace fence_open [] (y :: s) = y :: replace fence_open [] s.
Proof. unfold replace. cbn [replace_from]. intros ->. reflexivity. Qed.

(** What is left of a row of backquotes is shorter than the marker. *)
Lemma replace_close_one (s : str) :
  startswith [backtick] s = false ->
  startswith [backtick] (replace fence_close [] s) = false.
Proof.
  destruct s as [|y s]; [reflexivity|]. intros H.
  rewrite replace_close_first.
  - exact H.
  - change fence_close with [backtick; backtick; backtick].
    cbn [startswith] in *.
    destruct (N.eqb backtick y); [discriminate H | reflexivity].
Qed.

Lemma replace_close_two (s : str) :
  startswith [backtick; backtick] s = false ->
  startswith [backtick; backtick] (replace fence_close [] s) = false.
Proof.
  destruct s as [|y s]; [reflexivity|]. intros H.
  assert (F : startswith fence_close (y :: s) = false).
  { change fence_close with ([backtick; backtick] ++ [backtick]).
    destruct (startswith (_ ++ _) (y :: s)) eqn:E; [|reflexivity].
    apply startswith_split in E. congruence. }
  rewrite (replace_close_first y s F).
  cbn [startswith] in *. destruct (N.eqb backtick y); [|reflexivity].
  cbn [andb] in *. apply replace_close_one. exact H.
Qed.

Lemma no_close_left (n : nat) :
  forall s, length s <= n ->
            contains fence_close (replace fence_close [] s) = false.
Proof.
  induction n as [|n IH]; intros s Hn.
  - destruct s; [reflexivity | simpl in Hn; lia].
  - destruct s as [|y s]; [reflexivity|].
    destruct (startswith fence_close (y :: s)) eqn:E.
    + apply startswith_prefix in E as [r E]. rewrite E.
      rewrite (replace_occurrence _ _ fence_close_nonempty). simpl app.
      apply IH. rewrite E in Hn. simpl in Hn. lia.
    + rewrite (replace_close_first y s E). cbn [contains].
      rewrite (IH s) by (simpl in Hn; lia). rewrite orb_false_r.
      change fence_close with [backtick; backtick; backtick] in *.
      cbn [startswith] in *. destruct (N.eqb backtick y); [|reflexivity].
      cbn [andb] in *.
      apply (replace_close_two s). exact E.
Qed.

(** X20.  Whatever the model answers, the text handed to [json.loads]
    holds no [```]: the second replacement leaves none, also where the
    first one has brought backquotes together. *)
Theorem no_fence_left (t : str) :
  contains fence_close (strip_fences t) = false
  /\ contains fence_open (strip_fences t) = false.
Proof.
  assert (H : contains fence_close (strip_fences t) = false).
  { unfold strip_fences, drop_fences.
    apply (no_close_left (length (replace fence_open [] (strip t)))). lia. }
  split; [exact H|].
  change fence_open with (fence_close ++ py "json").
  apply contains_split, H.
Qed.

(** *** White space around the answer *)

Lemma lstrip_spaces (w s : str) :
  forallb isspace w = true -> lstrip (w ++ s) = lstrip s.
Proof.
  induction w as [|c w IH]; intros H; [reflexivity|].
  simpl in H. apply andb_true_iff in H as [Hc Hw].
  simpl. rewrite Hc. apply IH, Hw.
Qed.

Lemma lstrip_all (w : str) : forallb isspace w = true -> lstrip w = [].
Proof.
  intros H. rewrite <- (app_nil_r w). rewrite lstrip_spaces by exact H.
  reflexivity.
Qed.

Lemma lstrip_head (s : str) (c : char) (r : str) :
  lstrip s = c :: r -> isspace c = false.
Proof.
  induction s as [|x s IH]; [discriminate|]. simpl.
  destruct (isspace x) eqn:E; [exact IH|]. intros [= <- _]. exact E.
Qed.

Lemma rstrip_spaces (s w : str) :
  forallb isspace w = true -> rstrip (s ++ w) = rstrip s.
Proof.
  intros H. unfold rstrip. rewrite rev_app_distr, lstrip_spaces; [reflexivity|].
  rewrite forallb_forall in *. intros x Hx. apply H, in_rev. exact Hx.
Qed.

Lemma strip_spaces_around (w1 t w2 : str) :
  forallb isspace w1 = true -> forallb isspace w2 = true ->
  strip (w1 ++ t ++ w2) = strip t.
Proof.
  intros H1 H2. unfold strip. rewrite lstrip_spaces by exact H1.
  destruct (lstrip_split t) as (u & E & Hu).
  destruct (lstrip t) as [|c r] eqn:L.
  - rewrite app_nil_r in E. subst u.
    rewrite lstrip_all; [reflexivity|].
    rewrite forallb_app, Hu, H2. reflexivity.
  - rewrite E, <- app_assoc, lstrip_spaces by exact Hu.
    pose proof (lstrip_head _ _ _ L) as Hc.
    change ((c :: r) ++ w2) with (c :: (r ++ w2)).
    rewrite lstrip_id by exact Hc.
    change (c :: (r ++ w2)) with ((c :: r) ++ w2).
    apply rstrip_spaces, H2.
Qed.

(** X21.  White space around the answer is taken off before the markers
    are looked for, and this is all the white space [strip] knows: an
    answer is read as the answer without it, also where the white space
    is one [json.loads] would refuse, such as a form feed or a no-break
    space. *)
Theorem outer_spaces_ignored (w1 t w2 : str) :
  forallb isspace w1 = true -> forallb isspace w2 = true ->
  json_loads (strip_fences (w1 ++ t ++ w2)) = json_loads (strip_fences t).
Proof.
  intros H1 H2. unfold strip_fences.
  rewrite (strip_spaces_around w1 t w2 H1 H2). reflexivity.
Qed.

(** An answer after a form feed and before a no-break space. *)
Lemma outer_spaces_ignored_witness :
  let t := js "{'summary': 'Scam'}" in
  parsed (json_loads ([12%N] ++ t ++ [0xA0%N])) = None
  /\ json_loads (strip_fences ([12%N] ++ t ++ [0xA0%N]))
     = Return (JDict [(py "summary", JStr (py "Scam"))]).
Proof.
  intros t. split; [reflexivity|].
  exact (eq_trans (outer_spaces_ignored [12%N] t [0xA0%N] eq_refl eq_refl)
           eq_refl).
Defined.

(** *** Markers without the name, or with another one *)

(** The first character of a JSON text begins a value or is white space
    of JSON. *)
Lemma loads_bad_start (c : char) (s : str) :
  starts_value c = false -> Decoder.is_ws c = false ->
  exists msg, json_loads (c :: s) = Raise (JSONDecodeError msg).
Proof.
  intros Hc Hw. unfold json_loads, Decoder.decode.
  destruct (startswith [0xFEFF%N] (c :: s)); [eexists; reflexivity|].
  change (Decoder.run Decoder.init (c :: s))
    with (Decoder.run (Decoder.step Decoder.init c) s).
  unfold Decoder.init at 1. cbn [Decoder.step]. rewrite Hw.
  unfold starts_value in Hc.
  destruct (Decoder.begin_value c []) as [m st].
  destruct m; try discriminate Hc.
  rewrite DecoderFacts.run_fail. eexists; reflexivity.
Qed.

Lemma not_space_not_ws (c : char) :
  isspace c = false -> Decoder.is_ws c = false.
Proof.
  intros H. destruct (Decoder.is_ws c) eqn:E; [|reflexivity].
  pose proof (is_ws_isspace [c]) as W. simpl in W. rewrite E, H in W.
  symmetry. apply W. reflexivity.
Qed.

(** [rstrip] keeps what comes before a character that is no white
    space. *)
Lemma lstrip_keeps (a b : str) (c : char) :
  isspace c = false -> exists a', lstrip (a ++ c :: b) = a' ++ c :: b.
Proof.
  intros Hc. induction a as [|x a [a' IH]].
  - exists []. simpl. rewrite Hc. reflexivity.
  - simpl. destruct (isspace x).
    + exists a'. exact IH.
    + exists (x :: a). reflexivity.
Qed.

Lemma rstrip_keeps (p s : str) (c : char) :
  isspace c = false -> exists r, rstrip (p ++ c :: s) = p ++ c :: r.
Proof.
  intros Hc. unfold rstrip.
  rewrite rev_app_distr. cbn [rev]. rewrite <- app_assoc. cbn [app].
  destruct (lstrip_keeps (rev s) (rev p) c Hc) as [a' ->].
  exists (rev a'). rewrite rev_app_distr. cbn [rev].
  rewrite rev_involutive, <- app_assoc. reflexivity.
Qed.

(** The closing marker at the beginning of a text that does not begin
    with the opening one is left by the first replacement. *)
Lemma replace_open_bare (c : char) (s : str) :
  c <> backtick ->
  startswith fence_open (fence_close ++ c :: s) = false ->
  replace fence_open [] (fence_close ++ c :: s)
  = fence_close ++ c :: replace fence_open [] s.
Proof.
  intros Hc H.
  assert (Hb : N.eqb backtick c = false) by (apply N.eqb_neq; congruence).
  change (fence_close ++ c :: s)
    with (backtick :: backtick :: backtick :: c :: s) in *.
  rewrite (replace_open_first _ _ H).
  rewrite replace_open_first
    by (change fence_open with (backtick :: backtick :: backtick :: py "json");
        cbn [startswith]; rewrite Hb, !andb_false_r; reflexivity).
  rewrite replace_open_first
    by (change fence_open with (backtick :: backtick :: backtick :: py "json");
        cbn [startswith]; rewrite Hb, !andb_false_r; reflexivity).
  rewrite replace_open_first
    by (change fence_open with (backtick :: backtick :: backtick :: py "json");
        cbn [startswith]; rewrite Hb; reflexivity).
  reflexivity.
Qed.

(** An answer that begins, after its white space and the marker if there
    is one, with a character no JSON value begins with. *)
Lemma loads_after_marker (p t : str) (c : char) (rest : str) :
  p = [] \/ p = fence_close ->
  lstrip t = p ++ c :: rest ->
  startswith fence_open (lstrip t) = false ->
  isspace c = false -> c <> backtick -> starts_value c = false ->
  exists msg, json_loads (strip_fences t) = Raise (JSONDecodeError msg).
Proof.
  intros Hp Ht Ho Hs Hc Hv.
  assert (Hb : N.eqb backtick c = false) by (apply N.eqb_neq; congruence).
  destruct (rstrip_keeps p rest c Hs) as [r Hr].
  assert (S : strip t = p ++ c :: r).
  { unfold strip. rewrite Ht. exact Hr. }
  assert (Hor : startswith fence_open (p ++ c :: r) = false).
  { rewrite Ht in Ho. destruct Hp as [-> | ->].
    - cbn [app] in *.
      change fence_open with (backtick :: backtick :: backtick :: py "json").
      cbn [startswith]. rewrite Hb. reflexivity.
    - change (fence_close ++ c :: r)
        with (backtick :: backtick :: backtick :: c :: r).
      change (fence_close ++ c :: rest)
        with (backtick :: backtick :: backtick :: c :: rest) in Ho.
      change fence_open
        with (backtick :: backtick :: backtick :: 106%N :: py "son") in *.
      cbn [startswith] in *. rewrite !N.eqb_refl in *. cbn [andb] in *.
      destruct (N.eqb 106 c); [|reflexivity]. cbn [andb] in *.
      destruct (startswith (py "son") r) eqn:E; [|reflexivity].
      unfold rstrip in Hr.
      assert (P : exists w, rest = r ++ w).
      { destruct (lstrip_split (rev (backtick :: backtick :: backtick
                                      :: c :: rest))) as (w & Ew & _).
        change (backtick :: backtick :: backtick :: c :: rest)
          with (fence_close ++ c :: rest) in Ew.
        fold (rstrip (fence_close ++ c :: rest)) in Hr.
        assert (R : fence_close ++ c :: rest
                    = (fence_close ++ c :: r) ++ rev w).
        { rewrite <- Hr. unfold rstrip.
          rewrite <- rev_app_distr, <- Ew, rev_involutive. reflexivity. }
        exists (rev w). cbv [fence_close py] in R. simpl in R.
        injection R as R. exact R. }
      destruct P as [w ->].
      rewrite (startswith_more _ _ w E) in Ho. exact Ho. }
  unfold strip_fences, drop_fences. rewrite S.
  destruct Hp as [-> | ->].
  - cbn [app] in *. rewrite (replace_open_first c r Hor).
    rewrite replace_close_first
      by (change fence_close with [backtick; backtick; backtick];
          cbn [startswith]; rewrite Hb; reflexivity).
    apply loads_bad_start; [exact Hv | apply not_space_not_ws, Hs].
  - rewrite (replace_open_bare c r Hc Hor).
    rewrite (replace_occurrence _ _ fence_close_nonempty). cbn [app].
    rewrite replace_close_first
      by (change fence_close with [backtick; backtick; backtick];
          cbn [startswith]; rewrite Hb; reflexivity).
    apply loads_bad_start; [exact Hv | apply not_space_not_ws, Hs].
Qed.

(** X22.  An answer that begins, after its white space, with a character
    no JSON value begins with (a letter of a sentence, say) gives the
    failure record: nothing before the JSON text is skipped but white
    space and the markers. *)
Theorem prose_rejected (w : world) (text_prompt : str)
    (image : option image) (t : str) (c : char) (rest : str) :
  answer w text_prompt image = inr t ->
  lstrip t = c :: rest -> c <> backtick -> starts_value c = false ->
  exists msg,
    get_ai_analysis w text_prompt image
    = ([GenerateContent (request_content (prompt_template text_prompt) image)],
       Return (error_record (JSONDecodeError msg))).
Proof.
  intros Ha Ht Hc Hv.
  assert (Hs : isspace c = false) by apply (lstrip_head _ _ _ Ht).
  assert (Ho : startswith fence_open (lstrip t) = false).
  { rewrite Ht.
    change fence_open with (backtick :: backtick :: backtick :: py "json").
    cbn [startswith].
    assert (Hb : N.eqb backtick c = false) by (apply N.eqb_neq; congruence).
    rewrite Hb. reflexivity. }
  destruct (loads_after_marker [] t c rest (or_introl eq_refl) Ht Ho Hs Hc Hv)
    as [msg Hm].
  exists msg. apply (analysis_parse_fails w text_prompt image t); assumption.
Qed.

(** An answer with a sentence before the object. *)
Lemma prose_rejected_witness :
  exists msg,
    get_ai_analysis
      (answering (js "Here is the analysis: {'summary': 'Scam'}"))
      (py "You won a prize") None
    = ([GenerateContent
          (request_content (prompt_template (py "You won a prize")) None)],
       Return (error_record (JSONDecodeError msg))).
Proof.
  apply (prose_rejected _ _ _
           (js "Here is the analysis: {'summary': 'Scam'}") 72%N
           (js "ere is the analysis: {'summary': 'Scam'}"));
    [reflexivity | reflexivity | discriminate | reflexivity].
Defined.

(** X23.  Only the name [json], in small letters, is taken off with the
    marker.  An answer that begins with the marker and another name (a
    character other than white space that no JSON value begins with, as
    in [```JSON] or [```js]) gives the failure record. *)
Theorem other_tag_rejected (w : world) (text_prompt : str)
    (image : option image) (t : str) (c : char) (rest : str) :
  answer w text_prompt image = inr t ->
  lstrip t = fence_close ++ c :: rest ->
  startswith fence_open (lstrip t) = false ->
  isspace c = false -> c <> backtick -> starts_value c = false ->
  exists msg,
    get_ai_analysis w text_prompt image
    = ([GenerateContent (request_content (prompt_template text_prompt) image)],
       Return (error_record (JSONDecodeError msg))).
Proof.
  intros Ha Ht Ho Hs Hc Hv.
  destruct (loads_after_marker fence_close t c rest (or_intror eq_refl)
              Ht Ho Hs Hc Hv) as [msg Hm].
  exists msg. apply (analysis_parse_fails w text_prompt image t); assumption.
Qed.

(** The name in capitals, and the name [js]. *)
Lemma other_tag_rejected_witness :
  (exists msg,
     get_ai_analysis
       (answering (py "```JSON" ++ nl ++ js "{'summary': 'Scam'}" ++ nl
                   ++ fence_close))
       (py "You won a prize") None
     = ([GenerateContent
           (request_content (prompt_template (py "You won a prize")) None)],
        Return (error_record (JSONDecodeError msg))))
  /\ (exists msg,
        get_ai_analysis
          (answering (py "```js" ++ nl ++ js "{'summary': 'Scam'}" ++ nl
                      ++ fence_close))
          (py "You won a prize") None
        = ([GenerateContent
              (request_content (prompt_template (py "You won a prize")) None)],
           Return (error_record (JSONDecodeError msg)))).
Proof.
  split.
  - apply (other_tag_rejected _ _ _
             (py "```JSON" ++ nl ++ js "{'summary': 'Scam'}" ++ nl
              ++ fence_close) 74%N
             (py "SON" ++ nl ++ js "{'summary': 'Scam'}" ++ nl
              ++ fence_close));
      [reflexivity | reflexivity | reflexivity | reflexivity | discriminate
      | reflexivity].
  - apply (other_tag_rejected _ _ _
             (py "```js" ++ nl ++ js "{'summary': 'Scam'}" ++ nl
              ++ fence_close) 106%N
             (py "s" ++ nl ++ js "{'summary': 'Scam'}" ++ nl
              ++ fence_close));
      [reflexivity | reflexivity | reflexivity | reflexivity | discriminate
      | reflexivity].
Defined.

(** *** Markers without a name *)

Lemma strip_bare_fenced (w1 w2 t : str) :
  strip (bare_fenced w1 w2 t) = bare_fenced w1 w2 t.
Proof.
  unfold strip, bare_fenced.
  change (fence_close ++ w1 ++ t ++ w2 ++ fence_close)
    with (backtick :: (py "``" ++ w1 ++ t ++ w2 ++ fence_close)).
  rewrite lstrip_id by reflexivity.
  change (backtick :: (py "``" ++ w1 ++ t ++ w2 ++ fence_close))
    with (fence_close ++ w1 ++ t ++ w2 ++ (py "``" ++ [backtick])).
  rewrite !app_assoc. apply rstrip_id; reflexivity.
Qed.

Lemma loads_first (x : char) (s : str) (v : json) :
  json_loads (x :: s) = Return v -> x <> backtick /\ x <> 106%N.
Proof.
  intros Hv. split; intros ->.
  - destruct (loads_bad_start backtick s eq_refl eq_refl) as [msg Hm].
    rewrite Hm in Hv; discriminate Hv.
  - destruct (loads_bad_start 106%N s eq_refl eq_refl) as [msg Hm].
    rewrite Hm in Hv; discriminate Hv.
Qed.

(** What [strip_fences] leaves of a JSON text between two bare markers:
    what it leaves of the text, with white space of JSON around it. *)
Lemma strip_fences_bare (t : str) (v : json) :
  json_loads t = Return v ->
  exists a b,
    forallb Decoder.is_ws a = true /\ forallb Decoder.is_ws b = true
    /\ strip_fences (bare_fenced [] [] t) = a ++ strip_fences t ++ b.
Proof.
  intros Hv.
  destruct (strip_split t) as (u1 & u2 & E & S1 & S2).
  assert (J : forallb Decoder.is_ws u1 = true
              /\ forallb Decoder.is_ws u2 = true).
  { rewrite E in Hv. exact (loads_strip_spaces _ _ _ _ S1 S2 Hv). }
  destruct J as [J1 J2].
  destruct (loads_last t v Hv) as (core & c & Hc & Ho).
  assert (Hcl : ~ In c fence_close).
  { intros Hin; apply Ho. cbv in Hin |- *. intuition auto. }
  exists u1, u2. split; [exact J1|]. split; [exact J2|].
  destruct (spaces_not_in_fence _ S1) as [O1 C1].
  destruct (spaces_not_in_fence _ S2) as [O2 C2].
  assert (D : strip_fences t = drop_fences core ++ [c]).
  { unfold strip_fences. rewrite Hc. unfold drop_fences.
    rewrite (replace_suffix _ _ fence_open_nonempty)
      by (intros x [<-|[]]; exact Ho).
    rewrite (replace_suffix _ _ fence_close_nonempty)
      by (intros x [<-|[]]; exact Hcl).
    reflexivity. }
  assert (R : replace fence_open [] (t ++ fence_close)
              = u1 ++ replace fence_open [] core ++ c :: u2 ++ fence_close).
  { rewrite E at 1. rewrite Hc.
    replace ((u1 ++ (core ++ [c]) ++ u2) ++ fence_close)
      with (u1 ++ core ++ c :: u2 ++ fence_close)
      by (rewrite <- !app_assoc; reflexivity).
    rewrite (replace_prefix _ _ fence_open_nonempty) by exact O1.
    rewrite (replace_around _ _ fence_open_nonempty) by exact Ho.
    rewrite (replace_prefix _ _ fence_open_nonempty) by exact O2.
    reflexivity. }
  rewrite D, strip_fences_unfold, strip_bare_fenced.
  unfold bare_fenced. cbn [app].
  destruct t as [|x t']; [discriminate Hv|].
  destruct (loads_first x t' v Hv) as [Hx Hj].
  assert (Hb : N.eqb backtick x = false) by (apply N.eqb_neq; congruence).
  assert (Hjb : N.eqb 106 x = false) by (apply N.eqb_neq; congruence).
  unfold drop_fences.
  change ((x :: t') ++ fence_close) with (x :: (t' ++ fence_close)).
  rewrite (replace_open_bare x (t' ++ fence_close) Hx).
  - rewrite (replace_occurrence _ _ fence_close_nonempty). cbn [app].
    change ((x :: t') ++ fence_close) with (x :: (t' ++ fence_close)) in R.
    rewrite replace_open_first in R
      by (change fence_open
            with (backtick :: backtick :: backtick :: py "json");
          cbn [startswith]; rewrite Hb; reflexivity).
    rewrite R.
    rewrite (replace_prefix _ _ fence_close_nonempty) by exact C1.
    rewrite (replace_around _ _ fence_close_nonempty) by exact Hcl.
    rewrite (replace_prefix _ _ fence_close_nonempty) by exact C2.
    change (replace fence_close [] fence_close) with (@nil N).
    rewrite <- !app_assoc. rewrite app_nil_r. reflexivity.
  - change (fence_close ++ x :: t' ++ fence_close)
      with (backtick :: backtick :: backtick :: x :: (t' ++ fence_close)).
    change fence_open
      with (backtick :: backtick :: backtick :: 106%N :: py "son").
    cbn [startswith]. rewrite !N.eqb_refl, Hjb. reflexivity.
Qed.

(** X24.  The markers without a name do as well as those with the name
    [json]: a JSON text between two [```], with white space of JSON or
    nothing between the markers and the text, is read as the same value
    as the text alone, the value [json.loads] reads the text as when the
    text holds no [```]. *)
Theorem bare_fence_parses (t w1 w2 : str) (v : json) :
  json_loads t = Return v ->
  forallb Decoder.is_ws w1 = true -> forallb Decoder.is_ws w2 = true ->
  exists v',
    json_loads (strip_fences (bare_fenced w1 w2 t)) = Return v'
    /\ json_loads (strip_fences t) = Return v'
    /\ (contains fence_close t = false -> v' = v).
Proof.
  intros Hv H1 H2.
  assert (HT : json_loads (w1 ++ t ++ w2) = Return v).
  { apply parsed_return. rewrite (loads_spaces w1 t w2 H1 H2), Hv.
    reflexivity. }
  assert (ST : strip_fences (w1 ++ t ++ w2) = strip_fences t).
  { unfold strip_fences.
    rewrite (strip_spaces_around w1 t w2 (is_ws_isspace _ H1)
               (is_ws_isspace _ H2)). reflexivity. }
  destruct (loads_strip_fences t v Hv) as [v' Hv'].
  destruct (strip_fences_bare (w1 ++ t ++ w2) v HT) as (a & b & Ha & Hb & E).
  exists v'. split; [|split].
  - apply parsed_return.
    replace (bare_fenced w1 w2 t) with (bare_fenced [] [] (w1 ++ t ++ w2))
      by (unfold bare_fenced; cbn [app]; rewrite <- !app_assoc; reflexivity).
    rewrite E, (loads_spaces a _ b Ha Hb), ST, Hv'. reflexivity.
  - exact Hv'.
  - intros Hc. rewrite (loads_plain t v Hv Hc) in Hv'.
    injection Hv' as <-; reflexivity.
Qed.

(** A text between two bare markers on lines of their own, with a marker
    inside a string. *)
Lemma bare_fence_parses_witness :
  let t := js "{'summary': 'Scam', 'red_flags': ['``` in a flag']}" in
  let v' := JDict [(py "summary", JStr (py "Scam"));
                   (py "red_flags", JList [JStr (py " in a flag")])] in
  json_loads (strip_fences (bare_fenced nl nl t)) = Return v'
  /\ json_loads (strip_fences t) = Return v'
  /\ json_loads (strip_fences (bare_fenced [] [] (js "{'a': 1}")))
     = Return (JDict [(py "a", JInt 1)]).
Proof.
  intros t v'.
  destruct (bare_fence_parses t nl nl
              (JDict [(py "summary", JStr (py "Scam"));
                      (py "red_flags", JList [JStr (py "``` in a flag")])])
              eq_refl eq_refl eq_refl) as (x & E1 & E2 & _).
  assert (Hx : Return x = Return v').
  { rewrite <- E2. vm_compute. reflexivity. }
  injection Hx as ->.
  split; [exact E1|]. split; [exact E2|].
  destruct (bare_fence_parses (js "{'a': 1}") [] []
              (JDict [(py "a", JInt 1)]) eq_refl eq_refl eq_refl)
    as (y & E & _ & Hy).
  rewrite (Hy eq_refl) in E. exact E.
Defined.

(** ** Answers cut short, and answers with more after them *)

(** After a value at the top, anything but white space is refused. *)
Lemma run_done (q : str) (v : json) (st : list Decoder.frame) :
  forallb Decoder.is_ws q = false ->
  exists msg st', Decoder.run (Decoder.MDone v, st) q = (Decoder.MFail msg, st').
Proof.
  induction q as [|c q IH]; intros H; [discriminate H|].
  change (Decoder.run (Decoder.MDone v, st) (c :: q))
    with (Decoder.run (Decoder.step (Decoder.MDone v, st) c) q).
  cbn [Decoder.step Decoder.after_value]. cbn [forallb] in H.
  destruct (Decoder.is_ws c); [apply IH, H|].
  rewrite DecoderFacts.run_fail. eauto.
Qed.

Lemma num_value_scalar (n : Decoder.nstate) (v : json) :
  Decoder.num_value n = Some v ->
  match v with JDict _ => False | _ => True end.
Proof. destruct n; simpl; intros [= <-]; exact I. Qed.

Lemma num_step_scalar (n : Decoder.nstate) (c : char) (m : Decoder.mode) :
  Decoder.num_step n c = Some m -> scalar (m, []) = true.
Proof.
  destruct n; unfold Decoder.num_step;
    repeat match goal with
      | |- context [match Decoder.digit ?c with _ => _ end] =>
          destruct (Decoder.digit c) as [[|?]|]
      | |- context [if ?b then _ else _] => destruct b
      end;
    intros [= <-]; reflexivity.
Qed.

Lemma scalar_step (s : Decoder.state) (c : char) :
  scalar s = true -> scalar (Decoder.step s c) = true.
Proof.
  destruct s as [m st].
  destruct m as [| | | | | | | | n | l k | v | msg]; try discriminate.
  - destruct st; [|discriminate]. intros _. cbn [Decoder.step].
    destruct (Decoder.num_step n c) as [m'|] eqn:E;
      [exact (num_step_scalar n c m' E)|].
    destruct (Decoder.num_value n) as [v|] eqn:V; [|reflexivity].
    pose proof (num_value_scalar n v V) as Hv.
    cbn [Decoder.complete Decoder.after_value].
    destruct (Decoder.is_ws c); [|reflexivity].
    destruct v; try contradiction; reflexivity.
  - destruct st; [|discriminate]. intros _. cbn [Decoder.step].
    destruct (nth_error (Decoder.lit_text l) k) as [x|]; [|reflexivity].
    destruct (N.eqb c x); [|reflexivity].
    destruct (Nat.eqb (S k) (length (Decoder.lit_text l))); [|reflexivity].
    destruct l; reflexivity.
  - intros H. cbn [Decoder.step Decoder.after_value].
    destruct (Decoder.is_ws c); [exact H | reflexivity].
  - intros _. reflexivity.
Qed.

Lemma scalar_run (t : str) (s : Decoder.state) :
  scalar s = true -> scalar (Decoder.run s t) = true.
Proof.
  revert s; induction t as [|c t IH]; intros s H; [exact H|].
  apply (IH (Decoder.step s c)), scalar_step, H.
Qed.

Lemma scalar_finish (s : Decoder.state) (d : dict) :
  scalar s = true -> Decoder.finish s <> inr (JDict d).
Proof.
  destruct s as [m st].
  destruct m as [| | | | | | | | n | l k | v | msg]; try discriminate.
  - destruct st; [|discriminate]. intros _. simpl.
    destruct n; simpl; discriminate.
  - destruct v; discriminate.
Qed.

(** A text that is read as an object is read to the end of the object
    and no further: what is cut before the end is no JSON text, and
    neither is the text with more than white space after it. *)
Lemma object_cut (p q : str) (d : dict) :
  Decoder.finish (Decoder.run Decoder.init (p ++ q)) = inr (JDict d) ->
  forallb Decoder.is_ws q = false ->
  Decoder.value_of (Decoder.finish (Decoder.run Decoder.init p)) = None.
Proof.
  intros H Hq. rewrite DecoderFacts.run_app in H.
  destruct (Decoder.run Decoder.init p) as [m st].
  destruct m as [| | | | | | | | n | l k | v | msg]; try reflexivity.
  - destruct st as [|f st]; [|destruct n; reflexivity].
    exfalso.
    apply (scalar_finish _ d
             (scalar_run q (Decoder.MNumber n, []) eq_refl)).
    exact H.
  - destruct (run_done q v st Hq) as (msg & st' & E).
    rewrite E in H. discriminate H.
Qed.

Lemma object_end (t : str) (d : dict) :
  Decoder.finish (Decoder.run Decoder.init t) = inr (JDict d) ->
  exists st, Decoder.run Decoder.init t = (Decoder.MDone (JDict d), st).
Proof.
  intros H. destruct (Decoder.run Decoder.init t) as [m st].
  destruct m as [| | | | | | | | n | l k | v | msg]; try discriminate H.
  - exfalso. destruct n; simpl in H; try discriminate H;
      destruct st; discriminate H.
  - simpl in H. injection H as ->. exists st. reflexivity.
Qed.

Lemma loads_none (x : str) :
  Decoder.value_of (Decoder.finish (Decoder.run Decoder.init x)) = None ->
  exists msg, json_loads x = Raise (JSONDecodeError msg).
Proof.
  intros H. rewrite <- DecoderFacts.decode_value, <- parsed_loads in H.
  destruct (json_loads_cases x) as [[v Hv]|[msg Hm]].
  - rewrite Hv in H. discriminate H.
  - exists msg. exact Hm.
Qed.

Lemma loads_cut (x y : str) (d : dict) :
  json_loads (x ++ y) = Return (JDict d) ->
  forallb Decoder.is_ws y = false ->
  exists msg, json_loads x = Raise (JSONDecodeError msg).
Proof.
  intros H Hy. apply loads_none.
  apply (object_cut x y d); [apply loads_finish, H | exact Hy].
Qed.

Lemma loads_more (t note : str) (d : dict) :
  json_loads t = Return (JDict d) ->
  forallb Decoder.is_ws note = false ->
  exists msg, json_loads (t ++ note) = Raise (JSONDecodeError msg).
Proof.
  intros H Hn. apply loads_none. rewrite DecoderFacts.run_app.
  destruct (object_end t d (loads_finish t _ H)) as [st ->].
  destruct (run_done note (JDict d) st Hn) as (msg & st' & ->).
  reflexivity.
Qed.

(** *** Texts without a backquote *)

Lemma no_backtick_in (s : str) :
  contains [backtick] s = false <-> ~ In backtick s.
Proof.
  induction s as [|x s IH]; [split; [intros _ [] | reflexivity]|].
  cbn [contains startswith]. rewrite andb_true_r, orb_false_iff, IH.
  rewrite N.eqb_neq. simpl. intuition congruence.
Qed.

Lemma no_backtick_app (a b : str) :
  contains [backtick] a = false -> contains [backtick] b = false ->
  contains [backtick] (a ++ b) = false.
Proof.
  rewrite !no_backtick_in, in_app_iff. tauto.
Qed.

Lemma no_backtick_part (a s b : str) :
  contains [backtick] (a ++ s ++ b) = false -> contains [backtick] s = false.
Proof. apply contains_inside. Qed.

Lemma no_backtick_spaces (w : str) :
  forallb isspace w = true -> contains [backtick] w = false.
Proof.
  intros H. apply no_backtick_in. intros Hin.
  rewrite forallb_forall in H. specialize (H _ Hin). discriminate H.
Qed.

Lemma no_backtick_marker (s : str) :
  contains [backtick] s = false -> contains fence_close s = false.
Proof.
  change fence_close with ([backtick] ++ [backtick; backtick]).
  apply contains_split.
Qed.

Lemma drop_plain (s : str) :
  contains [backtick] s = false -> drop_fences s = s.
Proof. intros H. apply no_fence_drop, no_backtick_marker, H. Qed.

Section Past.

Variable rest : str.

Lemma replace_past (a s : str) :
  contains [backtick] a = false ->
  replace (backtick :: rest) [] (a ++ s)
  = a ++ replace (backtick :: rest) [] s.
Proof.
  induction a as [|x a IH]; intros H; [reflexivity|].
  cbn [contains startswith] in H. rewrite andb_true_r in H.
  apply orb_false_iff in H as [Hx Ha].
  cbn [app]. unfold replace at 1. cbn [replace_from startswith].
  rewrite Hx. cbn [andb]. fold (replace (backtick :: rest) [] (a ++ s)).
  rewrite (IH Ha). reflexivity.
Qed.

End Past.

(** *** What [strip] leaves at the end *)

Lemma lstrip_app_keep (u v : str) (c : char) :
  isspace c = false -> lstrip (u ++ c :: v) = lstrip u ++ c :: v.
Proof.
  intros Hc. induction u as [|x u IH]; simpl.
  - rewrite Hc. reflexivity.
  - destruct (isspace x); [exact IH | reflexivity].
Qed.

Lemma rstrip_after (a s : str) (c : char) :
  isspace c = false -> rstrip (a ++ c :: s) = a ++ c :: rstrip s.
Proof.
  intros Hc. unfold rstrip. rewrite rev_app_distr. cbn [rev].
  rewrite <- app_assoc. cbn [app].
  rewrite (lstrip_app_keep _ _ _ Hc), rev_app_distr. cbn [rev].
  rewrite rev_involutive, <- app_assoc. reflexivity.
Qed.

Lemma first_solid (s : str) :
  forallb isspace s = false ->
  exists w c r, s = w ++ c :: r /\ forallb isspace w = true
                /\ isspace c = false.
Proof.
  induction s as [|x s IH]; [discriminate|]. cbn [forallb].
  destruct (isspace x) eqn:E.
  - intros H. destruct (IH H) as (w & c & r & -> & Hw & Hc).
    exists (x :: w), c, r. cbn [forallb]. rewrite E, Hw. auto.
  - intros _. exists [], x, s. auto.
Qed.

Lemma rstrip_app (l s : str) :
  forallb isspace s = false -> rstrip (l ++ s) = l ++ rstrip s.
Proof.
  intros H. destruct (first_solid s H) as (w & c & r & -> & Hw & Hc).
  rewrite (rstrip_after w r c Hc).
  rewrite app_assoc, (rstrip_after (l ++ w) r c Hc), <- app_assoc.
  reflexivity.
Qed.

Lemma rstrip_solid (s : str) :
  forallb isspace s = false -> forallb Decoder.is_ws (rstrip s) = false.
Proof.
  intros H. destruct (first_solid s H) as (w & c & r & -> & Hw & Hc).
  rewrite (rstrip_after w r c Hc), forallb_app. cbn [forallb].
  rewrite (not_space_not_ws c Hc), andb_false_r. reflexivity.
Qed.

Lemma rstrip_part (s : str) :
  exists w, s = rstrip s ++ w /\ forallb isspace w = true.
Proof.
  destruct (lstrip_split (rev s)) as (w & E & Hw).
  exists (rev w). split.
  - unfold rstrip. rewrite <- rev_app_distr, <- E, rev_involutive.
    reflexivity.
  - rewrite forallb_forall in *. intros x Hx. apply Hw, in_rev. exact Hx.
Qed.

Lemma not_ws_app (a b : str) :
  forallb Decoder.is_ws b = false -> forallb Decoder.is_ws (a ++ b) = false.
Proof. intros H. rewrite forallb_app, H. apply andb_false_r. Qed.

(** *** Answers cut short *)

Lemma strip_fences_cut (p : str) :
  contains [backtick] p = false ->
  strip_fences p = strip p
  /\ strip_fences (fence_open ++ p) = rstrip p.
Proof.
  intros Hb. destruct (rstrip_part p) as (w & Ep & Hw).
  assert (Hr : contains [backtick] (rstrip p) = false).
  { rewrite Ep in Hb. apply (no_backtick_part [] _ w). exact Hb. }
  split.
  - unfold strip_fences. apply drop_plain.
    destruct (strip_split p) as (u1 & u2 & E & _ & _).
    rewrite E in Hb. apply (no_backtick_part u1 _ u2). exact Hb.
  - unfold strip_fences, strip.
    change (fence_open ++ p) with (backtick :: (py "``json" ++ p)).
    rewrite lstrip_id by reflexivity.
    change (backtick :: (py "``json" ++ p))
      with (py "```jso" ++ 110%N :: p).
    rewrite rstrip_after by reflexivity.
    change (py "```jso" ++ 110%N :: rstrip p) with (fence_open ++ rstrip p).
    unfold drop_fences.
    rewrite (replace_occurrence _ _ fence_open_nonempty). cbn [app].
    apply drop_plain, Hr.
Qed.

Lemma cut_rejected (p q : str) (d : dict) :
  json_loads (p ++ q) = Return (JDict d) ->
  forallb Decoder.is_ws q = false ->
  contains [backtick] p = false ->
  (exists msg, json_loads (strip_fences p) = Raise (JSONDecodeError msg))
  /\ (exists msg, json_loads (strip_fences (fence_open ++ p))
                  = Raise (JSONDecodeError msg)).
Proof.
  intros H Hq Hb. destruct (strip_fences_cut p Hb) as [-> ->]. split.
  - destruct (strip_split p) as (u1 & u2 & E & S1 & S2).
    rewrite E in H. rewrite <- !app_assoc in H.
    assert (J : forallb Decoder.is_ws u1 = true).
    { exact (DecoderFacts.leading_spaces _ _ _ S1 (loads_finish _ _ H)). }
    apply loads_none.
    apply (object_cut (strip p) (u2 ++ q) d); [|apply not_ws_app, Hq].
    rewrite <- (DecoderFacts.run_init_ws u1 _ J).
    apply loads_finish, H.
  - destruct (rstrip_part p) as (w & Ep & Hw).
    rewrite Ep, <- app_assoc in H.
    apply (loads_cut (rstrip p) (w ++ q) d H), not_ws_app, Hq.
Qed.

(** X25.  An answer that is cut short gives the failure record.  When
    the whole answer would have been an object, alone or after the
    opening marker, and the model stops before the end of it (what is
    missing holds more than white space), the part that came, which
    holds no backquote, is no JSON text; no part of an object is ever
    shown as a report. *)
Theorem truncated_answer_rejected (w : world) (text_prompt : str)
    (image : option image) (p q : str) (d : dict) :
  answer w text_prompt image = inr p
  \/ answer w text_prompt image = inr (fence_open ++ p) ->
  json_loads (p ++ q) = Return (JDict d) ->
  forallb Decoder.is_ws q = false ->
  contains [backtick] p = false ->
  exists msg,
    get_ai_analysis w text_prompt image
    = ([GenerateContent (request_content (prompt_template text_prompt) image)],
       Return (error_record (JSONDecodeError msg))).
Proof.
  intros Ha H Hq Hb.
  destruct (cut_rejected p q d H Hq Hb) as [[m1 H1] [m2 H2]].
  destruct Ha as [Ha|Ha].
  - exists m1. apply (analysis_parse_fails w text_prompt image p); assumption.
  - exists m2.
    apply (analysis_parse_fails w text_prompt image (fence_open ++ p));
      assumption.
Qed.

(** An answer that stops after the second key. *)
Lemma truncated_answer_rejected_witness :
  exists msg,
    get_ai_analysis
      (answering (fence_open ++ nl ++ js "{'credibility_score': 2, 'summary':"))
      (py "You won a prize") None
    = ([GenerateContent
          (request_content (prompt_template (py "You won a prize")) None)],
       Return (error_record (JSONDecodeError msg))).
Proof.
  apply (truncated_answer_rejected _ _ _
           (nl ++ js "{'credibility_score': 2, 'summary':")
           (js " 'Scam'}")
           [(py "credibility_score", JInt 2); (py "summary", JStr (py "Scam"))]);
    [right; reflexivity | reflexivity | reflexivity | reflexivity].
Defined.

(** *** Answers with more after them *)

Lemma loads_lstrip (t : str) (v : json) :
  json_loads t = Return v ->
  json_loads (lstrip t) = Return v /\ lstrip t <> [].
Proof.
  intros H. destruct (lstrip_split t) as (u & E & Hu).
  assert (J : forallb Decoder.is_ws u = true).
  { rewrite E in H.
    exact (DecoderFacts.leading_spaces _ _ _ Hu (loads_finish _ _ H)). }
  assert (L : json_loads (lstrip t) = Return v).
  { apply parsed_return.
    rewrite <- (loads_spaces u (lstrip t) [] J eq_refl), app_nil_r, <- E, H.
    reflexivity. }
  split; [exact L|]. intros N. rewrite N in L. discriminate L.
Qed.

(** X26.  An answer with a remark after the object gives the failure
    record: when the answer is a JSON object followed by a text that is
    not only white space, without a backquote in either, [strip] takes
    off nothing but white space at the two ends, and [json.loads]
    refuses what follows the object. *)
Theorem text_after_object_rejected (w : world) (text_prompt : str)
    (image : option image) (t note : str) (d : dict) :
  answer w text_prompt image = inr (t ++ note) ->
  json_loads t = Return (JDict d) ->
  forallb isspace note = false ->
  contains [backtick] (t ++ note) = false ->
  exists msg,
    get_ai_analysis w text_prompt image
    = ([GenerateContent (request_content (prompt_template text_prompt) image)],
       Return (error_record (JSONDecodeError msg))).
Proof.
  intros Ha H Hn Hb.
  destruct (loads_lstrip t _ H) as [L Ne].
  destruct (lstrip_split t) as (u & E & Hu).
  assert (S : strip (t ++ note) = lstrip t ++ rstrip note).
  { unfold strip. rewrite E at 1. rewrite <- app_assoc.
    rewrite (lstrip_spaces u _ Hu).
    destruct (lstrip t) as [|c r] eqn:Lt; [congruence|].
    pose proof (lstrip_head _ _ _ Lt) as Hc.
    change ((c :: r) ++ note) with (c :: (r ++ note)).
    rewrite lstrip_id by exact Hc.
    change (c :: (r ++ note)) with ((c :: r) ++ note).
    apply rstrip_app, Hn. }
  assert (P : strip_fences (t ++ note) = lstrip t ++ rstrip note).
  { destruct (strip_fences_cut (t ++ note) Hb) as [-> _]. exact S. }
  destruct (loads_more (lstrip t) (rstrip note) d L (rstrip_solid _ Hn))
    as [msg Hm].
  exists msg.
  apply (analysis_parse_fails w text_prompt image (t ++ note));
    [exact Ha | rewrite P; exact Hm].
Qed.

Lemma text_after_object_rejected_witness :
  exists msg,
    get_ai_analysis
      (answering (js "{'summary': 'Scam'}" ++ nl ++ py "Stay safe!"))
      (py "You won a prize") None
    = ([GenerateContent
          (request_content (prompt_template (py "You won a prize")) None)],
       Return (error_record (JSONDecodeError msg))).
Proof.
  apply (text_after_object_rejected _ _ _ (js "{'summary': 'Scam'}")
           (nl ++ py "Stay safe!") [(py "summary", JStr (py "Scam"))]);
    reflexivity.
Defined.

(** What [strip_fences] leaves of a fenced text with a remark after the
    closing marker. *)
Lemma strip_fences_remark (w1 w2 t note : str) :
  forallb Decoder.is_ws w1 = true -> forallb Decoder.is_ws w2 = true ->
  contains [backtick] t = false -> contains [backtick] note = false ->
  startswith (py "json") note = false ->
  forallb isspace note = false ->
  strip_fences (fenced_with w1 w2 t ++ note)
  = (w1 ++ t ++ w2) ++ rstrip note.
Proof.
  intros H1 H2 Ht Hn Hj Hs.
  destruct (rstrip_part note) as (x & En & Hx).
  assert (Hr : contains [backtick] (rstrip note) = false).
  { rewrite En in Hn. apply (no_backtick_part [] _ x). exact Hn. }
  assert (Hjr : startswith (py "json") (rstrip note) = false).
  { destruct (startswith (py "json") (rstrip note)) eqn:E; [|reflexivity].
    rewrite En, (startswith_more _ _ x E) in Hj. exact Hj. }
  assert (Ne : rstrip note <> []).
  { intros N. pose proof (rstrip_solid _ Hs) as F. rewrite N in F.
    discriminate F. }
  assert (A : contains [backtick] (w1 ++ t ++ w2) = false).
  { apply no_backtick_app;
      [apply no_backtick_spaces, is_ws_isspace, H1|].
    apply no_backtick_app;
      [exact Ht | apply no_backtick_spaces, is_ws_isspace, H2]. }
  unfold strip_fences, strip, fenced_with.
  change ((fence_open ++ w1 ++ t ++ w2 ++ fence_close) ++ note)
    with (backtick :: ((py "``json" ++ w1 ++ t ++ w2 ++ fence_close) ++ note)).
  rewrite lstrip_id by reflexivity.
  change (backtick :: ((py "``json" ++ w1 ++ t ++ w2 ++ fence_close) ++ note))
    with ((fence_open ++ w1 ++ t ++ w2 ++ fence_close) ++ note).
  rewrite (rstrip_app _ _ Hs).
  destruct (rstrip note) as [|c r] eqn:R; [congruence|].
  assert (Hc : c <> backtick /\ contains [backtick] r = false).
  { cbn [contains startswith] in Hr. rewrite andb_true_r in Hr.
    apply orb_false_iff in Hr as [Hc Hr]. apply N.eqb_neq in Hc.
    split; [congruence | exact Hr]. }
  destruct Hc as [Hc Hrr].
  replace ((fence_open ++ w1 ++ t ++ w2 ++ fence_close) ++ c :: r)
    with (fence_open ++ (w1 ++ t ++ w2) ++ fence_close ++ c :: r)
    by (rewrite <- !app_assoc; reflexivity).
  unfold drop_fences.
  rewrite (replace_occurrence _ _ fence_open_nonempty). cbn [app].
  change fence_open with (backtick :: py "``json") at 1.
  rewrite (replace_past _ _ _ A).
  change (backtick :: py "``json") with fence_open.
  rewrite (replace_open_bare c r Hc).
  - rewrite (replace_absent fence_open [] r)
      by (change fence_open with (fence_close ++ py "json");
          apply contains_split, no_backtick_marker, Hrr).
    change fence_close with (backtick :: py "``") at 1.
    rewrite (replace_past _ _ _ A).
    change (backtick :: py "``") with fence_close.
    rewrite (replace_occurrence _ _ fence_close_nonempty). cbn [app].
    rewrite (replace_absent fence_close [] (c :: r))
      by (apply no_backtick_marker; exact Hr).
    reflexivity.
  - change (fence_close ++ c :: r)
      with (backtick :: backtick :: backtick :: c :: r).
    change fence_open with (backtick :: backtick :: backtick :: py "json").
    cbn [startswith]. rewrite !N.eqb_refl. exact Hjr.
Qed.

(** X27.  A remark after the closing marker gives the failure record:
    when the answer is an object between the markers followed by a text
    that is not only white space, holds no backquote and does not begin
    with "json", the markers are taken out and [json.loads] refuses the
    remark that is left after the object. *)
Theorem text_after_fence_rejected (w : world) (text_prompt : str)
    (image : option image) (t w1 w2 note : str) (d : dict) :
  answer w text_prompt image = inr (fenced_with w1 w2 t ++ note) ->
  json_loads t = Return (JDict d) ->
  forallb Decoder.is_ws w1 = true -> forallb Decoder.is_ws w2 = true ->
  contains [backtick] t = false -> contains [backtick] note = false ->
  startswith (py "json") note = false ->
  forallb isspace note = false ->
  exists msg,
    get_ai_analysis w text_prompt image
    = ([GenerateContent (request_content (prompt_template text_prompt) image)],
       Return (error_record (JSONDecodeError msg))).
Proof.
  intros Ha H H1 H2 Ht Hn Hj Hs.
  assert (HT : json_loads (w1 ++ t ++ w2) = Return (JDict d)).
  { apply parsed_return. rewrite (loads_spaces w1 t w2 H1 H2), H.
    reflexivity. }
  destruct (loads_more _ (rstrip note) d HT (rstrip_solid _ Hs)) as [msg Hm].
  exists msg.
  apply (analysis_parse_fails w text_prompt image
           (fenced_with w1 w2 t ++ note)); [exact Ha|].
  rewrite (strip_fences_remark w1 w2 t note H1 H2 Ht Hn Hj Hs). exact Hm.
Qed.

Lemma text_after_fence_rejected_witness :
  exists msg,
    get_ai_analysis
      (answering (fenced (js "{'summary': 'Scam'}") ++ nl
                  ++ py "Let me know if you need more."))
      (py "You won a prize") None
    = ([GenerateContent
          (request_content (prompt_template (py "You won a prize")) None)],
       Return (error_record (JSONDecodeError msg))).
Proof.
  apply (text_after_fence_rejected _ _ _ (js "{'summary': 'Scam'}") nl nl
           (nl ++ py "Let me know if you need more.")
           [(py "summary", JStr (py "Scam"))]);
    reflexivity.
Defined.

(** ** The page configuration and the prompt *)

Lemma later_drawing (e : event) :
  draws e = true -> is_page_config e = false ->
  negb (is_page_config e) = true.
Proof. intros _ ->. reflexivity. Qed.

Ltac all_later :=
  repeat first
    [ apply all_lift
    | apply all_st; [exact later_drawing | reflexivity]
    | apply all_within; [reflexivity | reflexivity |]
    | apply all_bind; [|intros ? _]
    | reflexivity ].

Lemma all_later_analyze (w : world) (text_prompt : str)
    (image : option image) :
  forallb (fun e => negb (is_page_config e))
    (fst (analyze w text_prompt image)) = true.
Proof.
  destruct (analyze_trace w text_prompt image) as [v ->].
  cbn [fst forallb is_page_config negb andb].
  apply all_report, later_drawing.
Qed.

Lemma all_later_startup (w : world) :
  forallb (fun e => negb (is_page_config e)) (fst (startup w)) = true.
Proof.
  unfold startup. apply all_try.
  - unfold may_raise.
    destruct (load_dotenv w), (configure w _), (generative_model w _);
      reflexivity.
  - intros e. reflexivity.
Qed.

(** X28.  The page is configured first and once: the first event of
    every run is the call of [st.set_page_config], and no later event of
    the run is such a call, whatever the world and the user do. *)
Theorem page_config_first (theme_css : str) (w : world) (ui : session) :
  exists rest,
    fst (script theme_css w ui) = page_config :: rest
    /\ forallb (fun e => negb (is_page_config e)) rest = true.
Proof.
  unfold script. rewrite bind_st_fst. eexists. split; [reflexivity|].
  apply all_bind; [reflexivity | intros _ _].
  apply all_bind; [apply all_later_startup | intros _ _].
  apply all_bind; [reflexivity | intros _ _].
  apply all_bind; [reflexivity | intros _ _].
  apply all_bind; [reflexivity | intros _ _].
  apply all_bind; [|intros _ _; apply all_bind; [|intros _ _]].
  - unfold tab1. all_later.
    destruct (text_btn ui); [|reflexivity].
    destruct (nonempty (text_area_value ui)); [|reflexivity].
    unfold text_scan. apply all_within; [reflexivity | reflexivity |].
    apply all_later_analyze.
  - unfold tab2. all_later.
    destruct (url_btn ui); [|reflexivity].
    destruct (nonempty (url_input_value ui)); [|reflexivity].
    unfold url_scan. apply all_within; [reflexivity | reflexivity |].
    apply all_bind.
    + rewrite get_text_from_url_cases. reflexivity.
    + intros s _. destruct (contains (py "Error") s); [reflexivity|].
      apply all_later_analyze.
  - unfold tab3. all_later.
    destruct (uploaded_file ui) as [f|]; [|reflexivity].
    apply all_bind; [rewrite st_image_cases; reflexivity | intros _ _].
    all_later.
    destruct (img_btn ui); [|reflexivity].
    unfold image_scan. apply all_within; [reflexivity | reflexivity |].
    apply all_bind; [reflexivity | intros _ _].
    apply all_bind; [apply all_lift | intros i _].
    apply all_later_analyze.
Qed.

Lemma request_content_inj (p q : str) (i j : option image) :
  request_content p i = request_content q j -> p = q /\ i = j.
Proof.
  destruct i, j; simpl; intros H; try discriminate H;
    injection H; intros; subst; auto.
Qed.

(** X29.  The request tells the input: two analyses whose contents are
    different texts, or whose images differ, or of which one has an
    image and the other none, send different requests to the model. *)
Theorem request_tells_input (a b : str) (i j : option image) :
  a <> b \/ i <> j ->
  request_content (prompt_template a) i
  <> request_content (prompt_template b) j.
Proof.
  intros D H. apply request_content_inj in H as [P E].
  destruct D as [D|D]; [apply D | exact (D E)].
  unfold prompt_template in P.
  repeat (apply app_inv_head in P).
  revert P. generalize (py " ---" ++ nl ++ py "    Provide your analysis ONLY in a structured JSON format with keys: "
  ++ dq ++ py "credibility_score" ++ dq ++ py ", "
  ++ dq ++ py "summary" ++ dq ++ py ", "
  ++ dq ++ py "red_flags" ++ dq ++ py ", "
  ++ dq ++ py "educational_insight" ++ dq
  ++ py ". The " ++ dq ++ py "red_flags" ++ dq
  ++ py " key must be a list of JSON objects, where each object has a "
  ++ dq ++ py "flag_type" ++ dq ++ py " and a "
  ++ dq ++ py "description" ++ dq ++ py "." ++ nl ++ py "    ").
  intros tail P. apply app_inv_tail in P. exact P.
Qed.

(** A text and the same text with dashes after it. *)
Lemma request_tells_input_witness :
  request_content (prompt_template (py "You won")) None
  <> request_content (prompt_template (py "You won ---")) None.
Proof.
  apply request_tells_input. left. discriminate.
Defined.
